(* ===== verification/_CoqProject ===== *)
-Q . S2P
Prelude.v
Text.v
Json.v
PPM.v
Layout.v
ImageView.v
ImagePaint.v
ViewGeometry.v
Codec.v
AVSettings.v
IViewSystem.v
FileSystem.v
ViewObjects.v
FFmpeg.v
DPX.v
Lights.v
DisplayProfile.v
Registry.v
Sequence.v
Gui.v
