(* ===== verification/Prelude.v ===== *)
(** * A verification development for DJV's image I/O core and viewer logic

    This library models, in Rocq, the parts of the DJV sources (C++) under
    [src/] that carry computational content, and proves what makes them
    correct.  The program is an image viewer with a plugin-based image I/O
    layer.  Codec plugins (PPM, DPX, Targa, JPEG, PNG, FFmpeg) translate
    files to and from pixel buffers.  Each plugin keeps options that are
    persisted as JSON, and the AV settings save and restore every plugin's
    options with the AV system's own values.  The viewer lays out popups,
    fits images into its view, keeps MDI tool windows and a File menu.

    ** How the parts interact, and where each is modelled

    - [Prelude] (this file): the error monad [result] with its notation in
      [djv_scope], the exceptions [exn], machine integers ([wrap], 64-bit
      [size_t], two's complement [int]), bytes in host order ([le_combine],
      [le_split]), [chunks] of a buffer, the hint databases [djv] and
      [djv_rw] and the tactics [invc] and [case_goal].
    - [Text]: the text primitives the codecs call (not under [src/],
      modelled from their contracts): [std::to_string] ([to_string_u]),
      [String::fromString] ([fromString_int]), [FileIO::readWord]
      ([readWord]) and [std::istream >> int] ([istream_int]), with their
      print/parse round trips.
    - [Json]: picojson's value tree; a [std::map] object is an association
      list kept in key order, [operator[]] an ordered insert, and every
      [fromJSON] is the loop [for_each_member] on an object or a
      [CannotParse] on anything else.  An exception thrown midway keeps
      what was assigned before it ([outcome]).
    - [PPM] ([src/lib/djvAV/PPM.cpp]): [getScanlineByteCount], the ASCII
      sample writer and reader, the [Data] enum and the plugin's options.
    - [Layout] ([src/lib/djvUI/LayoutUtil.cpp]): popup geometry and the
      choice of placement; [std::map<float, Popup>] is a key-sorted list.
    - [ImageView] ([src/lib/djvViewApp/ImageView.cpp]): the view's state
      ([ImageView::Private]) and every handler that changes it, over exact
      rationals, as the step relation [step]; the Section [View] takes
      [UI::ImageWidget::getXForm] (not under [src/]) as a variable.
    - [ImagePaint] (also [ImageView.cpp]): the members of [ImageView::Private]
      only painting reads, the handlers that change them ([setImageOptions],
      [setAnnotations], the OCIO observer), and [_paintEvent] as the list
      of render commands it issues.
    - [ViewGeometry]: the equivalences of the view's rational geometry
      ([vec2_eq], [size_eq]: same coordinates, same size) with [Proper]
      instances for [w], [h], [fit_zoom] and [lerp]; the zoom [imageFill]
      chooses depends on the widget's size only.
    - [Codec]: the [toJSON]/[fromJSON] overloads as the type class
      [OptionsCodec] with its law [OptionsCodecLaws]; instances for PPM
      options, JPEG settings ([JPEGJSONInline.h]) and the view's
      [GridOptions] (generic in its members' codecs).
    - [AVSettings] ([src/lib/djvUI/AVSettings.cpp]): [AV::load] and
      [AV::save] against the interface [IOSystem]/[IOSystemLaws] of the I/O
      system; [Plugins] implements it with the PPM and JPEG codecs and
      discharges its laws.
    - [IViewSystem] ([src/lib/djvViewApp/IViewSystem.cpp]): the registry of
      MDI widgets over [gmap]s.  The canvas, the widgets' sizes and their
      close callbacks are explicit stores keyed by widget identity, since
      the C++ shares the widget objects between them.
    - [FileSystem] ([src/lib/djvViewLib/FileSystem.cpp]): the File actions,
      their click observers and the dialogs' callbacks, driven by a list of
      user events ([run]).
    - [ViewObjects] ([FileSystem.cpp], [src/lib/djvViewLib/ImageObject.cpp]):
      the view objects' interface to the main window (menu, sort key,
      current media or project) as the type class [ViewObject], with the
      File system and the Image object as instances.
    - [FFmpeg] ([src/lib/djvAV/FFmpeg.cpp]): sample-format conversions and
      names, the log callback with FFmpeg's global log level.
    - [DPX] ([src/lib/djvAV/DPXWrite.cpp]): the writer object [create]
      makes and [_write] as a trace of file operations; the spec's 10-bit
      MSB packing with its inverse.
    - [Lights] ([src/lib/djvScene/LightInline.h]): the light classes, their
      hierarchy as the type class [Light] with laws.
    - [DisplayProfile] ([src/lib/djvViewLib/djvViewDisplayProfile.cpp]):
      equality and [QStringList] serialization, the members' operators as
      the interface [QStringListIO].
    - [Gui] ([src/lib/djvGui/djvMiscPrefsWidget.cpp],
      [djvApplicationInfoDialog.cpp]): the preferences widget over the
      process-wide preferences (record [Globals]), driven by a list of user
      events, and the information dialog's lazily created singleton.
    - [Registry] (spec 4.3; the registry's code is not under [src/]): the
      plugin registry as the list of entries in registration order, each
      entry what a plugin's [Plugin::create] passes to [IPlugin::_init]
      ([plugin_entry], [PPM.cpp]; the Targa entry of [Targa.h]), with
      [register], [resolve] (extensions compared without case),
      [resolveByName] and [listPlugins].
    - [Sequence] (spec 4.4, not under [src/]): the split of a path around
      its numeric token, zero-padded frame paths, the resolution of a frame
      range against the files present, and a sequence writer calling
      [DPX._write] once per frame path.

    ** What the theorems show

    - Codecs: the PPM ASCII round trip and scanline bound, the
      termination of its decimal printing (each sample of the buffer
      printed in full by the unbounded digit loop), and its silent
      handling of unsupported depths and out-of-range samples.  The 10-bit
      DPX packing is lossless, and the DPX writer's file is its header
      with the profile [Raw] or [FilmPrint], so it keeps only whether a
      color space was given.
    - Options and settings: every option codec reads back what it wrote
      (PPM, JPEG, grid options).  [AV::save] writes exactly the five AV
      members and the plugins' members, the plugins last.  A JPEG quality
      without digits silently reads as 0, or keeps its value when the
      string is blank.  A settings object created ([AV::_init]) from what
      [AV::save s] wrote restores [s], for every I/O system satisfying the
      interface laws (a refinement proved once, discharged by [Plugins]).
      An AV member that does not parse ends [AV::load] with its error
      before anything is set; a bad plugin member aborts the load of the
      later plugins.
    - Viewer: the first fitting popup is chosen, else a largest one; of
      equally large ones the point overload keeps the last tried and the
      button overload the first.  The view invariant (non-negative zoom, overlay in sync)
      holds in every reachable state.  Fill and frame choose the largest
      fitting zoom and center the image; zoom focus keeps the point under
      the mouse; an animation ends at its target; [setImage] changes
      nothing for the image shown and otherwise resets the overlay and
      requests one layout.  With the saved lock [None] the first layout
      without an image disables the initial fit, and changing the aspect
      ratio without an image dereferences null.  Painting balances its
      transforms and draws the image once with the color spaces of the
      current OCIO configuration; the annotations are drawn without the
      image's rotation and aspect ratio.  The fitted zoom depends on the
      widget's size only ([ViewGeometry]).
    - Tool windows and menu: the registry invariant holds in every
      reachable state, and a reopened widget gets its predecessor's
      geometry.  A widget opened twice under one name leaves an orphan that
      closes the new one.  The File actions keep their shortcuts; exit
      needs a confirmation, and with a dialog system Exit then yes leaves
      the application after any event history (without one, nothing
      ever exits); Reload and Export do nothing; Close and Export
      follow the current media.
    - FFmpeg and display profiles: the sample-format maps, the log filter
      with its buffer bound, and the profile's round trip (the LUT is not
      written, and the LUT file comes back as its text converts to file
      information).  The preferences widget shows the preferences after any
      user input, and a reset restores the factory values.
    - Registry and sequences: a successful registration lists the plugins
      in order and resolves each of their extensions, in any case, to its
      plugin; overlapping extensions fail with [DuplicateExtension] and
      unclaimed ones with [NoPluginForExtension].  A clip written as a DPX
      sequence opens exactly its distinct zero-padded frame paths, which
      resolve back, and a missing frame [k] fails with [MissingFrame k].

    ** Bounds and fuel

    [size_t] is 64 bits and [int] 32 bits, with their wrap-around written
    out ([wrap], [to_int]) where a claim depends on it.  The decimal
    printer [dec_digits_aux] recurses on fuel [dec_fuel n = 1 + log2 n],
    at least the number of decimal digits of [n] ([dec_fuel_enough]), so
    the fuel never runs out: with it or more fuel the printer equals
    [dec_digits_wf], the same digit loop defined with Equations by
    well-founded recursion on [Z.to_nat n] ([dec_digits_aux_enough],
    claim [writeASCII_terminates]); the frame-number printer [Sequence.digits_aux]
    likewise gets fuel [1 + log2 n], enough for [n < 10 ^ fuel]
    ([digits_value]).  The word buffers of [readWord] and of
    FFmpeg's log callback hold [cStringLength - 1 = 4095] characters, as
    in the C++.  Every other recursion is structural.  Floats of the view
    are exact rationals ([Q]), and popup coordinates are integers (exact
    for pixel values below 2^24).

    ** Not modelled

    The other GUI widgets and dialogs (spec, section 1: out of scope;
    their sources are declarations or Qt layout), the Targa reader (only
    the plugin's name and extension are modelled, in [Registry]), the PNG
    and IFF readers (only their declarations are in the sources), the
    bodies of the AV and I/O systems, the animation timer ([Animation.h]
    declares [start], [stop] and [_tick] but their bodies are not in the
    repository; [ImageView] models the animation through its two
    callbacks, with any interpolation value), [Context] and the time
    utilities, which are not under [src/], and the tests, which exercise an
    older image I/O interface than the one modelled.  Every [.cpp] body
    under [src/] that the spec covers is modelled; what the map leaves out
    is license text, includes, constructors, [create] wrappers and observer
    getters.  Negative frame numbers are
    outside the sequence theorems: the spec gives no text for them. *)

From Stdlib Require Export Ascii String ZArith Lia.
From stdpp Require Export base list strings sets.
Export ListNotations.

Open Scope Z_scope.

(** ** The error monad *)

(** A fallible computation: the C++ code returns normally ([Ok]) or throws
    ([Err]). *)
Inductive result (E A : Type) : Type :=
| Ok (a : A)
| Err (e : E).
Arguments Ok {E A} a.
Arguments Err {E A} e.

Definition bind {E A B} (c : result E A) (k : A -> result E B) : result E B :=
  match c with
  | Ok a => k a
  | Err e => Err e
  end.

Declare Scope djv_scope.
Delimit Scope djv_scope with djv.
Notation "x <- c ;; k" := (bind c (fun x => k))
  (at level 100, c at next level, right associativity) : djv_scope.
Notation "'throw' e" := (Err e) (at level 10) : djv_scope.
Open Scope djv_scope.

(** The exceptions the modelled code raises. *)
Inductive exn :=
| TypeMismatch   (** picojson [get<T>] on a value of another type *)
| CannotParse    (** [std::invalid_argument("error_cannot_parse_the_value")] *)
| ReadError      (** [FileIO::read] past the end of the file *)
| NullDeref.     (** dereferencing a null [std::shared_ptr] *)

#[export] Instance exn_eq_dec : EqDecision exn.
Proof. solve_decision. Defined.

(** ** Machine integers *)

(** The value a [w]-bit unsigned variable holds after an assignment. *)
Definition wrap (w : Z) (z : Z) : Z := z mod 2 ^ w.

(** [size_t] on the 64-bit platforms DJV targets. *)
Definition size_t_bits : Z := 64.
Definition to_size_t (z : Z) : Z := wrap size_t_bits z.

(** Two's complement [int]. *)
Definition int_min : Z := - 2 ^ 31.
Definition int_max : Z := 2 ^ 31 - 1.
Definition in_int (z : Z) : Prop := int_min <= z <= int_max.
Definition to_int (z : Z) : Z := wrap 32 (z + 2 ^ 31) - 2 ^ 31.

(** ** Bytes in host order

    [reinterpret_cast<const T*>] reads a [T] from [sizeof(T)] bytes in the
    host's byte order, little-endian on the platforms DJV ships for. *)

Definition is_byte (b : Z) : Prop := 0 <= b < 256.

#[export] Instance is_byte_dec b : Decision (is_byte b).
Proof. unfold is_byte. apply _. Defined.

Fixpoint le_combine (bs : list Z) : Z :=
  match bs with
  | [] => 0
  | b :: t => b + 256 * le_combine t
  end.

Fixpoint le_split (n : nat) (v : Z) : list Z :=
  match n with
  | O => []
  | S n' => v mod 256 :: le_split n' (v / 256)
  end.

(** ** Lists *)

(** [take]/[drop] by chunks of [w]: the sample [i] of a buffer of [T]s. *)
Fixpoint chunks (w : nat) (n : nat) (buf : list Z) : option (list (list Z)) :=
  match n with
  | O => Some []
  | S n' =>
      if decide (w <= length buf)%nat then
        match chunks w n' (drop w buf) with
        | Some cs => Some (take w buf :: cs)
        | None => None
        end
      else None
  end.

(** ** Lemmas on the monad, integers, bytes and chunks *)

Lemma bind_Ok {E A B} (a : A) (k : A -> result E B) : bind (Ok a) k = k a.
Proof. reflexivity. Qed.

Lemma bind_Err {E A B} (e : E) (k : A -> result E B) : bind (Err e) k = Err e.
Proof. reflexivity. Qed.

Lemma bind_eq_Ok {E A B} (c : result E A) (k : A -> result E B) b :
  bind c k = Ok b -> exists a, c = Ok a /\ k a = Ok b.
Proof. destruct c; simpl; [eauto | discriminate]. Qed.

Lemma wrap_small w z : 0 <= z < 2 ^ w -> wrap w z = z.
Proof. intros. unfold wrap. apply Z.mod_small. lia. Qed.

Lemma wrap_range w z : 0 <= w -> 0 <= wrap w z < 2 ^ w.
Proof.
  intros Hw. unfold wrap. apply Z.mod_pos_bound.
  apply Z.pow_pos_nonneg; lia.
Qed.

(** Converting an operand to [size_t] first does not change a wrapped
    product. *)
Lemma wrap_mul_wrap w a b c d :
  0 <= w -> wrap w (a * wrap w b * c + d) = wrap w (a * b * c + d).
Proof.
  intros Hw. unfold wrap.
  assert (2 ^ w <> 0) by (apply Z.pow_nonzero; lia).
  rewrite <- Z.add_mod_idemp_l, <- Z.mul_mod_idemp_l, Z.mul_mod_idemp_r by done.
  rewrite Z.mul_mod_idemp_l, Z.add_mod_idemp_l by done. reflexivity.
Qed.

Lemma to_int_small z : in_int z -> to_int z = z.
Proof.
  unfold in_int, int_min, int_max, to_int. intros H.
  rewrite wrap_small; lia.
Qed.

(** Storing an [int] into a narrower unsigned type keeps its low bits, the
    same as storing the untruncated value. *)
Lemma to_int_mod z k : 0 <= k <= 31 -> to_int z mod 2 ^ k = z mod 2 ^ k.
Proof.
  intros Hk. unfold to_int, wrap.
  assert (Hd : forall j, k <= j -> (2 ^ k | 2 ^ j)).
  { intros j Hj. exists (2 ^ (j - k)). rewrite <- Z.pow_add_r by lia. f_equal; lia. }
  rewrite Zminus_mod, Z.mod_mod_divide by (apply Hd; lia).
  rewrite <- Zminus_mod. f_equal. lia.
Qed.

Lemma length_le_split n v : length (le_split n v) = n.
Proof. revert v; induction n; simpl; auto. Qed.

Lemma le_combine_range bs :
  Forall is_byte bs -> 0 <= le_combine bs < 2 ^ (8 * Z.of_nat (length bs)).
Proof.
  induction 1 as [|b bs Hb _ IH]; simpl; [lia|].
  unfold is_byte in Hb.
  rewrite Nat2Z.inj_succ, Z.mul_succ_r, Z.pow_add_r by lia.
  change (2 ^ 8) with 256. lia.
Qed.

Lemma le_split_combine bs :
  Forall is_byte bs -> le_split (length bs) (le_combine bs) = bs.
Proof.
  induction 1 as [|b bs Hb _ IH]; simpl; [reflexivity|].
  unfold is_byte in Hb. f_equal.
  - rewrite Z.mul_comm, Z.mod_add by lia. apply Z.mod_small; lia.
  - rewrite Z.mul_comm, Z.div_add by lia.
    rewrite Z.div_small by lia. exact IH.
Qed.

Lemma le_split_bytes n v : Forall is_byte (le_split n v).
Proof.
  revert v; induction n; simpl; constructor; auto.
  unfold is_byte. apply Z.mod_pos_bound. lia.
Qed.

Lemma chunks_concat w (cs : list (list Z)) rest :
  Forall (fun c => length c = w) cs ->
  chunks w (length cs) (concat cs ++ rest) = Some cs.
Proof.
  induction 1 as [|c cs Hc _ IH]; simpl; [reflexivity|].
  rewrite <- app_assoc.
  rewrite decide_True by (rewrite length_app; lia).
  replace (drop w _) with (concat cs ++ rest) by (subst w; by rewrite drop_app_length).
  replace (take w _) with c by (subst w; by rewrite take_app_length).
  by rewrite IH.
Qed.

Lemma chunks_length w n buf cs :
  chunks w n buf = Some cs -> length cs = n /\ Forall (fun c => length c = w) cs.
Proof.
  revert buf cs; induction n as [|n IH]; simpl; intros buf cs H.
  - injection H as <-. split; [reflexivity | constructor].
  - destruct (decide (w <= length buf)%nat) as [Hw|]; [|discriminate].
    destruct (chunks w n (drop w buf)) as [cs'|] eqn:E; [|discriminate].
    injection H as <-. destruct (IH _ _ E) as [IH1 IH2].
    split; [simpl; lia|]. constructor; [|exact IH2].
    rewrite length_take. lia.
Qed.

Lemma chunks_exact w n buf :
  length buf = (n * w)%nat ->
  exists cs, chunks w n buf = Some cs /\ concat cs = buf.
Proof.
  revert buf; induction n as [|n IH]; simpl; intros buf Hlen.
  - exists []. destruct buf; [done | discriminate].
  - rewrite decide_True by lia.
    destruct (IH (drop w buf)) as (cs & Hcs & Hcat); [rewrite length_drop; lia|].
    rewrite Hcs. exists (take w buf :: cs). split; [done|].
    simpl. by rewrite Hcat, take_drop.
Qed.

Lemma chunks_prefix w n buf cs :
  chunks w n buf = Some cs -> exists rest, buf = concat cs ++ rest.
Proof.
  revert buf cs; induction n as [|n IH]; simpl; intros buf cs H.
  - injection H as <-. by exists buf.
  - destruct (decide (w <= length buf)%nat); [|discriminate].
    destruct (chunks w n (drop w buf)) as [cs'|] eqn:E; [|discriminate].
    injection H as <-. destruct (IH _ _ E) as [rest Hr]. exists rest.
    simpl. rewrite <- app_assoc, <- Hr. symmetry. apply take_drop.
Qed.

(** ** Automation *)

Create HintDb djv discriminated.
Create Rewrite HintDb djv_rw.
#[export] Hint Resolve le_split_bytes wrap_range : djv.
#[export] Hint Rewrite length_le_split @bind_Ok @bind_Err : djv_rw.

(** Invert an equation between constructors and substitute. *)
Ltac invc H := inversion H; clear H; subst.

(** Case on every [if]/[match] of the goal and close with the hypotheses. *)
Ltac case_goal :=
  repeat (case_match; simplify_eq/=); try done.
