(* ===== verification/Text.v ===== *)
(** * Text primitives of the codecs

    The C++ text routines that DJV's ASCII codecs and JSON option parsers
    rely on: printing an unsigned value in decimal ([std::to_string]),
    reading a whitespace-delimited word from a file ([FileIO::readWord]),
    DJV's fast decimal parser ([String::fromString] for [int]) and the
    standard [std::istream >> int] extraction.  None of these bodies is under
    [src/]: they are modelled from their library contracts and marked so in
    the manifest.  The decimal round trips proved here are what the codec
    round trips of [PPM] and [JPEG] rest on.  The fuelled digit printer
    is shown equal to [dec_digits_wf], the digit loop defined by
    well-founded recursion, whenever its fuel is [dec_fuel] or more. *)

From S2P Require Import Prelude.
From Equations Require Import Equations.

Definition inspect {A} (a : A) : {b | a = b} := exist _ a eq_refl.
Notation "x 'eqn' ':' p" := (exist _ x p) (only parsing, at level 20).

(** ** Digits *)

Definition digit_char (d : Z) : ascii := ascii_of_nat (48 + Z.to_nat d).
Definition char_digit (c : ascii) : Z := Z.of_nat (nat_of_ascii c) - 48.
Definition is_digit (c : ascii) : bool :=
  (48 <=? nat_of_ascii c)%nat && (nat_of_ascii c <=? 57)%nat.

(** Most significant digit first; [acc] holds the digits already produced.
    [fuel] bounds the number of digits. *)
Fixpoint dec_digits_aux (fuel : nat) (n : Z) (acc : list Z) : list Z :=
  match fuel with
  | O => acc
  | S f => if n <? 10 then n :: acc else dec_digits_aux f (n / 10) (n mod 10 :: acc)
  end.

(** A value has at most as many decimal digits as bits. *)
Definition dec_fuel (n : Z) : nat := S (Z.to_nat (Z.log2 n)).

Definition dec_digits (n : Z) : list Z := dec_digits_aux (dec_fuel n) n [].

(** [std::to_string(static_cast<unsigned int>(v))]. *)
Definition to_string_u (n : Z) : list ascii := map digit_char (dec_digits n).

(** The digit loop of [std::to_string] without a bound: it recurses on
    [n / 10], which is smaller for [n >= 10], so it terminates by the
    measure [Z.to_nat n].  This is the reference the fuelled printer is
    compared with. *)
Equations? dec_digits_wf (n : Z) : list Z by wf (Z.to_nat n) lt :=
dec_digits_wf n with inspect (n <? 10) := {
  | true eqn:_ => [n]
  | false eqn:H => dec_digits_wf (n / 10) ++ [n mod 10] }.
Proof. apply Z.ltb_ge in H. apply Z2Nat.inj_lt; [apply Z.div_pos | |apply Z.div_lt]; lia. Qed.

(** The value of a digit sequence, as every decimal parser accumulates it. *)
Definition dec_step (acc d : Z) : Z := acc * 10 + d.
Definition dec_value (ds : list Z) : Z := fold_left dec_step ds 0.

(** ** [FileIO::readWord]

    Reads characters one at a time; [#] starts a comment that lasts until the
    end of the line; a NUL, CR or LF ends a comment and, like a space or tab,
    ends a word that has started.  At most [cStringLength - 1] characters are
    kept.  Reading past the end of the file throws. *)

Definition cStringLength : nat := 4096.

Inductive word_parse := ParseWord | ParseComment.

Definition is_eol (c : ascii) : bool :=
  (c =? "000")%char || (c =? "010")%char || (c =? "013")%char.
Definition is_blank (c : ascii) : bool := (c =? " ")%char || (c =? "009")%char.

(** [w] is the word read so far, last character first. *)
Fixpoint readWord_aux (p : word_parse) (w : list ascii) (inp : list ascii)
  : option (list ascii * list ascii) :=
  match inp with
  | [] => None
  | c :: rest =>
      if (c =? "#")%char then readWord_aux ParseComment w rest
      else if is_eol c then
        match w with
        | [] => readWord_aux ParseWord w rest
        | _ => Some (rev w, rest)
        end
      else if is_blank c then
        match w with
        | [] => readWord_aux p w rest
        | _ => Some (rev w, rest)
        end
      else
        let w' := match p with
                  | ParseWord => if decide (length w < cStringLength - 1)%nat
                                 then c :: w else w
                  | ParseComment => w
                  end in
        readWord_aux p w' rest
  end.

Definition readWord (inp : list ascii) : option (list ascii * list ascii) :=
  readWord_aux ParseWord [] inp.

(** ** [String::fromString(const char *, size_t, int &)]

    An optional minus sign, then every character up to the terminator is
    taken as a digit [c - '0'] and the digits are summed with powers of ten;
    no character is checked.  The [int] arithmetic wraps. *)
Definition fromString_int (s : list ascii) : Z :=
  match s with
  | c :: t =>
      if (c =? "-")%char then to_int (- dec_value (map char_digit t))
      else to_int (dec_value (map char_digit s))
  | [] => 0
  end.

(** ** [std::ostream << int] and [std::istream >> int] *)

Definition to_string_i (q : Z) : list ascii :=
  if q <? 0 then "-"%char :: to_string_u (- q) else to_string_u q.

Definition is_space (c : ascii) : bool :=
  let n := nat_of_ascii c in (n =? 32)%nat || ((9 <=? n)%nat && (n <=? 13)%nat).

Fixpoint skip_space (s : list ascii) : list ascii :=
  match s with
  | c :: t => if is_space c then skip_space t else s
  | [] => []
  end.

Fixpoint take_digits (s : list ascii) : list ascii :=
  match s with
  | c :: t => if is_digit c then c :: take_digits t else []
  | [] => []
  end.

(** [std::istream >> std::string]: white space is skipped, then the word
    runs to the next white space. *)
Fixpoint take_word (s : list ascii) : list ascii :=
  match s with
  | c :: t => if is_space c then [] else c :: take_word t
  | [] => []
  end.

Definition istream_word (s : list ascii) : list ascii := take_word (skip_space s).

(** [ss >> out] for an [int] [out]: the sentry skips leading white space
    and, when nothing else is left, fails without touching [out];
    otherwise a sign is accepted, without a digit the extraction fails and
    stores 0, and a value out of the range of [int] stores the nearest
    bound.  (C++11 [num_get] semantics; the stream's failbit is not
    observed by the callers in DJV.) *)
Definition istream_int (s : list ascii) (out : Z) : Z :=
  match skip_space s with
  | [] => out
  | s =>
  let '(neg, s) := match s with
                   | c :: t => if (c =? "-")%char then (true, t)
                               else if (c =? "+")%char then (false, t)
                               else (false, s)
                   | [] => (false, s)
                   end in
  match take_digits s with
  | [] => 0
  | ds =>
      let v := dec_value (map char_digit ds) in
      let v := if neg then - v else v in
      Z.max int_min (Z.min int_max v)
  end
  end.

(** ** Lemmas *)

Lemma char_digit_char d : 0 <= d < 10 -> char_digit (digit_char d) = d.
Proof.
  intros H. unfold char_digit, digit_char.
  rewrite nat_ascii_embedding by lia. lia.
Qed.

Lemma is_digit_char d : 0 <= d < 10 -> is_digit (digit_char d) = true.
Proof.
  intros H. unfold is_digit, digit_char.
  rewrite nat_ascii_embedding by lia.
  apply andb_true_intro; split; apply Nat.leb_le; lia.
Qed.

Lemma dec_digits_aux_app f n acc :
  dec_digits_aux f n acc = dec_digits_aux f n [] ++ acc.
Proof.
  revert n acc; induction f as [|f IH]; intros n acc; simpl; [reflexivity|].
  destruct (n <? 10); [reflexivity|].
  rewrite IH, (IH _ [_]), <- app_assoc. reflexivity.
Qed.

Lemma dec_digits_aux_value f n acc :
  0 <= n < 10 ^ Z.of_nat f ->
  fold_left dec_step (dec_digits_aux f n acc) 0 = fold_left dec_step acc n.
Proof.
  revert n acc; induction f as [|f IH]; intros n acc Hn; simpl.
  - assert (n = 0) as -> by (simpl in Hn; lia). reflexivity.
  - destruct (Z.ltb_spec n 10); [reflexivity|].
    rewrite IH.
    + simpl. f_equal. unfold dec_step.
      pose proof (Z.div_mod n 10 ltac:(lia)). lia.
    + rewrite Nat2Z.inj_succ, Z.pow_succ_r in Hn by lia.
      split; [apply Z.div_pos; lia|]. apply Z.div_lt_upper_bound; lia.
Qed.

Lemma dec_digits_aux_range f n acc :
  0 <= n -> Forall (fun d => 0 <= d < 10) acc ->
  Forall (fun d => 0 <= d < 10) (dec_digits_aux f n acc).
Proof.
  revert n acc; induction f as [|f IH]; intros n acc Hn Hacc; simpl; [exact Hacc|].
  destruct (Z.ltb_spec n 10).
  - constructor; [lia | exact Hacc].
  - apply IH; [apply Z.div_pos; lia|]. constructor; [|exact Hacc].
    apply Z.mod_pos_bound; lia.
Qed.

Lemma dec_digits_aux_length f n acc k :
  0 <= n < 10 ^ k -> 1 <= k ->
  Z.of_nat (length (dec_digits_aux f n acc)) <= k + Z.of_nat (length acc).
Proof.
  revert n acc k; induction f as [|f IH]; intros n acc k Hn Hk; simpl; [lia|].
  destruct (Z.ltb_spec n 10); simpl; [lia|].
  assert (2 <= k).
  { destruct (Z.le_gt_cases k 1); [|lia].
    assert (10 ^ k <= 10 ^ 1) by (apply Z.pow_le_mono_r; lia). lia. }
  specialize (IH (n / 10) (n mod 10 :: acc) (k - 1)). simpl in IH.
  assert (0 <= n / 10 < 10 ^ (k - 1)).
  { split; [apply Z.div_pos; lia|]. apply Z.div_lt_upper_bound; [lia|].
    rewrite <- Z.pow_succ_r by lia. rewrite Z.sub_1_r, Z.succ_pred. lia. }
  specialize (IH ltac:(assumption) ltac:(lia)). lia.
Qed.

Lemma dec_fuel_enough n : 0 <= n -> 0 <= n < 10 ^ Z.of_nat (dec_fuel n).
Proof.
  intros Hn. unfold dec_fuel. rewrite Nat2Z.inj_succ, Z2Nat.id by apply Z.log2_nonneg.
  split; [exact Hn|].
  destruct (Z.eq_dec n 0) as [->|Hn0]; [reflexivity|].
  destruct (Z.log2_spec n) as [_ Hlt]; [lia|].
  eapply Z.lt_le_trans; [exact Hlt|].
  apply Z.pow_le_mono_l. lia.
Qed.

(** Decimal printing and accumulation are inverse. *)
Lemma dec_value_digits n : 0 <= n -> dec_value (dec_digits n) = n.
Proof.
  intros Hn. unfold dec_value, dec_digits.
  rewrite dec_digits_aux_value by (apply dec_fuel_enough; lia). reflexivity.
Qed.

Lemma dec_digits_wf_eq n :
  dec_digits_wf n = if n <? 10 then [n] else dec_digits_wf (n / 10) ++ [n mod 10].
Proof. funelim (dec_digits_wf n); simp dec_digits_wf; match goal with E : (n <? 10) = _ |- _ => rewrite E end; reflexivity. Qed.

Lemma dec_digits_aux_S f n acc :
  dec_digits_aux (S f) n acc = if n <? 10 then n :: acc else dec_digits_aux f (n / 10) (n mod 10 :: acc).
Proof. reflexivity. Qed.

Lemma dec_digits_aux_wf f n acc :
  0 <= n < 10 ^ Z.of_nat (S f) -> dec_digits_aux (S f) n acc = dec_digits_wf n ++ acc.
Proof.
  revert n acc; induction f as [|f IH]; intros n acc Hn;
    rewrite dec_digits_aux_S, dec_digits_wf_eq; destruct (Z.ltb_spec n 10); try done.
  - simpl in Hn; lia.
  - rewrite IH, <- app_assoc; [done|].
    rewrite Nat2Z.inj_succ, Z.pow_succ_r in Hn by lia.
    split; [apply Z.div_pos; lia|]. apply Z.div_lt_upper_bound; lia.
Qed.

(** The fuel [dec_fuel n] never runs out: with it, or with more, the
    fuelled printer gives the digits of the unbounded one. *)
Lemma dec_digits_aux_enough f n :
  0 <= n -> (dec_fuel n <= f)%nat -> dec_digits_aux f n [] = dec_digits_wf n.
Proof.
  intros Hn Hf. destruct f as [|f]; [unfold dec_fuel in Hf; lia|].
  rewrite dec_digits_aux_wf, app_nil_r; [done|].
  pose proof (dec_fuel_enough n Hn) as He. split; [lia|].
  eapply Z.lt_le_trans; [apply He|]. apply Z.pow_le_mono_r; lia.
Qed.

Lemma to_string_u_wf n : 0 <= n -> to_string_u n = map digit_char (dec_digits_wf n).
Proof. intros Hn. unfold to_string_u, dec_digits. by rewrite dec_digits_aux_enough. Qed.

Lemma dec_digits_range n : 0 <= n -> Forall (fun d => 0 <= d < 10) (dec_digits n).
Proof. intros Hn. apply dec_digits_aux_range; [lia | constructor]. Qed.

Lemma dec_digits_length n k :
  0 <= n < 10 ^ k -> 1 <= k -> Z.of_nat (length (dec_digits n)) <= k.
Proof.
  intros Hn Hk. pose proof (dec_digits_aux_length (dec_fuel n) n [] k Hn Hk) as H.
  unfold dec_digits. cbn [length] in H. lia.
Qed.

Lemma dec_digits_nonempty n : dec_digits n <> [].
Proof.
  unfold dec_digits, dec_fuel. simpl.
  destruct (n <? 10); [discriminate|].
  rewrite dec_digits_aux_app. destruct (dec_digits_aux _ _ _); discriminate.
Qed.

Lemma map_char_digit_digits ds :
  Forall (fun d => 0 <= d < 10) ds -> map char_digit (map digit_char ds) = ds.
Proof.
  induction 1; simpl; [reflexivity|]. rewrite char_digit_char by assumption.
  f_equal; assumption.
Qed.

(** Parsing what [to_string_u] printed gives the value back. *)
Lemma to_string_u_value n :
  0 <= n -> dec_value (map char_digit (to_string_u n)) = n.
Proof.
  intros Hn. unfold to_string_u.
  rewrite map_char_digit_digits by (apply dec_digits_range; lia).
  apply dec_value_digits; lia.
Qed.

Lemma to_string_u_digits n :
  0 <= n -> Forall (fun c => is_digit c = true) (to_string_u n).
Proof.
  intros Hn. unfold to_string_u. apply Forall_map.
  eapply Forall_impl; [apply dec_digits_range; lia|].
  intros d Hd. exact (is_digit_char d Hd).
Qed.

Lemma to_string_u_nonempty n : to_string_u n <> [].
Proof.
  unfold to_string_u. pose proof (dec_digits_nonempty n).
  destruct (dec_digits n); [contradiction | discriminate].
Qed.

Lemma length_to_string_u n k :
  0 <= n < 10 ^ k -> 1 <= k -> Z.of_nat (length (to_string_u n)) <= k.
Proof. intros. unfold to_string_u. rewrite length_map. by apply dec_digits_length. Qed.

#[export] Hint Resolve to_string_u_nonempty to_string_u_digits : djv.

(** A decimal digit is none of the characters the readers treat specially. *)
Lemma digit_not_special c :
  is_digit c = true ->
  (c =? "#")%char = false /\ (c =? "-")%char = false /\ (c =? "+")%char = false /\
  is_eol c = false /\ is_blank c = false /\ is_space c = false.
Proof.
  destruct c as [[] [] [] [] [] [] [] []]; vm_compute; intros H;
    solve [discriminate H | repeat split].
Qed.

Lemma take_digits_all s :
  Forall (fun c => is_digit c = true) s -> take_digits s = s.
Proof. induction 1 as [|c s Hc _ IH]; simpl; [done|]. by rewrite Hc, IH. Qed.

(** [readWord] returns a word of ordinary characters followed by a
    separator, and leaves the input just after the separator. *)
Lemma readWord_aux_word acc w sep rest :
  Forall (fun c => is_digit c = true) w ->
  (length acc + length w <= cStringLength - 1)%nat ->
  acc ++ w <> [] ->
  (sep =? "#")%char = false -> is_eol sep || is_blank sep = true ->
  readWord_aux ParseWord acc (w ++ sep :: rest) = Some (rev acc ++ w, rest).
Proof.
  intros Hw. revert acc. induction Hw as [|c w Hc _ IH]; intros acc Hlen Hne Hsep Hsp.
  - rewrite app_nil_r in Hne. simpl. rewrite Hsep.
    destruct acc as [|a acc]; [done|].
    rewrite app_nil_r.
    destruct (is_eol sep); [done|]. simpl in Hsp. by rewrite Hsp.
  - destruct (digit_not_special c Hc) as (H1 & _ & _ & H2 & H3 & _).
    simpl. rewrite H1, H2, H3. cbn [length] in Hlen. unfold cStringLength in *.
    rewrite decide_True by lia.
    rewrite IH by (simpl; first [lia | done]).
    simpl. by rewrite <- app_assoc.
Qed.

Lemma readWord_to_string_u n sep rest :
  0 <= n -> (length (to_string_u n) <= cStringLength - 1)%nat ->
  (sep =? "#")%char = false -> is_eol sep || is_blank sep = true ->
  readWord (to_string_u n ++ sep :: rest) = Some (to_string_u n, rest).
Proof.
  intros Hn Hlen Hsep Hsp. unfold readWord.
  apply (readWord_aux_word [] (to_string_u n)); [by apply to_string_u_digits| |..| done | done].
  - exact Hlen.
  - apply to_string_u_nonempty.
Qed.

(** [String::fromString] reads back what [std::to_string] wrote, wrapped
    to an [int]. *)
Lemma fromString_to_string_u_wrap n :
  0 <= n -> fromString_int (to_string_u n) = to_int n.
Proof.
  intros Hn. pose proof (to_string_u_value n Hn) as Hv.
  pose proof (to_string_u_digits n Hn) as Hd.
  unfold fromString_int. destruct (to_string_u n) as [|c t] eqn:E;
    [by destruct (to_string_u_nonempty n)|].
  apply Forall_cons in Hd as [Hc _].
  destruct (digit_not_special c Hc) as (_ & -> & _).
  by rewrite Hv.
Qed.

Lemma fromString_to_string_u n :
  0 <= n <= int_max -> fromString_int (to_string_u n) = n.
Proof.
  intros Hn. rewrite fromString_to_string_u_wrap by lia.
  apply to_int_small. unfold in_int, int_min, int_max in *. lia.
Qed.

(** [std::istream >> int] reads back what [std::ostream << int] wrote. *)
Lemma istream_to_string_i q out : in_int q -> istream_int (to_string_i q) out = q.
Proof.
  intros Hq. unfold in_int, int_min, int_max in Hq. unfold istream_int, to_string_i.
  destruct (Z.ltb_spec q 0).
  - cbn [skip_space]. replace (is_space "-") with false by reflexivity.
    replace ("-" =? "-")%char with true by reflexivity.
    rewrite take_digits_all by (apply to_string_u_digits; lia).
    destruct (to_string_u (- q)) eqn:E; [by destruct (to_string_u_nonempty (- q))|].
    rewrite <- E, to_string_u_value by lia. unfold int_min, int_max. lia.
  - pose proof (to_string_u_digits q ltac:(lia)) as Hd.
    pose proof (to_string_u_value q ltac:(lia)) as Hv.
    destruct (to_string_u q) as [|c t] eqn:E; [by destruct (to_string_u_nonempty q)|].
    apply Forall_cons in Hd as [Hc Ht].
    destruct (digit_not_special c Hc) as (_ & Hm & Hp & _ & _ & Hs).
    cbn [skip_space]. rewrite Hs, Hm, Hp.
    rewrite take_digits_all by (constructor; assumption).
    rewrite Hv. unfold int_min, int_max. lia.
Qed.

Lemma skip_space_Forall (P : ascii -> Prop) s : Forall P s -> Forall P (skip_space s).
Proof.
  induction s as [|c t IH]; intros Hs; simpl; [done|].
  apply Forall_cons in Hs as [Hc Ht]. destruct (is_space c); [auto | by constructor].
Qed.

Lemma take_digits_none s : Forall (fun c => is_digit c = false) s -> take_digits s = [].
Proof. destruct s as [|c t]; intros Hs; [done|]. apply Forall_cons in Hs as [Hc _]. simpl. by rewrite Hc. Qed.

Lemma skip_space_nil s : skip_space s = [] <-> forallb is_space s = true.
Proof.
  induction s as [|c t IH]; simpl; [done|].
  destruct (is_space c); simpl; [done | split; discriminate].
Qed.

(** Text without a digit extracts as 0 (the C++11 failure value) when it
    holds something other than white space, and leaves the value alone when
    it is empty or blank (the sentry fails first); no error reaches the
    caller. *)
Lemma istream_int_no_digits s out :
  Forall (fun c => is_digit c = false) s ->
  istream_int s out = if forallb is_space s then out else 0.
Proof.
  intros Hs. apply skip_space_Forall in Hs. unfold istream_int.
  destruct (forallb is_space s) eqn:Hb.
  - apply skip_space_nil in Hb. by rewrite Hb.
  - destruct (skip_space s) as [|c t] eqn:E; [apply skip_space_nil in E; congruence|].
    pose proof Hs as Hs'. apply Forall_cons in Hs' as [_ Ht].
    destruct (c =? "-")%char, (c =? "+")%char; rewrite ?take_digits_none; auto.
Qed.
