(* ===== verification/Json.v ===== *)
(** * The structured values options are persisted as

    DJV serialises every option set through picojson ([picojson::value]).
    A value is a tree; an object is a [std::map<std::string, value>], kept
    here as an association list sorted by key (the [std::map] iteration
    order, byte-wise [std::string] comparison), with [operator[]]
    assignment as a sorted insert.  picojson's [get<T>()] asserts the type
    and throws on a mismatch.  The library is not under [src/]; its
    behaviour is modelled from its interface.

    The exceptions the option parsers can raise are collected in [exn], and
    an operation on an out-parameter that may throw midway returns the final
    value of the out-parameter together with the exception, if any
    ([outcome]): the C++ caller keeps whatever was assigned before the
    throw. *)

From S2P Require Import Prelude.

#[local] Set Warnings "-register-all".
Inductive value :=
| JNull
| JBool (b : bool)
| JNumber (n : Z)
| JString (s : string)
| JArray (l : list value)
| JObject (o : list (string * value)).

Definition object := list (string * value).

(** [std::map::find]. *)
Fixpoint obj_find (k : string) (o : object) : option value :=
  match o with
  | [] => None
  | (k', v) :: o' => if String.eqb k k' then Some v else obj_find k o'
  end.

(** [object[k] = v]: replaces the entry of [k] or inserts it in key order. *)
Fixpoint obj_insert (k : string) (v : value) (o : object) : object :=
  match o with
  | [] => [(k, v)]
  | (k', v') :: o' =>
      match String.compare k k' with
      | Lt => (k, v) :: o
      | Eq => (k, v) :: o'
      | Gt => (k', v') :: obj_insert k v o'
      end
  end.

(** [value.get<std::string>()]. *)
Definition get_string (v : value) : result exn string :=
  match v with
  | JString s => Ok s
  | _ => Err TypeMismatch
  end.

(** The final out-parameter and the exception that interrupted the update. *)
Definition outcome (S : Type) : Type := S * option exn.

(** [for (const auto & i : object) body(i.first, i.second, out);] where a
    throwing [body] ends the loop. *)
Fixpoint for_each_member {S} (body : string -> value -> S -> outcome S)
    (o : object) (s : S) : outcome S :=
  match o with
  | [] => (s, None)
  | (k, v) :: o' =>
      match body k v s with
      | (s', None) => for_each_member body o' s'
      | (s', Some e) => (s', Some e)
      end
  end.

(** The shape every [fromJSON] of DJV has: iterate over the members of an
    object, throw [CannotParse] on anything else. *)
Definition from_object {S} (body : string -> value -> S -> outcome S)
    (v : value) (out : S) : outcome S :=
  match v with
  | JObject o => for_each_member body o out
  | _ => (out, Some CannotParse)
  end.

(** ** Lemmas *)

Lemma string_compare_refl s : String.compare s s = Eq.
Proof.
  pose proof (String.compare_antisym s s) as H.
  destruct (String.compare s s); simpl in H; congruence.
Qed.

Lemma obj_find_insert_eq k v o : obj_find k (obj_insert k v o) = Some v.
Proof.
  induction o as [|[k' v'] o IH]; simpl.
  - by rewrite String.eqb_refl.
  - destruct (String.eqb_spec k k') as [<-|Hne].
    + rewrite string_compare_refl. simpl.
      by rewrite String.eqb_refl.
    + destruct (String.compare k k'); simpl; rewrite ?String.eqb_refl; try done.
      by destruct (String.eqb_spec k k').
Qed.

Lemma obj_find_insert_ne k k2 v o :
  k <> k2 -> obj_find k2 (obj_insert k v o) = obj_find k2 o.
Proof.
  intros Hne. induction o as [|[k' v'] o IH]; simpl.
  - destruct (String.eqb_spec k2 k); [congruence | done].
  - destruct (String.compare k k') eqn:E; simpl.
    + apply String.compare_eq_iff in E as <-.
      destruct (String.eqb_spec k2 k); [congruence | done].
    + destruct (String.eqb_spec k2 k); [congruence | done].
    + by rewrite IH.
Qed.

#[export] Hint Rewrite obj_find_insert_eq : djv_rw.

Lemma obj_find_insert k k' v o :
  obj_find k (obj_insert k' v o) = if String.eqb k k' then Some v else obj_find k o.
Proof.
  destruct (String.eqb_spec k k') as [->|Hne]; [apply obj_find_insert_eq|].
  apply obj_find_insert_ne. congruence.
Qed.

Lemma obj_find_notin k o : k ∉ o.*1 -> obj_find k o = None.
Proof.
  induction o as [|[k' v'] o IH]; simpl; [done|].
  intros Hn. rewrite not_elem_of_cons in Hn. destruct Hn as [Hne Hn].
  destruct (String.eqb_spec k k'); [done | auto].
Qed.

(** A parser whose loop body only reacts to the member [K] behaves, on an
    object with distinct keys, as the body applied to that member alone. *)
Lemma for_each_member_single {S} (body : string -> value -> S -> outcome S) K o s :
  (forall k v s, k <> K -> body k v s = (s, None)) ->
  NoDup o.*1 ->
  for_each_member body o s =
    match obj_find K o with
    | None => (s, None)
    | Some v => body K v s
    end.
Proof.
  intros Hbody Hnd. revert s. induction o as [|[k v] o IH]; intros s; simpl; [done|].
  simpl in Hnd. apply NoDup_cons in Hnd as [Hk Hnd].
  destruct (String.eqb_spec K k) as [<-|Hne].
  - destruct (body K v s) as [s' [e|]]; [done|].
    rewrite IH by done. by rewrite obj_find_notin.
  - rewrite Hbody by congruence. by apply IH.
Qed.
