(* ===== verification/PPM.v ===== *)
(** * The NetPBM (PPM) codec: [src/lib/djvAV/PPM.cpp]

    The scanline size of the ASCII sub-format, the ASCII sample writer and
    reader, and the plugin's options with their JSON conversion.  A sample
    buffer is a list of bytes read through [reinterpret_cast<const T*>] with
    [T] = [uint8_t] (8-bit) or [uint16_t] (16-bit); the text buffer is a list
    of characters.  The writer reads [size] samples and writes each one in
    decimal followed by a space, then a newline; the reader reads [size]
    words with [FileIO::readWord], converts each with [String::fromString]
    and stores it into a [T], which truncates it to the sample width. *)

From S2P Require Import Prelude Text Json.

Module PPM.

(** ** Scanline size *)

(** The number of characters of the widest decimal sample of a depth. *)
Definition chars_of_depth (bitDepth : Z) : Z :=
  if bitDepth =? 8 then 3 else if bitDepth =? 16 then 5 else 0.

(** [getScanlineByteCount(int width, size_t channelCount, size_t bitDepth)]:
    [width] is converted to [size_t] and the product wraps. *)
Definition getScanlineByteCount (width channelCount bitDepth : Z) : Z :=
  to_size_t ((chars_of_depth bitDepth + 1) * to_size_t width * channelCount + 1).

(** ** ASCII samples *)

(** [sizeof(T)] of the sample type a bit depth selects, if any. *)
Definition sample_bytes (bitDepth : Z) : option nat :=
  if bitDepth =? 8 then Some 1%nat else if bitDepth =? 16 then Some 2%nat else None.

(** The loop body of [_writeASCII]: the digits of each value, then a space. *)
Fixpoint write_samples (vs : list Z) : list ascii :=
  match vs with
  | [] => []
  | v :: vs' => to_string_u v ++ " "%char :: write_samples vs'
  end.

(** [_writeASCII<T>(in, out, size)]: the characters written to [out]; their
    number is the return value.  [None] when [in] holds fewer than [size]
    samples (the C++ code would read past the buffer). *)
Definition _writeASCII (w : nat) (inp : list Z) (size : nat) : option (list ascii) :=
  match chunks w size inp with
  | Some cs => Some (write_samples (map le_combine cs) ++ ["010"%char])
  | None => None
  end.

(** [writeASCII(in, out, size, bitDepth)]: other depths write nothing and
    return 0. *)
Definition writeASCII (inp : list Z) (size : nat) (bitDepth : Z) : option (list ascii) :=
  match sample_bytes bitDepth with
  | Some w => _writeASCII w inp size
  | None => Some []
  end.

(** [_readASCII<T>(io, out, size)]: the bytes stored to [out] and the input
    left in [io].  [outP[i] = value] converts the [int] to [T]. *)
Fixpoint _readASCII (w : nat) (size : nat) (io : list ascii)
  : result exn (list Z * list ascii) :=
  match size with
  | O => Ok ([], io)
  | S n =>
      match readWord io with
      | None => Err ReadError
      | Some (word, io') =>
          let value := fromString_int word in
          r <- _readASCII w n io' ;;
          Ok (le_split w (wrap (8 * Z.of_nat w) value) ++ r.1, r.2)
      end
  end.

(** [readASCII(io, out, size, bitDepth)]: other depths read nothing. *)
Definition readASCII (io : list ascii) (size : nat) (bitDepth : Z)
  : result exn (list Z * list ascii) :=
  match sample_bytes bitDepth with
  | Some w => _readASCII w size io
  | None => Ok ([], io)
  end.

(** ** Options *)

(** [enum class Data { ASCII, Binary }]. *)
Inductive Data := ASCII | Binary.

#[export] Instance Data_eq_dec : EqDecision Data.
Proof. solve_decision. Defined.

(** The labels given to [DJV_ENUM_SERIALIZE_HELPERS_IMPLEMENTATION]. *)
Definition Data_label (d : Data) : string :=
  match d with
  | ASCII => "ppm_type_ascii"
  | Binary => "ppm_type_binary"
  end.

Record Options := { data : Data }.

(** [std::istream >> Data]: the first word of the stream, which must be one
    of the labels (an empty stream or another word throws). *)
Definition Data_of_label (s : string) : result exn Data :=
  let word := istream_word (list_ascii_of_string s) in
  if decide (string_of_list_ascii word = Data_label ASCII) then Ok ASCII
  else if decide (string_of_list_ascii word = Data_label Binary) then Ok Binary
  else Err CannotParse.

(** [toJSON(const PPM::Options &)]: [ss << value.data] writes the label. *)
Definition toJSON (o : Options) : value :=
  JObject (obj_insert "Data" (JString (Data_label (data o))) []).

(** The loop body of [fromJSON(const picojson::value &, PPM::Options &)]. *)
Definition fromJSON_member (k : string) (v : value) (out : Options) : outcome Options :=
  if String.eqb "Data" k then
    match get_string v with
    | Err e => (out, Some e)
    | Ok s =>
        match Data_of_label s with
        | Ok d => ({| data := d |}, None)
        | Err e => (out, Some e)
        end
    end
  else (out, None).

Definition fromJSON (v : value) (out : Options) : outcome Options :=
  from_object fromJSON_member v out.

(** [Plugin::getOptions] and [Plugin::setOptions] on the plugin's options. *)
Definition getOptions (p : Options) : value := toJSON p.
Definition setOptions (v : value) (p : Options) : outcome Options := fromJSON v p.

End PPM.

(** ** Lemmas *)

Module PPMFacts.
Import PPM.

Lemma sample_bytes_cases bitDepth w :
  sample_bytes bitDepth = Some w ->
  (bitDepth = 8 /\ w = 1%nat /\ chars_of_depth bitDepth = 3) \/
  (bitDepth = 16 /\ w = 2%nat /\ chars_of_depth bitDepth = 5).
Proof.
  unfold sample_bytes, chars_of_depth.
  destruct (Z.eqb_spec bitDepth 8); [intros [= <-]; auto|].
  destruct (Z.eqb_spec bitDepth 16); [intros [= <-]; auto | discriminate].
Qed.

(** A sample of [w] bytes is below [10 ^ chars]: its text fits the field
    [getScanlineByteCount] reserves for it. *)
Lemma sample_fits bitDepth w c :
  sample_bytes bitDepth = Some w -> length c = w -> Forall is_byte c ->
  0 <= le_combine c < 2 ^ (8 * Z.of_nat w) /\
  2 ^ (8 * Z.of_nat w) <= 10 ^ chars_of_depth bitDepth /\
  2 ^ (8 * Z.of_nat w) <= 2 ^ 16.
Proof.
  intros Hd Hlen Hb. pose proof (le_combine_range c Hb) as Hr. rewrite Hlen in Hr.
  destruct (sample_bytes_cases _ _ Hd) as [(_ & -> & ->) | (_ & -> & ->)];
    simpl in *; lia.
Qed.

Lemma length_write_samples vs k :
  1 <= k -> Forall (fun v => 0 <= v < 10 ^ k) vs ->
  Z.of_nat (length (write_samples vs)) <= (k + 1) * Z.of_nat (length vs).
Proof.
  intros Hk. induction 1 as [|v vs Hv _ IH]; simpl; [lia|].
  rewrite length_app. simpl.
  pose proof (length_to_string_u v k Hv Hk). lia.
Qed.

(** Reading back a row the writer produced: every word is a sample's
    decimal text followed by a space. *)
Lemma readASCII_write_samples bitDepth w cs rest :
  sample_bytes bitDepth = Some w ->
  Forall (fun c => length c = w /\ Forall is_byte c) cs ->
  _readASCII w (length cs) (write_samples (map le_combine cs) ++ rest) = Ok (concat cs, rest).
Proof.
  intros Hd. induction 1 as [|c cs [Hlen Hb] _ IH]; [reflexivity|].
  destruct (sample_fits _ _ _ Hd Hlen Hb) as (Hr & _ & H16).
  cbn [length map write_samples _readASCII]. rewrite <- app_assoc, <- app_comm_cons.
  rewrite readWord_to_string_u by
    (try lia; try reflexivity;
     pose proof (length_to_string_u (le_combine c) 5 ltac:(lia) ltac:(lia));
     unfold cStringLength; lia).
  rewrite fromString_to_string_u by (unfold int_max; lia).
  rewrite IH. simpl. rewrite wrap_small by exact Hr.
  rewrite <- Hlen at 1. by rewrite le_split_combine.
Qed.

Lemma chunks_bytes w n buf cs :
  chunks w n buf = Some cs -> Forall is_byte buf ->
  Forall (fun c => length c = w /\ Forall is_byte c) cs.
Proof.
  intros Hc Hb. destruct (chunks_prefix _ _ _ _ Hc) as [rest ->].
  apply Forall_app in Hb as [Hb _]. destruct (chunks_length _ _ _ _ Hc) as [_ Hl]. clear Hc.
  induction Hl as [|c cs Hc _ IH]; constructor;
    simpl in Hb; apply Forall_app in Hb as [Hb1 Hb2]; auto.
Qed.

(** ** Properties of the ASCII codec *)

(** C1. PPM ASCII round trip: for 8- and 16-bit samples, writing [size]
    samples of a byte buffer with [writeASCII] and reading the text back with
    [readASCII] restores the buffer byte for byte and leaves the input at the
    row's trailing newline. *)
Theorem ascii_roundtrip bitDepth w buf size rest :
  sample_bytes bitDepth = Some w ->
  length buf = (size * w)%nat -> Forall is_byte buf ->
  exists txt, writeASCII buf size bitDepth = Some txt /\
              readASCII (txt ++ rest) size bitDepth = Ok (buf, "010"%char :: rest).
Proof.
  intros Hd Hlen Hb.
  destruct (chunks_exact w size buf Hlen) as (cs & Hcs & Hcat).
  pose proof (chunks_bytes _ _ _ _ Hcs Hb) as Hcb.
  destruct (chunks_length _ _ _ _ Hcs) as [Hn _].
  exists (write_samples (map le_combine cs) ++ ["010"%char]).
  unfold writeASCII, readASCII, _writeASCII. rewrite Hd, Hcs. split; [done|].
  rewrite <- app_assoc, <- Hn. cbn [app].
  rewrite (readASCII_write_samples bitDepth) by assumption. by rewrite Hcat.
Qed.

(** C2. The ASCII writer stays inside the scanline buffer: for a row of
    [width * channelCount] byte samples, the number of characters
    [writeASCII] writes (its return value) is at most
    [getScanlineByteCount width channelCount bitDepth], the size of the
    buffer it writes into, whenever that size does not overflow [size_t]. *)
Theorem writeASCII_within_scanline width channelCount bitDepth buf txt :
  0 <= width -> 0 <= channelCount ->
  (chars_of_depth bitDepth + 1) * width * channelCount + 1 < 2 ^ 64 ->
  Forall is_byte buf ->
  writeASCII buf (Z.to_nat (width * channelCount)) bitDepth = Some txt ->
  Z.of_nat (length txt) <= getScanlineByteCount width channelCount bitDepth.
Proof.
  intros Hw Hc Hov Hb Hwr. unfold writeASCII in Hwr.
  destruct (sample_bytes bitDepth) as [w|] eqn:Hd.
  2: { injection Hwr as <-. apply wrap_range. unfold size_t_bits. lia. }
  unfold _writeASCII in Hwr.
  destruct (chunks w _ buf) as [cs|] eqn:Hcs; [|discriminate]. injection Hwr as <-.
  destruct (chunks_length _ _ _ _ Hcs) as [Hn _].
  pose proof (chunks_bytes _ _ _ _ Hcs Hb) as Hcb.
  assert (Hk : 1 <= chars_of_depth bitDepth)
    by (destruct (sample_bytes_cases _ _ Hd) as [(_ & _ & ->) | (_ & _ & ->)]; lia).
  assert (Hv : Forall (fun v => 0 <= v < 10 ^ chars_of_depth bitDepth) (map le_combine cs)).
  { apply Forall_map. eapply Forall_impl; [exact Hcb|]. intros c [Hl Hbc].
    destruct (sample_fits _ _ _ Hd Hl Hbc) as (Hr & Hp & _). lia. }
  pose proof (length_write_samples _ _ Hk Hv) as Hlen.
  rewrite length_map, Hn in Hlen.
  unfold getScanlineByteCount, to_size_t, size_t_bits.
  rewrite wrap_mul_wrap, wrap_small by nia.
  rewrite length_app, Nat2Z.inj_add, Z2Nat.id in * by nia. simpl. nia.
Qed.

(** C3. Unsupported bit depths are not reported: for a bit depth other than
    8 and 16, [getScanlineByteCount] returns [width * channelCount + 1] as if
    a sample took no character, [writeASCII] writes nothing and returns 0,
    and [readASCII] reads nothing and stores nothing. *)
Theorem unsupported_depth_silent width channelCount bitDepth buf size io :
  bitDepth <> 8 -> bitDepth <> 16 ->
  getScanlineByteCount width channelCount bitDepth =
    to_size_t (to_size_t width * channelCount + 1) /\
  writeASCII buf size bitDepth = Some [] /\
  readASCII io size bitDepth = Ok ([], io).
Proof.
  intros H8 H16.
  assert (Hs : sample_bytes bitDepth = None).
  { unfold sample_bytes. by rewrite (proj2 (Z.eqb_neq _ _) H8), (proj2 (Z.eqb_neq _ _) H16). }
  unfold getScanlineByteCount, chars_of_depth, writeASCII, readASCII.
  rewrite Hs, (proj2 (Z.eqb_neq _ _) H8), (proj2 (Z.eqb_neq _ _) H16).
  repeat split. f_equal. lia.
Qed.

(** C4. A decimal word is truncated to the sample width: reading the text of
    any non-negative value [n] as one sample stores [n mod 2^8] (8-bit) or
    [n mod 2^16] (16-bit) in host byte order; values too large for an [int]
    wrap first, which does not change the low bits. *)
Theorem readASCII_truncates bitDepth w n sep rest :
  sample_bytes bitDepth = Some w -> 0 <= n ->
  (length (to_string_u n) <= cStringLength - 1)%nat ->
  (sep =? "#")%char = false -> is_eol sep || is_blank sep = true ->
  readASCII (to_string_u n ++ sep :: rest) 1 bitDepth =
    Ok (le_split w (n mod 2 ^ (8 * Z.of_nat w)), rest).
Proof.
  intros Hd Hn Hlen Hsep Hsp. unfold readASCII. rewrite Hd. cbn [_readASCII].
  rewrite readWord_to_string_u by assumption. cbn [_readASCII bind fst snd].
  rewrite fromString_to_string_u_wrap by exact Hn. unfold wrap.
  rewrite to_int_mod by (destruct (sample_bytes_cases _ _ Hd) as [(_ & -> & _) | (_ & -> & _)]; lia).
  by rewrite app_nil_r.
Qed.

(** ** Properties of the options *)

(** C5. PPM options round trip: setting the plugin's options from the JSON
    value [getOptions] produced restores them exactly, whatever the options
    held before, and raises nothing. *)
Theorem options_roundtrip (o out : Options) : setOptions (getOptions o) out = (o, None).
Proof. by destruct o as [[]]. Qed.

(** C6. [setOptions] on an object with distinct keys only looks at its
    ["Data"] member: without it the options are unchanged and nothing is
    raised (missing keys keep their value, unknown keys are ignored); a
    member that is not a string raises [TypeMismatch] and one that is not a
    label raises [CannotParse], both leaving the options unchanged; a label
    sets [data]. *)
Theorem setOptions_object o (p : Options) :
  NoDup o.*1 ->
  setOptions (JObject o) p =
    match obj_find "Data" o with
    | None => (p, None)
    | Some v =>
        match get_string v with
        | Err e => (p, Some e)
        | Ok s =>
            match Data_of_label s with
            | Ok d => ({| data := d |}, None)
            | Err e => (p, Some e)
            end
        end
    end.
Proof.
  intros Hnd. unfold setOptions, fromJSON, from_object.
  rewrite (for_each_member_single _ "Data") by
    (done || (intros k v s Hk; unfold fromJSON_member;
              by destruct (String.eqb_spec "Data" k); [congruence|])).
  destruct (obj_find "Data" o); [|done]. unfold fromJSON_member. by rewrite String.eqb_refl.
Qed.

(** A non-object throws and leaves the options as they were. *)
Lemma setOptions_not_object v (p : Options) :
  (forall o, v <> JObject o) -> setOptions v p = (p, Some CannotParse).
Proof. intros H. destruct v; try done. by destruct (H o). Qed.

(** ** Witnesses *)

(** The test vector of the specification: the 16-bit samples 0, 255 and
    65535 are written as ["0 255 65535 \n"] (13 characters) and read back. *)
Lemma write_samples_wf cs :
  Forall (fun c => Forall is_byte c) cs ->
  write_samples (map le_combine cs) =
    flat_map (fun c => map digit_char (dec_digits_wf (le_combine c)) ++ [" "%char]) cs.
Proof.
  induction 1 as [|c cs Hc _ IH]; [done|]. simpl.
  rewrite to_string_u_wf, IH, <- app_assoc; [done|]. apply (le_combine_range c Hc).
Qed.

(** C30. The writer's decimal printing terminates with the whole number:
    for 8- and 16-bit samples, a buffer holding [n] samples (and anything
    after them) is written, as [writeASCII] returns, as each sample's
    digits in order, as [std::to_string]'s unbounded digit loop gives them
    (defined by well-founded recursion on the value), each followed by a
    space, then a newline; and for each sample the fuel the model gives
    the printer, [dec_fuel], or any larger fuel gives those same digits,
    so the fuel never runs out before the loop ends. *)
Theorem writeASCII_terminates bitDepth w cs rest :
  sample_bytes bitDepth = Some w ->
  Forall (fun c => length c = w /\ Forall is_byte c) cs ->
  writeASCII (concat cs ++ rest) (length cs) bitDepth =
    Some (flat_map (fun c => map digit_char (dec_digits_wf (le_combine c)) ++ [" "%char]) cs
          ++ ["010"%char]) /\
  Forall (fun c => forall f, (dec_fuel (le_combine c) <= f)%nat ->
                     dec_digits_aux f (le_combine c) [] = dec_digits_wf (le_combine c)) cs.
Proof.
  intros Hw Hcs. split.
  - unfold writeASCII, _writeASCII. rewrite Hw, chunks_concat, write_samples_wf; [done | |].
    + eapply Forall_impl; [exact Hcs | by intros c []].
    + eapply Forall_impl; [exact Hcs | by intros c []].
  - eapply Forall_impl; [exact Hcs|]. intros c [_ Hc] f Hf.
    apply dec_digits_aux_enough; [apply (le_combine_range c Hc) | exact Hf].
Qed.

Lemma ascii_roundtrip_witness :
  exists txt, writeASCII [0; 0; 255; 0; 255; 255] 3 16 = Some txt /\
    readASCII (txt ++ []) 3 16 = Ok ([0; 0; 255; 0; 255; 255], ["010"%char]).
Proof.
  apply (ascii_roundtrip 16 2 [0; 0; 255; 0; 255; 255] 3 []);
    [reflexivity | reflexivity | repeat constructor; unfold is_byte; lia].
Defined.

Example writeASCII_spec_vector :
  writeASCII [0; 0; 255; 0; 255; 255] 3 16 = Some (list_ascii_of_string "0 255 65535 
")
  /\ length (list_ascii_of_string "0 255 65535 
") = 13%nat.
Proof. split; reflexivity. Qed.

Lemma writeASCII_within_scanline_witness :
  Z.of_nat (length (list_ascii_of_string "0 255 65535 
")) <= getScanlineByteCount 3 1 16.
Proof.
  apply (writeASCII_within_scanline 3 1 16 [0; 0; 255; 0; 255; 255]);
    [lia | lia | vm_compute; reflexivity | repeat constructor; unfold is_byte; lia | reflexivity].
Defined.

Lemma unsupported_depth_silent_witness :
  getScanlineByteCount 4 3 10 = to_size_t (to_size_t 4 * 3 + 1) /\
  writeASCII [1; 2; 3] 3 10 = Some [] /\
  readASCII (list_ascii_of_string "1 2 3 ") 3 10 = Ok ([], list_ascii_of_string "1 2 3 ").
Proof. apply unsupported_depth_silent; lia. Defined.

Lemma readASCII_truncates_witness :
  readASCII (to_string_u 300 ++ " "%char :: []) 1 8 = Ok (le_split 1 (300 mod 2 ^ 8), []).
Proof. apply (readASCII_truncates 8 1 300); [reflexivity | lia | vm_compute; lia | reflexivity | reflexivity]. Defined.

Lemma setOptions_object_witness :
  setOptions (JObject [("Data", JString "ppm_type_ascii"); ("Other", JNull)]) {| data := Binary |} =
    ({| data := ASCII |}, None).
Proof. rewrite setOptions_object; [reflexivity | apply (bool_decide_unpack _); reflexivity]. Defined.

Lemma writeASCII_terminates_witness :
  writeASCII [0; 0; 255; 0; 255; 255] 3 16 =
    Some (list_ascii_of_string "0 255 65535 " ++ ["010"%char]).
Proof.
  refine (eq_trans (proj1 (writeASCII_terminates 16 2 [[0; 0]; [255; 0]; [255; 255]] [] _ _)) _);
    [reflexivity | repeat constructor; unfold is_byte; lia | vm_compute; reflexivity].
Defined.

End PPMFacts.
