(* ===== verification/Layout.v ===== *)
(** * Popup placement: [src/lib/djvUI/LayoutUtil.cpp]

    A popup (a menu, a combo box list) is placed next to a point or a button
    in one of four directions; [getPopup] tries the requested direction
    first, then the others, and picks one that fits in the window area or,
    failing that, the one whose visible part is largest.  The two overloads
    differ: the point overload stops at the first placement that fits and
    otherwise keeps, among equal areas, the last placement tried; the button
    overload never stops early and keeps, among equal areas, the first.

    Coordinates are the [float]s of [glm::vec2], modelled as [Z]: the
    operations are [+], [-], [min], [max] and one product, exact on the
    integral pixel coordinates below 2^24 the UI works with (products above
    2^24 would round in [float]; that rounding is not modelled).  The
    bounding box operations [BBox2f::intersect], [w], [h] and [getArea] come
    from [djvCore/BBox.h], which is not in the sources: the intersection
    takes the max of the minima and the min of the maxima, and the area is
    [w() * h()] with no clamping of empty boxes. *)

From S2P Require Import Prelude.
From Stdlib Require Import Sorted.

Module Layout.

Record vec2 := Vec2 { vx : Z; vy : Z }.
Record BBox2f := BBox { bmin : vec2; bmax : vec2 }.

Definition w (b : BBox2f) : Z := vx (bmax b) - vx (bmin b).
Definition h (b : BBox2f) : Z := vy (bmax b) - vy (bmin b).
Definition getArea (b : BBox2f) : Z := w b * h b.

Definition intersect (a b : BBox2f) : BBox2f :=
  BBox (Vec2 (Z.max (vx (bmin a)) (vx (bmin b))) (Z.max (vy (bmin a)) (vy (bmin b))))
       (Vec2 (Z.min (vx (bmax a)) (vx (bmax b))) (Z.min (vy (bmax a)) (vy (bmax b)))).

(** [BBox2f::operator==]. *)
Definition bbox_eqb (a b : BBox2f) : bool :=
  (vx (bmin a) =? vx (bmin b)) && (vy (bmin a) =? vy (bmin b)) &&
  (vx (bmax a) =? vx (bmax b)) && (vy (bmax a) =? vy (bmax b)).

(** [enum class Popup] in declaration order. *)
Inductive Popup := BelowRight | BelowLeft | AboveRight | AboveLeft.

#[export] Instance Popup_eq_dec : EqDecision Popup.
Proof. solve_decision. Defined.

(** [getPopupEnums()]: every value, in declaration order. *)
Definition getPopupEnums : list Popup := [BelowRight; BelowLeft; AboveRight; AboveLeft].

(** [getPopupGeometry(Popup, const glm::vec2 & pos, const glm::vec2 & minimumSize)]. *)
Definition getPopupGeometry (value : Popup) (pos minimumSize : vec2) : BBox2f :=
  match value with
  | BelowRight => BBox (Vec2 (vx pos) (vy pos))
                       (Vec2 (vx pos + vx minimumSize) (vy pos + vy minimumSize))
  | BelowLeft => BBox (Vec2 (vx pos - vx minimumSize) (vy pos))
                      (Vec2 (vx pos) (vy pos + vy minimumSize))
  | AboveRight => BBox (Vec2 (vx pos) (vy pos - vy minimumSize))
                       (Vec2 (vx pos + vx minimumSize) (vy pos))
  | AboveLeft => BBox (Vec2 (vx pos - vx minimumSize) (vy pos - vy minimumSize))
                      (Vec2 (vx pos) (vy pos))
  end.

(** [getPopupGeometry(Popup, const BBox2f & button, const glm::vec2 & minimumSize)]. *)
Definition getPopupGeometry_button (value : Popup) (button : BBox2f) (minimumSize : vec2)
  : BBox2f :=
  let bn := bmin button in let bx := bmax button in
  match value with
  | BelowLeft => BBox (Vec2 (Z.min (vx bx - vx minimumSize) (vx bn)) (vy bx))
                      (Vec2 (vx bx) (vy bx + vy minimumSize))
  | BelowRight => BBox (Vec2 (vx bn) (vy bx))
                       (Vec2 (Z.max (vx bn + vx minimumSize) (vx bx)) (vy bx + vy minimumSize))
  | AboveRight => BBox (Vec2 (vx bn) (vy bn - vy minimumSize))
                       (Vec2 (Z.max (vx bn + vx minimumSize) (vx bx)) (vy bn))
  | AboveLeft => BBox (Vec2 (Z.min (vx bx - vx minimumSize) (vx bn)) (vy bn - vy minimumSize))
                      (Vec2 (vx bx) (vy bn))
  end.

(** [std::find] then [erase]: the first occurrence is removed. *)
Fixpoint erase_first (x : Popup) (l : list Popup) : list Popup :=
  match l with
  | [] => []
  | y :: l' => if decide (x = y) then l' else y :: erase_first x l'
  end.

(** The order in which placements are tried. *)
Definition popupList (value : Popup) : list Popup := value :: erase_first value getPopupEnums.

(** ** [std::map<float, Popup>], sorted by key *)

Definition area_map := list (Z * Popup).

(** [popupAreas[k] = v]: replaces the value of an existing key. *)
Fixpoint map_assign (k : Z) (v : Popup) (m : area_map) : area_map :=
  match m with
  | [] => [(k, v)]
  | (k', v') :: m' =>
      if k <? k' then (k, v) :: m
      else if k =? k' then (k, v) :: m'
      else (k', v') :: map_assign k v m'
  end.

(** [if (popupAreas.find(k) == popupAreas.end()) popupAreas[k] = v]. *)
Fixpoint map_insert_new (k : Z) (v : Popup) (m : area_map) : area_map :=
  match m with
  | [] => [(k, v)]
  | (k', v') :: m' =>
      if k <? k' then (k, v) :: m
      else if k =? k' then m
      else (k', v') :: map_insert_new k v m'
  end.

(** [popupAreas.rbegin()], the entry of the largest key. *)
Definition map_rbegin (m : area_map) : option (Z * Popup) := last m.

(** [std::map::find] on the area map: the entry of a key, if any. *)
Definition map_find (k : Z) (m : area_map) : option Popup :=
  match find (fun e => e.1 =? k) m with Some (_, p) => Some p | None => None end.

(** ** [getPopup] *)

(** The visible part of a placement's geometry. *)
Definition clipped_area (g area : BBox2f) : Z := getArea (intersect g area).

(** [g == g.intersect(area)]: a placement fits when clipping it to the
    area leaves it unchanged. *)
Definition fits (area : BBox2f) (g : BBox2f) : bool := bbox_eqb g (intersect g area).

(** The loop of the point overload: [inl p] is the early [break] on the
    first placement that fits, [inr m] the areas of the others. *)
Fixpoint getPopup_loop (l : list Popup) (area : BBox2f) (pos minimumSize : vec2)
    (m : area_map) : Popup + area_map :=
  match l with
  | [] => inr m
  | p :: l' =>
      let g := getPopupGeometry p pos minimumSize in
      if fits area g then inl p
      else getPopup_loop l' area pos minimumSize (map_assign (clipped_area g area) p m)
  end.

(** [getPopup(Popup, const BBox2f & area, const glm::vec2 & pos, const glm::vec2 & minimumSize)]. *)
Definition getPopup (value : Popup) (area : BBox2f) (pos minimumSize : vec2) : Popup :=
  match getPopup_loop (popupList value) area pos minimumSize [] with
  | inl p => p
  | inr m => match map_rbegin m with Some (_, p) => p | None => BelowRight end
  end.

Fixpoint getPopup_button_loop (l : list Popup) (area button : BBox2f) (minimumSize : vec2)
    (m : area_map) : area_map :=
  match l with
  | [] => m
  | p :: l' =>
      let g := getPopupGeometry_button p button minimumSize in
      getPopup_button_loop l' area button minimumSize (map_insert_new (clipped_area g area) p m)
  end.

(** [getPopup(Popup, const BBox2f & area, const BBox2f & button, const glm::vec2 & minimumSize)]. *)
Definition getPopup_button (value : Popup) (area button : BBox2f) (minimumSize : vec2) : Popup :=
  match map_rbegin (getPopup_button_loop (popupList value) area button minimumSize []) with
  | Some (_, p) => p
  | None => BelowRight
  end.

(** Keys strictly increasing, as [std::map] keeps them. *)
Definition keys_sorted (m : area_map) : Prop := StronglySorted (fun a b => a.1 < b.1) m.

(** The map a loop builds by applying [upd] to each placement's area. *)
Definition fold_areas (upd : Z -> Popup -> area_map -> area_map) (key : Popup -> Z)
    (l : list Popup) (m : area_map) : area_map :=
  fold_left (fun m q => upd (key q) q m) l m.

(** The 100 x 100 area of the examples. *)
Definition witness_area : BBox2f := BBox (Vec2 0 0) (Vec2 100 100).

End Layout.

(** ** The area map *)

Module LayoutFacts.
Import Layout.

Lemma map_assign_elem k v m x : In x (map_assign k v m) -> x = (k, v) \/ In x m.
Proof.
  induction m as [|[k' v'] m IH]; simpl; [intuition|].
  destruct (k <? k'); [simpl; intuition|].
  destruct (k =? k'); simpl; intuition.
Qed.

Lemma map_insert_new_elem k v m x : In x (map_insert_new k v m) -> x = (k, v) \/ In x m.
Proof.
  induction m as [|[k' v'] m IH]; simpl; [intuition|].
  destruct (k <? k'); [simpl; intuition|].
  destruct (k =? k'); simpl; intuition.
Qed.

Lemma map_insert_new_keep k v m x : In x m -> In x (map_insert_new k v m).
Proof.
  induction m as [|[k' v'] m IH]; simpl; [done|].
  destruct (k <? k'); [simpl; intuition|].
  destruct (k =? k'); simpl; intuition.
Qed.

(** Both updates keep the keys strictly increasing. *)

Lemma map_assign_sorted k v m : keys_sorted m -> keys_sorted (map_assign k v m).
Proof.
  induction 1 as [|[k' v'] m Hs IH Hf]; simpl; [repeat constructor|].
  destruct (Z.ltb_spec k k').
  - constructor; [constructor; assumption|]. constructor; [simpl; lia|].
    eapply Forall_impl; [exact Hf|]. simpl; intros; lia.
  - destruct (Z.eqb_spec k k'); [subst; constructor; assumption|].
    constructor; [exact IH|]. apply List.Forall_forall. intros x Hx.
    destruct (map_assign_elem _ _ _ _ Hx) as [->|Hin]; [simpl; lia|].
    rewrite List.Forall_forall in Hf. by apply Hf.
Qed.

Lemma map_insert_new_sorted k v m : keys_sorted m -> keys_sorted (map_insert_new k v m).
Proof.
  induction 1 as [|[k' v'] m Hs IH Hf]; simpl; [repeat constructor|].
  destruct (Z.ltb_spec k k').
  - constructor; [constructor; assumption|]. constructor; [simpl; lia|].
    eapply Forall_impl; [exact Hf|]. simpl; intros; lia.
  - destruct (Z.eqb_spec k k'); [constructor; assumption|].
    constructor; [exact IH|]. apply List.Forall_forall. intros x Hx.
    destruct (map_insert_new_elem _ _ _ _ Hx) as [->|Hin]; [simpl; lia|].
    rewrite List.Forall_forall in Hf. by apply Hf.
Qed.

Lemma map_assign_key k v m : In k (map fst (map_assign k v m)).
Proof.
  induction m as [|[k' v'] m IH]; simpl; [auto|].
  destruct (k <? k'); [simpl; auto|]. destruct (k =? k'); simpl; auto.
Qed.

Lemma map_assign_keys k v m k2 : In k2 (map fst m) -> In k2 (map fst (map_assign k v m)).
Proof.
  induction m as [|[k' v'] m IH]; simpl; [done|]. intros Hk.
  destruct (Z.ltb_spec k k'); [simpl; auto|].
  destruct (Z.eqb_spec k k'); simpl; [subst; intuition | intuition].
Qed.

Lemma map_insert_new_key k v m : In k (map fst (map_insert_new k v m)).
Proof.
  induction m as [|[k' v'] m IH]; simpl; [auto|].
  destruct (k <? k'); [simpl; auto|].
  destruct (Z.eqb_spec k k'); simpl; auto.
Qed.

Lemma map_insert_new_keys k v m k2 : In k2 (map fst m) -> In k2 (map fst (map_insert_new k v m)).
Proof.
  intros Hk. apply in_map_iff in Hk as [[k0 v0] [<- Hin]].
  apply in_map_iff. exists (k0, v0). split; [done|]. by apply map_insert_new_keep.
Qed.

(** [rbegin] of a sorted map holds its largest key. *)
Lemma map_rbegin_max m k p :
  keys_sorted m -> map_rbegin m = Some (k, p) ->
  In (k, p) m /\ forall k', In k' (map fst m) -> k' <= k.
Proof.
  unfold map_rbegin. induction 1 as [|[k0 p0] m Hs IH Hf]; [done|].
  destruct m as [|x m].
  - simpl. intros [= -> ->]. split; [auto|]. intros k' [<-|[]]; lia.
  - intros Hl. change (last ((k0, p0) :: x :: m)) with (last (x :: m)) in Hl.
    destruct (IH Hl) as [Hin Hmax]. split; [right; exact Hin|].
    intros k' [<-|Hk']; [|by apply Hmax].
    rewrite List.Forall_forall in Hf. specialize (Hf _ Hin). simpl in *. lia.
Qed.

Lemma map_last_Some (m : area_map) : m <> [] -> exists x, map_rbegin m = Some x.
Proof.
  unfold map_rbegin. induction m as [|x m IH]; [done|]. intros _.
  destruct m as [|y m]; [by exists x|]. apply IH. discriminate.
Qed.

(** In a sorted map a key has one entry. *)
Lemma sorted_key_unique m k p1 p2 :
  keys_sorted m -> In (k, p1) m -> In (k, p2) m -> p1 = p2.
Proof.
  induction 1 as [|[k0 v0] m Hs IH Hf]; [done|].
  rewrite List.Forall_forall in Hf.
  intros H1 H2. destruct H1 as [E1|H1], H2 as [E2|H2].
  - congruence.
  - injection E1 as -> ->. specialize (Hf _ H2). simpl in Hf. lia.
  - injection E2 as -> ->. specialize (Hf _ H1). simpl in Hf. lia.
  - by apply IH.
Qed.

(** ** The loops as folds

    Both loops fill the map by folding an update over the placements; the
    facts below hold for either update, given its own laws. *)

Section AreaFold.
Variable upd : Z -> Popup -> area_map -> area_map.
Variable key : Popup -> Z.
Hypothesis upd_sorted : forall k v m, keys_sorted m -> keys_sorted (upd k v m).
Hypothesis upd_elem : forall k v m x, In x (upd k v m) -> x = (k, v) \/ In x m.
Hypothesis upd_key : forall k v m, In k (map fst (upd k v m)).
Hypothesis upd_keys : forall k v m k2, In k2 (map fst m) -> In k2 (map fst (upd k v m)).

Local Abbreviation fold_areas := (fold_areas upd key).

Lemma fold_areas_sorted l m : keys_sorted m -> keys_sorted (fold_areas l m).
Proof. revert m; induction l as [|q l IH]; simpl; auto. Qed.

Lemma fold_areas_elem l m x :
  In x (fold_areas l m) -> In x m \/ exists q, In q l /\ x = (key q, q).
Proof.
  revert m; induction l as [|q l IH]; simpl; intros m Hx; [by left|].
  destruct (IH _ Hx) as [Hin|(q' & Hq' & ->)]; [|right; eauto].
  destruct (upd_elem _ _ _ _ Hin) as [->|Hm]; [right; eauto | by left].
Qed.

Lemma fold_areas_keep l m k : In k (map fst m) -> In k (map fst (fold_areas l m)).
Proof. revert m; induction l as [|q l IH]; simpl; auto. Qed.

Lemma fold_areas_keys l m q : In q l -> In (key q) (map fst (fold_areas l m)).
Proof.
  revert m; induction l as [|q' l IH]; simpl; [done|].
  intros m [<-|Hq]; [apply fold_areas_keep, upd_key | by apply IH].
Qed.

(** The entry [rbegin] returns carries the largest area of the list. *)
Lemma fold_areas_rbegin l k p :
  l <> [] -> map_rbegin (fold_areas l []) = Some (k, p) ->
  In p l /\ k = key p /\ forall q, In q l -> key q <= k.
Proof.
  intros Hl Hr.
  destruct (map_rbegin_max _ _ _ (fold_areas_sorted l [] (SSorted_nil _)) Hr) as [Hin Hmax].
  destruct (fold_areas_elem _ _ _ Hin) as [[]|(q & Hq & [= -> ->])].
  split; [done|]. split; [done|]. intros q' Hq'. apply Hmax, fold_areas_keys, Hq'.
Qed.

Lemma fold_areas_nonempty l : l <> [] -> exists x, map_rbegin (fold_areas l []) = Some x.
Proof.
  intros Hl. apply map_last_Some. destruct l as [|q l]; [done|].
  pose proof (fold_areas_keys (q :: l) [] q (or_introl eq_refl)) as Hk.
  intros He. rewrite He in Hk. done.
Qed.

End AreaFold.

(** ** Placement lemmas *)

Lemma popupList_all value q : In q (popupList value).
Proof. destruct value, q; simpl; tauto. Qed.

Lemma popupList_nonempty value : popupList value <> [].
Proof. discriminate. Qed.

Lemma getPopup_loop_found l area pos ms m p :
  find (fun q => fits area (getPopupGeometry q pos ms)) l = Some p ->
  getPopup_loop l area pos ms m = inl p.
Proof.
  revert m; induction l as [|q l IH]; simpl; [discriminate|]. intros m.
  destruct (fits area (getPopupGeometry q pos ms)); [congruence | apply IH].
Qed.

Lemma getPopup_loop_none l area pos ms m :
  find (fun q => fits area (getPopupGeometry q pos ms)) l = None ->
  getPopup_loop l area pos ms m =
    inr (fold_areas map_assign (fun q => clipped_area (getPopupGeometry q pos ms) area) l m).
Proof.
  revert m; induction l as [|q l IH]; simpl; [done|]. intros m.
  destruct (fits area (getPopupGeometry q pos ms)); [discriminate | apply IH].
Qed.

Lemma getPopup_button_loop_fold l area button ms m :
  getPopup_button_loop l area button ms m =
    fold_areas map_insert_new (fun q => clipped_area (getPopupGeometry_button q button ms) area) l m.
Proof. revert m; induction l as [|q l IH]; simpl; auto. Qed.

(** Every button placement spans the button horizontally and has the same
    size. *)
Lemma button_geometry_dims q button ms :
  0 <= vx ms -> 0 <= vy ms -> vx (bmin button) <= vx (bmax button) ->
  let g := getPopupGeometry_button q button ms in
  vx (bmin g) <= vx (bmin button) /\ vx (bmax button) <= vx (bmax g) /\
  w g = Z.max (vx ms) (vx (bmax button) - vx (bmin button)) /\ h g = vy ms.
Proof. intros. destruct q; simpl; unfold w, h; simpl; lia. Qed.

(** Clipping to an area that contains a horizontal span the box contains
    never increases [w() * h()], also when the clipped box is empty
    vertically. *)
Lemma clipped_area_le g area lo hi :
  vx (bmin g) <= lo -> hi <= vx (bmax g) ->
  vx (bmin area) <= lo -> hi <= vx (bmax area) -> lo <= hi -> 0 <= h g ->
  clipped_area g area <= w g * h g.
Proof.
  intros. unfold clipped_area, getArea, w, h in *. simpl.
  set (wc := Z.min _ _ - Z.max _ _).
  set (hc := Z.min (vy (bmax g)) _ - Z.max (vy (bmin g)) _).
  assert (0 <= wc <= vx (bmax g) - vx (bmin g)) by (subst wc; lia).
  assert (hc <= vy (bmax g) - vy (bmin g)) by (subst hc; lia).
  destruct (Z.le_gt_cases 0 hc); nia.
Qed.

Lemma fits_area area g : fits area g = true -> clipped_area g area = getArea g.
Proof.
  unfold fits, bbox_eqb, clipped_area. intros H.
  repeat (apply andb_prop in H as [H ?Z]). rewrite Z.eqb_eq in *.
  destruct g as [[? ?] [? ?]]. simpl in *. unfold getArea, w, h. simpl.
  congruence.
Qed.

Lemma fold_insert_new_keep key l m x :
  In x m -> In x (fold_areas map_insert_new key l m).
Proof. revert m; induction l as [|q l IH]; simpl; auto using map_insert_new_keep. Qed.

(** ** Lookup in the area map

    [map_assign] makes the key hold the new value; [map_insert_new] keeps
    the value a key already has. *)

Lemma find_none_intro {A} (f : A -> bool) l : (forall x, In x l -> f x = false) -> find f l = None.
Proof. induction l as [|y l IH]; simpl; intros H; [done|]. rewrite H by auto. auto. Qed.

Lemma map_find_assign k k' v m :
  map_find k' (map_assign k v m) = if k =? k' then Some v else map_find k' m.
Proof.
  unfold map_find. induction m as [|[k1 v1] m IH]; simpl; [by destruct (k =? k')|].
  destruct (Z.ltb_spec k k1); simpl; [by destruct (k =? k')|].
  destruct (Z.eqb_spec k k1) as [->|Hne]; simpl.
  - destruct (Z.eqb_spec k1 k'); [done|]. reflexivity.
  - destruct (Z.eqb_spec k1 k'); [destruct (Z.eqb_spec k k'); [lia | done] | exact IH].
Qed.

Lemma map_find_sorted_below k k1 v1 m :
  keys_sorted ((k1, v1) :: m) -> k < k1 -> map_find k ((k1, v1) :: m) = None.
Proof.
  unfold map_find. intros Hs Hk. simpl. destruct (Z.eqb_spec k1 k); [lia|].
  inversion Hs as [|? ? _ Hf]; subst.
  assert (Hn : find (fun e => e.1 =? k) m = None).
  { apply find_none_intro. intros [k2 v2] Hin. rewrite List.Forall_forall in Hf.
    specialize (Hf _ Hin). simpl in *. apply Z.eqb_neq. lia. }
  by rewrite Hn.
Qed.

Lemma map_find_cons k k1 v1 m :
  map_find k ((k1, v1) :: m) = if k1 =? k then Some v1 else map_find k m.
Proof. unfold map_find; simpl. by destruct (k1 =? k). Qed.

Lemma map_find_insert_new k k' v m :
  keys_sorted m ->
  map_find k' (map_insert_new k v m) =
    if k =? k' then match map_find k m with Some p => Some p | None => Some v end
    else map_find k' m.
Proof.
  induction m as [|[k1 v1] m IH]; intros Hs.
  - unfold map_find; simpl. by destruct (k =? k').
  - simpl map_insert_new. destruct (Z.ltb_spec k k1).
    + rewrite (map_find_sorted_below k) by done.
      unfold map_find; simpl. by destruct (k =? k').
    + destruct (Z.eqb_spec k k1) as [->|Hne].
      * destruct (Z.eqb_spec k1 k') as [->|]; [|done].
        unfold map_find; simpl. by rewrite Z.eqb_refl.
      * inversion Hs as [|? ? Hs' _]; subst.
        rewrite !map_find_cons, (IH Hs').
        destruct (Z.eqb_spec k1 k'), (Z.eqb_spec k k'), (Z.eqb_spec k1 k); subst; try lia; done.
Qed.

Lemma find_app {A} (f : A -> bool) l1 l2 :
  find f (l1 ++ l2) = match find f l1 with Some x => Some x | None => find f l2 end.
Proof. induction l1 as [|x l1 IH]; simpl; [done|]. by destruct (f x). Qed.

Lemma fold_assign_find key l m k :
  map_find k (fold_areas map_assign key l m) =
    match find (fun q => key q =? k) (rev l) with Some q => Some q | None => map_find k m end.
Proof.
  revert m; induction l as [|q l IH]; intros m; [done|]. simpl.
  rewrite IH, map_find_assign, find_app. simpl.
  destruct (find _ (rev l)); [done|]. by destruct (key q =? k).
Qed.

Lemma fold_insert_new_find key l m k :
  keys_sorted m ->
  map_find k (fold_areas map_insert_new key l m) =
    match map_find k m with Some p => Some p | None => find (fun q => key q =? k) l end.
Proof.
  revert m; induction l as [|q l IH]; intros m Hs; simpl; [by destruct (map_find k m)|].
  rewrite IH by (by apply map_insert_new_sorted). rewrite map_find_insert_new by done.
  destruct (Z.eqb_spec (key q) k) as [->|]; [by destruct (map_find k m)|done].
Qed.

Lemma map_find_rbegin m k p :
  keys_sorted m -> map_rbegin m = Some (k, p) -> map_find k m = Some p.
Proof.
  intros Hs Hr. destruct (map_rbegin_max _ _ _ Hs Hr) as [Hin _].
  unfold map_find. destruct (find (fun e => e.1 =? k) m) as [[k' p']|] eqn:E.
  - apply find_some in E as [Hin' Hk]. apply Z.eqb_eq in Hk. simpl in Hk. subst k'.
    f_equal. exact (sorted_key_unique _ _ _ _ Hs Hin' Hin).
  - apply (find_none _ _ E) in Hin. simpl in Hin. rewrite Z.eqb_refl in Hin. discriminate.
Qed.

(** The first element [find] returns: those before it fail the test. *)
Lemma find_split {A} (f : A -> bool) l x :
  find f l = Some x ->
  exists l1 l2, l = l1 ++ x :: l2 /\ f x = true /\ Forall (fun y => f y = false) l1.
Proof.
  induction l as [|y l IH]; simpl; [discriminate|]. destruct (f y) eqn:Hy.
  - intros [= <-]. by exists [], l.
  - intros H. destruct (IH H) as (l1 & l2 & -> & Hx & Hl1). exists (y :: l1), l2. by repeat split; [|constructor].
Qed.

(** The last element satisfying the test: those after it fail it. *)
Lemma find_rev_split {A} (f : A -> bool) l x :
  find f (rev l) = Some x ->
  exists l1 l2, l = l1 ++ x :: l2 /\ f x = true /\ Forall (fun y => f y = false) l2.
Proof.
  intros H. destruct (find_split _ _ _ H) as (l1 & l2 & E & Hx & Hl1).
  exists (rev l2), (rev l1). split; [|split; [done | by apply Forall_rev]].
  rewrite <- (rev_involutive l), E, rev_app_distr. simpl. by rewrite <- app_assoc.
Qed.

(** The placement [rbegin] yields is the one the map holds at the largest
    area, and every placement's area is at most that. *)
Lemma fold_rbegin_find upd key
    (Hsorted : forall k v m, keys_sorted m -> keys_sorted (upd k v m))
    (Helem : forall k v m x, In x (upd k v m) -> x = (k, v) \/ In x m)
    (Hkey : forall k v m, In k (map fst (upd k v m)))
    (Hkeys : forall k v m k2, In k2 (map fst m) -> In k2 (map fst (upd k v m))) l :
  l <> [] -> exists k p,
    map_rbegin (fold_areas upd key l []) = Some (k, p) /\
    map_find k (fold_areas upd key l []) = Some p /\ (forall q, In q l -> key q <= k).
Proof.
  intros Hl. destruct (fold_areas_nonempty upd key Hkey Hkeys l Hl) as [[k p] Hr].
  exists k, p. split; [done|]. split.
  - apply map_find_rbegin; [apply fold_areas_sorted; [done | constructor] | done].
  - by destruct (fold_areas_rbegin upd key Hsorted Helem Hkey Hkeys _ _ _ Hl Hr) as (_ & _ & ?).
Qed.

(** Below the maximum and different from it is strictly below it. *)
Lemma Forall_below_max (key : Popup -> Z) l l' k :
  (forall q, In q l -> key q <= k) -> (forall q, In q l' -> In q l) ->
  Forall (fun q => (key q =? k) = false) l' -> Forall (fun q => key q < k) l'.
Proof.
  intros Hmax Hsub Hne. rewrite List.Forall_forall in *. intros q Hq.
  specialize (Hne q Hq). apply Z.eqb_neq in Hne. specialize (Hmax q (Hsub q Hq)). lia.
Qed.

(** ** Properties of the placement *)

(** C7. The point overload of [getPopup] returns the first placement, in
    the order tried (the requested one, then the others in declaration
    order), whose geometry lies entirely inside the area. *)
Theorem getPopup_first_fit value area pos ms p :
  find (fun q => fits area (getPopupGeometry q pos ms)) (popupList value) = Some p ->
  getPopup value area pos ms = p.
Proof. intros H. unfold getPopup. by rewrite (getPopup_loop_found _ _ _ _ [] _ H). Qed.

(** C8. When no placement fits, the point overload of [getPopup] returns
    one whose clipped area ([w() * h()] of its intersection with the area)
    is the largest of the four placements'. *)
Theorem getPopup_largest value area pos ms :
  find (fun q => fits area (getPopupGeometry q pos ms)) (popupList value) = None ->
  forall q, clipped_area (getPopupGeometry q pos ms) area <=
            clipped_area (getPopupGeometry (getPopup value area pos ms) pos ms) area.
Proof.
  intros H q. unfold getPopup. rewrite getPopup_loop_none by exact H.
  set (key := fun q => clipped_area (getPopupGeometry q pos ms) area).
  destruct (fold_areas_nonempty map_assign key map_assign_key map_assign_keys
              (popupList value) (popupList_nonempty value)) as [[k p] Hr].
  rewrite Hr.
  destruct (fold_areas_rbegin map_assign key map_assign_sorted map_assign_elem
              map_assign_key map_assign_keys _ _ _ (popupList_nonempty value) Hr)
    as (_ & Hk & Hmax).
  change (key q <= key p). rewrite <- Hk. apply Hmax, popupList_all.
Qed.

(** The button overload of [getPopup] keeps the requested placement
    whenever it fits: for a button inside the area horizontally and a
    non-negative minimum size, a requested placement whose geometry lies in
    the area is returned, because no other placement has a larger clipped
    area and among equal areas the first one tried is kept. *)
Lemma getPopup_button_prefers_value value area button ms :
  0 <= vx ms -> 0 <= vy ms ->
  vx (bmin area) <= vx (bmin button) -> vx (bmin button) <= vx (bmax button) ->
  vx (bmax button) <= vx (bmax area) ->
  fits area (getPopupGeometry_button value button ms) = true ->
  getPopup_button value area button ms = value.
Proof.
  intros Hx Hy Ha1 Hb Ha2 Hfit.
  set (key := fun q => clipped_area (getPopupGeometry_button q button ms) area).
  assert (Hle : forall q, key q <= key value).
  { intros q. unfold key. rewrite (fits_area _ _ Hfit).
    destruct (button_geometry_dims q button ms Hx Hy Hb) as (H1 & H2 & Hw & Hh).
    destruct (button_geometry_dims value button ms Hx Hy Hb) as (_ & _ & Hw' & Hh').
    eapply Z.le_trans;
      [eapply (clipped_area_le _ _ (vx (bmin button)) (vx (bmax button))); eauto; lia|].
    unfold getArea. rewrite Hw, Hh, Hw', Hh'. lia. }
  unfold getPopup_button. rewrite getPopup_button_loop_fold. fold key.
  destruct (fold_areas_nonempty map_insert_new key map_insert_new_key map_insert_new_keys
              (popupList value) (popupList_nonempty value)) as [[k p] Hr].
  rewrite Hr.
  pose proof (fold_areas_sorted map_insert_new key map_insert_new_sorted
                (popupList value) [] (SSorted_nil _)) as Hs.
  destruct (map_rbegin_max _ _ _ Hs Hr) as [Hin2 _].
  destruct (fold_areas_rbegin map_insert_new key map_insert_new_sorted map_insert_new_elem
              map_insert_new_key map_insert_new_keys _ _ _ (popupList_nonempty value) Hr)
    as (_ & -> & Hmax).
  assert (Heq : key p = key value)
    by (specialize (Hmax value (popupList_all value value)); specialize (Hle p); lia).
  assert (Hin1 : In (key value, value) (fold_areas map_insert_new key (popupList value) [])).
  { unfold popupList.
    change (fold_areas map_insert_new key (value :: erase_first value getPopupEnums) [])
      with (fold_areas map_insert_new key (erase_first value getPopupEnums) [(key value, value)]).
    apply fold_insert_new_keep. left. reflexivity. }
  rewrite Heq in Hin2. exact (sorted_key_unique _ _ _ _ Hs Hin2 Hin1).
Qed.

(** ** Witnesses and the placement that is never visible *)

Lemma getPopup_first_fit_witness :
  getPopup AboveLeft witness_area (Vec2 50 50) (Vec2 10 10) = AboveLeft.
Proof. apply getPopup_first_fit. reflexivity. Defined.

Lemma getPopup_largest_witness :
  clipped_area (getPopupGeometry BelowRight (Vec2 30 60) (Vec2 150 150)) witness_area <=
  clipped_area (getPopupGeometry (getPopup BelowRight witness_area (Vec2 30 60) (Vec2 150 150))
                  (Vec2 30 60) (Vec2 150 150)) witness_area.
Proof. apply getPopup_largest. reflexivity. Defined.


(** [getPopup] can choose a placement that is not visible at all: with
    an anchor outside the area, the placement below-right lies wholly
    outside it, but its intersection has a negative width and a negative
    height whose product (100) beats the 25 visible units of the
    above-left placement, which is the one [getPopup] should pick. *)
Example getPopup_picks_invisible :
  let pos := Vec2 110 110 in let ms := Vec2 15 15 in
  getPopup BelowRight witness_area pos ms = BelowRight /\
  w (intersect (getPopupGeometry BelowRight pos ms) witness_area) < 0 /\
  h (intersect (getPopupGeometry BelowRight pos ms) witness_area) < 0 /\
  0 < w (intersect (getPopupGeometry AboveLeft pos ms) witness_area) /\
  0 < h (intersect (getPopupGeometry AboveLeft pos ms) witness_area).
Proof. vm_compute. repeat split; reflexivity. Qed.

(** C11. How the two overloads of [getPopup] break ties when no
    placement fits: [popupAreas[area] = popup] overwrites, so the point
    overload returns the last placement tried among those of largest
    clipped area, while the button overload assigns only new areas and
    returns the first one; each returns a placement of largest clipped
    area, and every placement tried after it (point) or before it
    (button) has a strictly smaller one. *)
Theorem getPopup_tie_last_vs_first value area pos button ms :
  let key q := clipped_area (getPopupGeometry q pos ms) area in
  let keyb q := clipped_area (getPopupGeometry_button q button ms) area in
  find (fun q => fits area (getPopupGeometry q pos ms)) (popupList value) = None ->
  (exists l1 l2, popupList value = l1 ++ getPopup value area pos ms :: l2 /\
     (forall q, In q (popupList value) -> key q <= key (getPopup value area pos ms)) /\
     Forall (fun q => key q < key (getPopup value area pos ms)) l2) /\
  (exists l1 l2, popupList value = l1 ++ getPopup_button value area button ms :: l2 /\
     (forall q, In q (popupList value) -> keyb q <= keyb (getPopup_button value area button ms)) /\
     Forall (fun q => keyb q < keyb (getPopup_button value area button ms)) l1).
Proof.
  intros key keyb Hnone. split.
  - unfold getPopup. rewrite getPopup_loop_none by exact Hnone. fold key.
    destruct (fold_rbegin_find map_assign key map_assign_sorted map_assign_elem map_assign_key
                map_assign_keys _ (popupList_nonempty value)) as (k & p & Hr & Hf & Hmax).
    rewrite Hr. rewrite fold_assign_find in Hf.
    destruct (find _ (rev _)) as [q|] eqn:E; [injection Hf as ->|discriminate].
    destruct (find_rev_split _ _ _ E) as (l1 & l2 & Hl & Hk & Hl2). apply Z.eqb_eq in Hk.
    exists l1, l2. rewrite Hk. repeat split; [done | done |].
    apply (Forall_below_max key (popupList value)); [done | | done].
    intros q' Hq'. rewrite Hl. apply in_app_iff. right. by right.
  - unfold getPopup_button. rewrite getPopup_button_loop_fold. fold keyb.
    destruct (fold_rbegin_find map_insert_new keyb map_insert_new_sorted map_insert_new_elem
                map_insert_new_key map_insert_new_keys _ (popupList_nonempty value))
      as (k & p & Hr & Hf & Hmax).
    rewrite Hr. rewrite fold_insert_new_find in Hf by constructor.
    unfold map_find at 1 in Hf. cbn [find] in Hf.
    destruct (find_split _ _ _ Hf) as (l1 & l2 & Hl & Hk & Hl1). apply Z.eqb_eq in Hk.
    exists l1, l2. rewrite Hk. repeat split; [done | done |].
    apply (Forall_below_max keyb (popupList value)); [done | | done].
    intros q' Hq'. rewrite Hl. apply in_app_iff. by left.
Qed.

Lemma getPopup_tie_last_vs_first_witness :
  getPopup BelowRight witness_area (Vec2 50 150) (Vec2 10 10) = AboveLeft /\
  getPopup_button BelowRight witness_area (BBox (Vec2 50 150) (Vec2 60 160)) (Vec2 10 10) = AboveRight /\
  exists l1 l2, popupList BelowRight = l1 ++ AboveLeft :: l2.
Proof.
  split; [vm_compute; reflexivity|]. split; [vm_compute; reflexivity|].
  destruct (proj1 (getPopup_tie_last_vs_first BelowRight witness_area (Vec2 50 150)
                     (BBox (Vec2 50 150) (Vec2 60 160)) (Vec2 10 10) ltac:(vm_compute; reflexivity)))
    as (l1 & l2 & H & _).
  exists l1, l2. exact H.
Defined.

End LayoutFacts.
