(* ===== verification/ImageView.v ===== *)
(** * The viewer's image view: [src/lib/djvViewApp/ImageView.cpp]

    The widget shows one image under a translation ([imagePos]) and a zoom
    ([imageZoom]); it can fill its geometry with the image, fit it into a
    frame, center it, zoom around a point, and animate between positions.
    [_layoutEvent] applies the view lock (fill, frame, center, none) and, the
    first time, fills the view.  A grid overlay widget mirrors the position,
    zoom, rotation, aspect ratio, image bounding box and frame.

    The state of [ImageView::Private] is the record [State]; each method is a
    function on it, and every call the method makes that changes state (the
    value subjects, the overlay's setters, [_resize]) is written out.
    Coordinates and zooms are [float]s, modelled exactly as [Q]; the
    transform [UI::ImageWidget::getXForm] of an image (its rotation and
    aspect ratio correction) is not in the sources, and is a parameter of
    the section below.  A null [std::shared_ptr] dereference is an error
    value ([NullDeref]). *)

From S2P Require Import Prelude.
From Stdlib Require Import QArith Qminmax Lqa.
From stdpp Require Import gmap.

Module ImageView.
Local Open Scope Q_scope.

Record vec2 := V2 { x : Q; y : Q }.
Record vec3 := V3 { x3 : Q; y3 : Q; z3 : Q }.
Record BBox2f := BBox { bmin : vec2; bmax : vec2 }.

Definition w (b : BBox2f) : Q := x (bmax b) - x (bmin b).
Definition h (b : BBox2f) : Q := y (bmax b) - y (bmin b).
Definition bbox_zero : BBox2f := BBox (V2 0 0) (V2 0 0).

(** A 3x3 matrix acting on column vectors, as [glm::mat3x3 * glm::vec3]. *)
Record mat3 := Mat3 { m00 : Q; m01 : Q; m02 : Q;
                      m10 : Q; m11 : Q; m12 : Q;
                      m20 : Q; m21 : Q; m22 : Q }.

Definition mat3_identity : mat3 := Mat3 1 0 0 0 1 0 0 0 1.

Definition mat3_apply (m : mat3) (v : vec3) : vec3 :=
  V3 (m00 m * x3 v + m01 m * y3 v + m02 m * z3 v)
     (m10 m * x3 v + m11 m * y3 v + m12 m * z3 v)
     (m20 m * x3 v + m21 m * y3 v + m22 m * z3 v).

(** [UI::ImageRotate]. *)
Inductive ImageRotate := Rotate_0 | Rotate_90 | Rotate_180 | Rotate_270.

(** [ImageViewLock]. *)
Inductive ImageViewLock := LockNone | LockFill | LockFrame | LockCenter.

(** The image as the view uses it; images are compared by identity, as
    [std::shared_ptr]s are. *)
Record Image := {
  image_id : nat;
  size_w : Q;
  size_h : Q;
  aspectRatio : Q;
  pixelAspectRatio : Q
}.

Definition same_image (a b : option Image) : bool :=
  match a, b with
  | None, None => true
  | Some i, Some j => Nat.eqb (image_id i) (image_id j)
  | _, _ => false
  end.

(** [Math::lerp(t, a, b)]. *)
Definition lerp (t a b : Q) : Q := a + (b - a) * t.

(** The identity transform, for the witnesses. *)
Definition witness_xform {A : Type} (_ : Image) (_ : ImageRotate) (_ : vec2) (_ : A) : mat3 :=
  mat3_identity.

Section View.

(** [UI::ImageAspectRatio], the grid options and the background color are
    passed around and compared, never inspected. *)
Context {AspectRatio GridOptions Color : Type}.
Context `{EqDecision AspectRatio, EqDecision GridOptions, EqDecision Color}.

(** [UI::ImageWidget::getXForm(image, rotate, zoom, aspectRatio)]. *)
Variable getXForm : Image -> ImageRotate -> vec2 -> AspectRatio -> mat3.

(** The grid overlay's state: what the view last told it. *)
Record Overlay := {
  ov_options : GridOptions;
  ov_pos : vec2;
  ov_zoom : Q;
  ov_rotate : ImageRotate;
  ov_aspect : AspectRatio * Q * Q;
  ov_bbox : BBox2f;
  ov_frame : BBox2f;
  ov_geometry : BBox2f
}.

(** [ImageView::Private] with the widget geometry; [resizes] counts the
    calls to [_resize] and [redraws] those to [_redraw]. *)
Record State := {
  image : option Image;
  imagePos : vec2;
  imageZoom : Q;
  imageRotate : ImageRotate;
  imageAspectRatio : AspectRatio;
  gridOptions : GridOptions;
  backgroundColor : Color;
  lock : ImageViewLock;
  lockFrame : BBox2f;
  viewInit : bool;
  geometry : BBox2f;
  overlay : Overlay;
  resizes : nat;
  redraws : nat;
  (** the running zoom animation: start and target position and zoom *)
  zoomAnimation : option (vec2 * Q * vec2 * Q)
}.

(** ** Image geometry *)

(** [_getImagePoints]: the image's corners under its transform. *)
Definition _getImagePoints (s : State) : list vec3 :=
  match image s with
  | None => []
  | Some img =>
      let m := getXForm img (imageRotate s) (V2 1 1) (imageAspectRatio s) in
      map (mat3_apply m)
        [V3 0 0 1; V3 (0 + size_w img) 0 1; V3 (0 + size_w img) (0 + size_h img) 1;
         V3 0 (0 + size_h img) 1]
  end.

Fixpoint sum_xy (pts : list vec3) : Q * Q :=
  match pts with
  | [] => (0, 0)
  | p :: t => let '(sx, sy) := sum_xy t in (x3 p + sx, y3 p + sy)
  end.

(** [_getCenter]: the mean of the points, the origin for none. *)
Definition _getCenter (pts : list vec3) : vec2 :=
  match pts with
  | [] => V2 0 0
  | _ => let '(sx, sy) := sum_xy pts in
         let n := inject_Z (Z.of_nat (length pts)) in
         V2 (sx / n) (sy / n)
  end.

(** [_getBBox]: the bounds of [value[0]] to [value[3]]; with between one
    and three points the loop reads past the vector ([None]). *)
Definition _getBBox (pts : list vec3) : option BBox2f :=
  match pts with
  | [] => Some bbox_zero
  | [p0; p1; p2; p3] =>
      let xs := [x3 p1; x3 p2; x3 p3] in
      let ys := [y3 p1; y3 p2; y3 p3] in
      Some (BBox (V2 (fold_left Qmin xs (x3 p0)) (fold_left Qmin ys (y3 p0)))
                 (V2 (fold_left Qmax xs (x3 p0)) (fold_left Qmax ys (y3 p0))))
  | _ => None
  end.

Definition getImageBBox (s : State) : BBox2f :=
  match _getBBox (_getImagePoints s) with Some b => b | None => bbox_zero end.

(** ** Setters of the view *)

Definition with_overlay (s : State) (o : Overlay) : State :=
  {| image := image s; imagePos := imagePos s; imageZoom := imageZoom s;
     imageRotate := imageRotate s; imageAspectRatio := imageAspectRatio s;
     gridOptions := gridOptions s; backgroundColor := backgroundColor s;
     lock := lock s; lockFrame := lockFrame s; viewInit := viewInit s;
     geometry := geometry s; overlay := o; resizes := resizes s;
     redraws := redraws s; zoomAnimation := zoomAnimation s |}.

Definition set_overlay_pos_zoom (o : Overlay) (p : vec2) (z : Q) : Overlay :=
  {| ov_options := ov_options o; ov_pos := p; ov_zoom := z; ov_rotate := ov_rotate o;
     ov_aspect := ov_aspect o; ov_bbox := ov_bbox o; ov_frame := ov_frame o;
     ov_geometry := ov_geometry o |}.

Definition set_overlay_bbox_frame (o : Overlay) (b f : BBox2f) : Overlay :=
  {| ov_options := ov_options o; ov_pos := ov_pos o; ov_zoom := ov_zoom o;
     ov_rotate := ov_rotate o; ov_aspect := ov_aspect o; ov_bbox := b; ov_frame := f;
     ov_geometry := ov_geometry o |}.

(** [gridOverlay->setImageBBox(getImageBBox()); gridOverlay->setImageFrame(lockFrame)]. *)
Definition sync_overlay_bbox (s : State) : State :=
  with_overlay s (set_overlay_bbox_frame (overlay s) (getImageBBox s) (lockFrame s)).

Definition vec2_eqb (a b : vec2) : bool := Qeq_bool (x a) (x b) && Qeq_bool (y a) (y b).

(** [_setPosAndZoom(pos, zoom)]: each subject that changes requests a
    layout; the zoom is clamped at 0. *)
Definition _setPosAndZoom (s : State) (pos : vec2) (zoom : Q) : State :=
  let pos_changed := negb (vec2_eqb (imagePos s) pos) in
  let z := Qmax 0 zoom in
  let zoom_changed := negb (Qeq_bool (imageZoom s) z) in
  let n := (resizes s + (if pos_changed then 1 else 0) + (if zoom_changed then 1 else 0))%nat in
  let pos' := if pos_changed then pos else imagePos s in
  let zoom' := if zoom_changed then z else imageZoom s in
  let s1 := {| image := image s; imagePos := pos'; imageZoom := zoom';
               imageRotate := imageRotate s; imageAspectRatio := imageAspectRatio s;
               gridOptions := gridOptions s; backgroundColor := backgroundColor s;
               lock := lock s; lockFrame := lockFrame s; viewInit := viewInit s;
               geometry := geometry s; overlay := set_overlay_pos_zoom (overlay s) pos' zoom';
               resizes := n; redraws := redraws s; zoomAnimation := zoomAnimation s |} in
  sync_overlay_bbox s1.

(** [_animatePosAndZoom(pos, zoom)]: starts the zoom animation from the
    current position and zoom; the animation's callbacks are the steps
    [animation_tick] and [animation_end] below. *)
Definition _animatePosAndZoom (s : State) (pos : vec2) (zoom : Q) : State :=
  {| image := image s; imagePos := imagePos s; imageZoom := imageZoom s;
     imageRotate := imageRotate s; imageAspectRatio := imageAspectRatio s;
     gridOptions := gridOptions s; backgroundColor := backgroundColor s;
     lock := lock s; lockFrame := lockFrame s; viewInit := viewInit s;
     geometry := geometry s; overlay := overlay s; resizes := resizes s;
     redraws := redraws s; zoomAnimation := Some (imagePos s, imageZoom s, pos, zoom) |}.

(** The animation's value callback at [t]: interpolates between the start
    and the target. *)
Definition animation_tick (s : State) (t : Q) : State :=
  match zoomAnimation s with
  | None => s
  | Some (posPrev, zoomPrev, pos, zoom) =>
      _setPosAndZoom s (V2 (lerp t (x posPrev) (x pos)) (lerp t (y posPrev) (y pos)))
                       (lerp t zoomPrev zoom)
  end.

Definition clear_animation (s : State) : State :=
  {| image := image s; imagePos := imagePos s; imageZoom := imageZoom s;
     imageRotate := imageRotate s; imageAspectRatio := imageAspectRatio s;
     gridOptions := gridOptions s; backgroundColor := backgroundColor s;
     lock := lock s; lockFrame := lockFrame s; viewInit := viewInit s;
     geometry := geometry s; overlay := overlay s; resizes := resizes s;
     redraws := redraws s; zoomAnimation := None |}.

(** The animation's end callback: sets the target. *)
Definition animation_end (s : State) : State :=
  match zoomAnimation s with
  | None => s
  | Some (_, _, pos, zoom) => clear_animation (_setPosAndZoom s pos zoom)
  end.

(** [setImagePosAndZoom(pos, zoom, animate)]. *)
Definition setImagePosAndZoom (s : State) (pos : vec2) (zoom : Q) (animate : bool) : State :=
  if animate then _animatePosAndZoom s pos zoom else _setPosAndZoom s pos zoom.

Definition setImagePos (s : State) (pos : vec2) (animate : bool) : State :=
  setImagePosAndZoom s pos (imageZoom s) animate.

Definition setImageZoom (s : State) (zoom : Q) (animate : bool) : State :=
  setImagePosAndZoom s (imagePos s) zoom animate.

(** [setImageZoomFocus(value, mouse, animate)]: the point under [mouse]
    stays under it. *)
Definition setImageZoomFocus (s : State) (value : Q) (mouse : vec2) (animate : bool) : State :=
  let r := value / imageZoom s in
  setImagePosAndZoom s
    (V2 (x mouse + (x (imagePos s) - x mouse) * r) (y mouse + (y (imagePos s) - y mouse) * r))
    value animate.

Definition bbox_center (b : BBox2f) : vec2 :=
  V2 ((x (bmin b) + x (bmax b)) / 2) ((y (bmin b) + y (bmax b)) / 2).

(** [setImageZoomFocus(value, animate)]: around the widget's center. *)
Definition setImageZoomFocus_center (s : State) (value : Q) (animate : bool) : State :=
  setImageZoomFocus s value (bbox_center (geometry s)) animate.

(** The zoom that fits a box of the image's size into a box of [g]'s size. *)
Definition fit_zoom (g bbox : BBox2f) : Q :=
  let zoom := w g / w bbox in
  if Qlt_le_dec (h g) (zoom * h bbox) then h g / h bbox else zoom.

(** [imageFill(animate)]. *)
Definition imageFill (s : State) (animate : bool) : State :=
  match image s with
  | None => s
  | Some _ =>
      let g := geometry s in
      let pts := _getImagePoints s in
      let c := _getCenter pts in
      let bbox := getImageBBox s in
      let zoom := fit_zoom g bbox in
      setImagePosAndZoom s (V2 (w g / 2 - x c * zoom) (h g / 2 - y c * zoom)) zoom animate
  end.

(** [imageFrame(animate)]. *)
Definition imageFrame (s : State) (animate : bool) : State :=
  match image s with
  | None => s
  | Some _ =>
      let g := geometry s in
      let f := lockFrame s in
      let pts := _getImagePoints s in
      let c := _getCenter pts in
      let bbox := getImageBBox s in
      let zoom := fit_zoom f bbox in
      setImagePosAndZoom s
        (V2 ((x (bmin f) - x (bmin g)) + w f / 2 - x c * zoom)
            ((y (bmin f) - y (bmin g)) + h f / 2 - y c * zoom))
        zoom animate
  end.

(** [imageCenter(animate)]. *)
Definition imageCenter (s : State) (animate : bool) : State :=
  match image s with
  | None => s
  | Some _ =>
      let g := geometry s in
      let c := _getCenter (_getImagePoints s) in
      setImagePosAndZoom s (V2 (w g / 2 - x c) (h g / 2 - y c)) 1 animate
  end.

(** ** Handlers of the view *)

Definition set_overlay_aspect (o : Overlay) (a : AspectRatio * Q * Q) : Overlay :=
  {| ov_options := ov_options o; ov_pos := ov_pos o; ov_zoom := ov_zoom o;
     ov_rotate := ov_rotate o; ov_aspect := a; ov_bbox := ov_bbox o; ov_frame := ov_frame o;
     ov_geometry := ov_geometry o |}.

Definition set_overlay_rotate (o : Overlay) (r : ImageRotate) : Overlay :=
  {| ov_options := ov_options o; ov_pos := ov_pos o; ov_zoom := ov_zoom o;
     ov_rotate := r; ov_aspect := ov_aspect o; ov_bbox := ov_bbox o; ov_frame := ov_frame o;
     ov_geometry := ov_geometry o |}.

Definition set_overlay_options (o : Overlay) (g : GridOptions) : Overlay :=
  {| ov_options := g; ov_pos := ov_pos o; ov_zoom := ov_zoom o;
     ov_rotate := ov_rotate o; ov_aspect := ov_aspect o; ov_bbox := ov_bbox o; ov_frame := ov_frame o;
     ov_geometry := ov_geometry o |}.

Definition set_overlay_geometry (o : Overlay) (g : BBox2f) : Overlay :=
  {| ov_options := ov_options o; ov_pos := ov_pos o; ov_zoom := ov_zoom o;
     ov_rotate := ov_rotate o; ov_aspect := ov_aspect o; ov_bbox := ov_bbox o; ov_frame := ov_frame o;
     ov_geometry := g |}.

(** A state with some fields replaced, the others kept. *)
Definition update (s : State) (img : option Image) (rot : ImageRotate) (ar : AspectRatio)
    (go : GridOptions) (bg : Color) (lk : ImageViewLock) (lf : BBox2f) (vi : bool)
    (geom : BBox2f) (o : Overlay) (rs rd : nat) : State :=
  {| image := img; imagePos := imagePos s; imageZoom := imageZoom s;
     imageRotate := rot; imageAspectRatio := ar; gridOptions := go; backgroundColor := bg;
     lock := lk; lockFrame := lf; viewInit := vi; geometry := geom; overlay := o;
     resizes := rs; redraws := rd; zoomAnimation := zoomAnimation s |}.

(** [setImage(value)]. *)
Definition setImage (s : State) (value : option Image) : State :=
  if same_image (image s) value then s
  else
    let a := match value with
             | Some i => (imageAspectRatio s, aspectRatio i, pixelAspectRatio i)
             | None => (imageAspectRatio s, 1, 1)
             end in
    let s1 := update s value (imageRotate s) (imageAspectRatio s) (gridOptions s)
                (backgroundColor s) (lock s) (lockFrame s) (viewInit s) (geometry s)
                (set_overlay_aspect (overlay s) a) (resizes s) (redraws s) in
    let s2 := sync_overlay_bbox s1 in
    update s2 (image s2) (imageRotate s2) (imageAspectRatio s2) (gridOptions s2)
      (backgroundColor s2) (lock s2) (lockFrame s2) (viewInit s2) (geometry s2)
      (overlay s2) (S (resizes s2)) (redraws s2).

Definition rotate_eqb (a b : ImageRotate) : bool :=
  match a, b with
  | Rotate_0, Rotate_0 | Rotate_90, Rotate_90 | Rotate_180, Rotate_180
  | Rotate_270, Rotate_270 => true
  | _, _ => false
  end.

(** [setImageRotate(value)]. *)
Definition setImageRotate (s : State) (value : ImageRotate) : State :=
  if rotate_eqb (imageRotate s) value then s
  else
    let s1 := update s (image s) value (imageAspectRatio s) (gridOptions s)
                (backgroundColor s) (lock s) (lockFrame s) (viewInit s) (geometry s)
                (set_overlay_rotate (overlay s) value) (resizes s) (redraws s) in
    let s2 := sync_overlay_bbox s1 in
    update s2 (image s2) (imageRotate s2) (imageAspectRatio s2) (gridOptions s2)
      (backgroundColor s2) (lock s2) (lockFrame s2) (viewInit s2) (geometry s2)
      (overlay s2) (S (resizes s2)) (redraws s2).

(** [setImageAspectRatio(value)]: the guard [p.image ? ... : 1.F] tests the
    value subject, which is never null, and then dereferences the image it
    holds, which is null when no image is shown. *)
Definition setImageAspectRatio (s : State) (value : AspectRatio) : result exn State :=
  if decide (imageAspectRatio s = value) then Ok s
  else
    match image s with
    | None => Err NullDeref
    | Some i =>
        let s1 := update s (image s) (imageRotate s) value (gridOptions s)
                    (backgroundColor s) (lock s) (lockFrame s) (viewInit s) (geometry s)
                    (set_overlay_aspect (overlay s) (value, aspectRatio i, pixelAspectRatio i))
                    (resizes s) (redraws s) in
        let s2 := sync_overlay_bbox s1 in
        Ok (update s2 (image s2) (imageRotate s2) (imageAspectRatio s2) (gridOptions s2)
              (backgroundColor s2) (lock s2) (lockFrame s2) (viewInit s2) (geometry s2)
              (overlay s2) (S (resizes s2)) (redraws s2))
    end.

(** [setImageFrame(value)]. *)
Definition setImageFrame (s : State) (value : BBox2f) : State :=
  update s (image s) (imageRotate s) (imageAspectRatio s) (gridOptions s)
    (backgroundColor s) (lock s) value (viewInit s) (geometry s) (overlay s)
    (resizes s) (redraws s).

(** [setGridOptions(value)]. *)
Definition setGridOptions (s : State) (value : GridOptions) : State :=
  if decide (gridOptions s = value) then s
  else update s (image s) (imageRotate s) (imageAspectRatio s) value
         (backgroundColor s) (lock s) (lockFrame s) (viewInit s) (geometry s)
         (set_overlay_options (overlay s) value) (resizes s) (redraws s).

(** [setBackgroundColor(value)]. *)
Definition setBackgroundColor (s : State) (value : Color) : State :=
  if decide (backgroundColor s = value) then s
  else update s (image s) (imageRotate s) (imageAspectRatio s) (gridOptions s)
         value (lock s) (lockFrame s) (viewInit s) (geometry s) (overlay s)
         (resizes s) (S (redraws s)).

(** The lock observer's callback: [_resize] only when shown. *)
Definition lockChanged (s : State) (value : ImageViewLock) (shown : bool) : State :=
  update s (image s) (imageRotate s) (imageAspectRatio s) (gridOptions s)
    (backgroundColor s) value (lockFrame s) (viewInit s) (geometry s) (overlay s)
    (if shown then S (resizes s) else resizes s) (redraws s).

(** The parent layout gives the widget a new geometry. *)
Definition setGeometry (s : State) (g : BBox2f) : State :=
  update s (image s) (imageRotate s) (imageAspectRatio s) (gridOptions s)
    (backgroundColor s) (lock s) (lockFrame s) (viewInit s) g (overlay s)
    (resizes s) (redraws s).

(** [_layoutEvent]: [p.image && p.viewInit] tests the value subject, never
    null, so it is [viewInit] alone. *)
Definition _layoutEvent (s : State) : State :=
  let s1 := match lock s with
            | LockFill => imageFill s false
            | LockFrame => imageFrame s false
            | LockCenter => imageCenter s false
            | LockNone => if viewInit s then imageFill s false else s
            end in
  let s2 := update s1 (image s1) (imageRotate s1) (imageAspectRatio s1) (gridOptions s1)
              (backgroundColor s1) (lock s1) (lockFrame s1) false (geometry s1)
              (set_overlay_geometry (overlay s1) (geometry s1)) (resizes s1) (redraws s1) in
  sync_overlay_bbox s2.

(** The input color space [_paintEvent] renders with: the one configured
    for the image's plugin, else the default entry, else the options'. *)
Definition paintInputColorSpace (fileColorSpaces : gmap string string)
    (pluginName input : string) : string :=
  match fileColorSpaces !! pluginName with
  | Some cs => cs
  | None => match fileColorSpaces !! ""%string with Some cs => cs | None => input end
  end.

(** [_init]: the state after construction, from the settings' values;
    its last call that changes the view's state is the lock observer's
    [ValueObserver::create], which calls the callback at once with the
    saved lock [lk] ([lockChanged]; [shown] is [isVisible() &&
    !isClipped()] at that point). *)
Definition init (rot : ImageRotate) (ar : AspectRatio) (go : GridOptions) (bg : Color)
    (geom : BBox2f) (lk : ImageViewLock) (shown : bool) : State :=
  let pos := V2 0 0 in
  let o := {| ov_options := go; ov_pos := pos; ov_zoom := 1; ov_rotate := rot;
              ov_aspect := (ar, 1, 1); ov_bbox := bbox_zero; ov_frame := bbox_zero;
              ov_geometry := bbox_zero |} in
  lockChanged
    {| image := None; imagePos := pos; imageZoom := 1; imageRotate := rot;
       imageAspectRatio := ar; gridOptions := go; backgroundColor := bg; lock := LockNone;
       lockFrame := bbox_zero; viewInit := true; geometry := geom; overlay := o;
       resizes := 0; redraws := 0; zoomAnimation := None |} lk shown.

(** ** The view as a state machine *)

Inductive step : State -> State -> Prop :=
| step_setImage s v : step s (setImage s v)
| step_setImagePosAndZoom s p z a : step s (setImagePosAndZoom s p z a)
| step_setImageZoomFocus s v m a : step s (setImageZoomFocus s v m a)
| step_imageFill s a : step s (imageFill s a)
| step_imageFrame s a : step s (imageFrame s a)
| step_imageCenter s a : step s (imageCenter s a)
| step_tick s t : step s (animation_tick s t)
| step_end s : step s (animation_end s)
| step_rotate s r : step s (setImageRotate s r)
| step_aspect s a s' : setImageAspectRatio s a = Ok s' -> step s s'
| step_frame s f : step s (setImageFrame s f)
| step_grid s g : step s (setGridOptions s g)
| step_background s c : step s (setBackgroundColor s c)
| step_lock s l v : step s (lockChanged s l v)
| step_geometry s g : step s (setGeometry s g)
| step_layout s : step s (_layoutEvent s).

(** The view's invariant: the zoom is never negative and the grid overlay
    shows the view's position and zoom. *)
Definition view_inv (s : State) : Prop :=
  0 <= imageZoom s /\ ov_zoom (overlay s) = imageZoom s /\ ov_pos (overlay s) = imagePos s.

(** ** Lemmas *)

Lemma vec2_eqb_true a b : vec2_eqb a b = true -> x a == x b /\ y a == y b.
Proof.
  unfold vec2_eqb. intros H. apply andb_prop in H as [H1 H2].
  apply Qeq_bool_iff in H1, H2. auto.
Qed.

(** [_setPosAndZoom] leaves the position equal to [pos] and the zoom to
    [max 0 zoom], whether or not the subjects changed. *)
Lemma setPosAndZoom_values s p z :
  x (imagePos (_setPosAndZoom s p z)) == x p /\ y (imagePos (_setPosAndZoom s p z)) == y p /\
  imageZoom (_setPosAndZoom s p z) == Qmax 0 z /\
  zoomAnimation (_setPosAndZoom s p z) = zoomAnimation s /\
  image (_setPosAndZoom s p z) = image s /\ geometry (_setPosAndZoom s p z) = geometry s.
Proof.
  unfold _setPosAndZoom, sync_overlay_bbox, with_overlay; simpl.
  destruct (vec2_eqb (imagePos s) p) eqn:Ep;
    destruct (Qeq_bool (imageZoom s) (Qmax 0 z)) eqn:Ez; simpl;
    try apply vec2_eqb_true in Ep; try apply Qeq_bool_iff in Ez;
    repeat split; try reflexivity; try apply Ep; try apply Ez.
Qed.

Lemma inv_setPosAndZoom s p z : 0 <= imageZoom s -> view_inv (_setPosAndZoom s p z).
Proof.
  intros Hz. unfold view_inv, _setPosAndZoom, sync_overlay_bbox, with_overlay; simpl.
  repeat split; try reflexivity.
  destruct (negb (Qeq_bool (imageZoom s) (Qmax 0 z))); [apply Q.le_max_l | exact Hz].
Qed.

Lemma inv_setImagePosAndZoom s p z a : view_inv s -> view_inv (setImagePosAndZoom s p z a).
Proof.
  intros Hs. destruct a; [exact Hs|]. apply inv_setPosAndZoom, Hs.
Qed.

Lemma inv_update s img rot ar go bg lk lf vi geom o rs rd :
  view_inv s -> ov_zoom o = ov_zoom (overlay s) -> ov_pos o = ov_pos (overlay s) ->
  view_inv (update s img rot ar go bg lk lf vi geom o rs rd).
Proof. unfold view_inv, update; simpl. intros (? & ? & ?) -> ->. auto. Qed.

Lemma inv_sync s : view_inv s -> view_inv (sync_overlay_bbox s).
Proof. unfold view_inv, sync_overlay_bbox, with_overlay; simpl. auto. Qed.

Lemma inv_fill s a : view_inv s -> view_inv (imageFill s a).
Proof. intros Hs. unfold imageFill. destruct (image s); [apply inv_setImagePosAndZoom|]; done. Qed.

Lemma inv_frame s a : view_inv s -> view_inv (imageFrame s a).
Proof. intros Hs. unfold imageFrame. destruct (image s); [apply inv_setImagePosAndZoom|]; done. Qed.

Lemma inv_center s a : view_inv s -> view_inv (imageCenter s a).
Proof. intros Hs. unfold imageCenter. destruct (image s); [apply inv_setImagePosAndZoom|]; done. Qed.

Ltac inv_update_sync :=
  repeat first [ apply inv_update; [| reflexivity | reflexivity]
               | apply inv_sync ].

Lemma step_inv s s' : step s s' -> view_inv s -> view_inv s'.
Proof.
  intros Hstep Hs. destruct Hstep as [s v|s p z a|s v m a|s a|s a|s a|s t|s|s r|s a s' Ha
                                    |s f|s g|s c|s l v|s g|s].
  - unfold setImage. destruct (same_image (image s) v); [done|]. by inv_update_sync.
  - by apply inv_setImagePosAndZoom.
  - by apply inv_setImagePosAndZoom.
  - by apply inv_fill.
  - by apply inv_frame.
  - by apply inv_center.
  - unfold animation_tick. destruct (zoomAnimation s) as [[[[pp zp] pt] zt]|]; [|done].
    apply inv_setPosAndZoom, Hs.
  - unfold animation_end. destruct (zoomAnimation s) as [[[[pp zp] pt] zt]|]; [|done].
    pose proof (inv_setPosAndZoom s pt zt (proj1 Hs)) as H. unfold view_inv in *.
    unfold clear_animation; simpl. exact H.
  - unfold setImageRotate. destruct (rotate_eqb (imageRotate s) r); [done|]. by inv_update_sync.
  - unfold setImageAspectRatio in Ha. destruct (decide (imageAspectRatio s = a)); [congruence|].
    destruct (image s); [|discriminate]. injection Ha as <-. by inv_update_sync.
  - by inv_update_sync.
  - unfold setGridOptions. case_decide; [done|]. by inv_update_sync.
  - unfold setBackgroundColor. case_decide; [done|]. by inv_update_sync.
  - by inv_update_sync.
  - by inv_update_sync.
  - unfold _layoutEvent. apply inv_sync. apply inv_update; [|reflexivity|reflexivity].
    destruct (lock s); [destruct (viewInit s)| | |];
      first [apply inv_fill | apply inv_frame | apply inv_center | idtac]; exact Hs.
Qed.

(** The zoom [imageFill] and [imageFrame] compute is the largest at which the
    image's bounding box fits the target box. *)
Lemma fit_zoom_spec g b :
  0 <= w g -> 0 <= h g -> 0 < w b -> 0 < h b ->
  0 <= fit_zoom g b /\ fit_zoom g b * w b <= w g /\ fit_zoom g b * h b <= h g /\
  forall z, z * w b <= w g -> z * h b <= h g -> z <= fit_zoom g b.
Proof.
  intros Hw Hh Hbw Hbh. unfold fit_zoom.
  destruct (Qlt_le_dec (h g) (w g / w b * h b)) as [Hlt|Hle].
  - assert (Hq : h g / h b < w g / w b) by (apply Qlt_shift_div_r; assumption).
    repeat split.
    + apply Qle_shift_div_l; [exact Hbh | lra].
    + apply Qlt_le_weak. apply (Qmult_lt_r _ _ (w b)) in Hq; [|exact Hbw].
      assert (E : w g / w b * w b == w g) by (field; lra). lra.
    + assert (E : h g / h b * h b == h g) by (field; lra). lra.
    + intros z _ Hz. apply Qle_shift_div_l; assumption.
  - repeat split.
    + apply Qle_shift_div_l; [exact Hbw | lra].
    + assert (E : w g / w b * w b == w g) by (field; lra). lra.
    + exact Hle.
    + intros z Hz _. apply Qle_shift_div_l; assumption.
Qed.

Lemma imageFill_values s img :
  image s = Some img ->
  let c := _getCenter (_getImagePoints s) in
  let z := fit_zoom (geometry s) (getImageBBox s) in
  x (imagePos (imageFill s false)) == w (geometry s) / 2 - x c * z /\
  y (imagePos (imageFill s false)) == h (geometry s) / 2 - y c * z /\
  imageZoom (imageFill s false) == Qmax 0 z.
Proof.
  intros Himg. unfold imageFill. rewrite Himg. unfold setImagePosAndZoom.
  destruct (setPosAndZoom_values s
              (V2 (w (geometry s) / 2 - x (_getCenter (_getImagePoints s)) *
                     fit_zoom (geometry s) (getImageBBox s))
                  (h (geometry s) / 2 - y (_getCenter (_getImagePoints s)) *
                     fit_zoom (geometry s) (getImageBBox s)))
              (fit_zoom (geometry s) (getImageBBox s))) as (Hx & Hy & Hz & _).
  auto.
Qed.

Lemma imageFrame_values s img :
  image s = Some img ->
  let c := _getCenter (_getImagePoints s) in
  let f := lockFrame s in let g := geometry s in
  let z := fit_zoom f (getImageBBox s) in
  x (imagePos (imageFrame s false)) == (x (bmin f) - x (bmin g)) + w f / 2 - x c * z /\
  y (imagePos (imageFrame s false)) == (y (bmin f) - y (bmin g)) + h f / 2 - y c * z /\
  imageZoom (imageFrame s false) == Qmax 0 z.
Proof.
  intros Himg. unfold imageFrame. rewrite Himg. unfold setImagePosAndZoom.
  match goal with |- context [_setPosAndZoom s ?p ?z] =>
    destruct (setPosAndZoom_values s p z) as (Hx & Hy & Hz & _) end.
  auto.
Qed.

Lemma animation_tick_keeps s t : zoomAnimation (animation_tick s t) = zoomAnimation s.
Proof.
  unfold animation_tick. destruct (zoomAnimation s) as [[[[pp zp] pt] zt]|] eqn:E; [|done].
  rewrite <- E. apply setPosAndZoom_values.
Qed.

Lemma animation_ticks_keep ts s :
  zoomAnimation (fold_left animation_tick ts s) = zoomAnimation s.
Proof.
  revert s; induction ts as [|t ts IH]; intros s; simpl; [done|].
  rewrite IH. apply animation_tick_keeps.
Qed.

(** ** Properties of the view *)

(** C12. Every state the view reaches from its construction keeps the view
    invariant: the zoom is never negative and the grid overlay shows the
    view's position and zoom, whatever handlers, layouts and animation
    steps run in between. *)
Theorem reachable_view_inv rot ar go bg geom lk shown s :
  rtc step (init rot ar go bg geom lk shown) s -> view_inv s.
Proof.
  intros H. assert (H0 : view_inv (init rot ar go bg geom lk shown)).
  { unfold view_inv, init; simpl. split; [lra | split; reflexivity]. }
  revert H0. induction H as [|s1 s2 s3 Hstep _ IH]; [done|].
  intros H1. apply IH. exact (step_inv _ _ Hstep H1).
Qed.

(** C13. [imageFill] fits the image into the view: the zoom it sets is the
    largest at which the image's bounding box fits the widget's geometry,
    and the image's center lands on the widget's center. *)
Theorem imageFill_fits s img :
  image s = Some img ->
  0 <= w (geometry s) -> 0 <= h (geometry s) ->
  0 < w (getImageBBox s) -> 0 < h (getImageBBox s) ->
  imageZoom (imageFill s false) * w (getImageBBox s) <= w (geometry s) /\
  imageZoom (imageFill s false) * h (getImageBBox s) <= h (geometry s) /\
  (forall z, z * w (getImageBBox s) <= w (geometry s) ->
             z * h (getImageBBox s) <= h (geometry s) -> z <= imageZoom (imageFill s false)) /\
  x (imagePos (imageFill s false)) + x (_getCenter (_getImagePoints s)) * imageZoom (imageFill s false)
    == w (geometry s) / 2 /\
  y (imagePos (imageFill s false)) + y (_getCenter (_getImagePoints s)) * imageZoom (imageFill s false)
    == h (geometry s) / 2.
Proof.
  intros Himg Hw Hh Hbw Hbh.
  destruct (imageFill_values s img Himg) as (Hx & Hy & Hz).
  destruct (fit_zoom_spec _ _ Hw Hh Hbw Hbh) as (H0 & H1 & H2 & H3).
  rewrite (Q.max_r _ _ H0) in Hz. rewrite Hz, Hx, Hy.
  repeat split; [exact H1 | exact H2 | intros z Hz1 Hz2; rewrite Hz; auto | ring | ring].
Qed.

(** [imageFrame] fits the image into the lock frame: the zoom is the
    largest at which the image's bounding box fits the frame, and the
    image's center lands on the frame's center (the position is relative to
    the widget, the frame absolute). *)
Lemma imageFrame_fits s img :
  image s = Some img ->
  0 <= w (lockFrame s) -> 0 <= h (lockFrame s) ->
  0 < w (getImageBBox s) -> 0 < h (getImageBBox s) ->
  imageZoom (imageFrame s false) * w (getImageBBox s) <= w (lockFrame s) /\
  imageZoom (imageFrame s false) * h (getImageBBox s) <= h (lockFrame s) /\
  (forall z, z * w (getImageBBox s) <= w (lockFrame s) ->
             z * h (getImageBBox s) <= h (lockFrame s) -> z <= imageZoom (imageFrame s false)) /\
  x (bmin (geometry s)) + x (imagePos (imageFrame s false)) +
    x (_getCenter (_getImagePoints s)) * imageZoom (imageFrame s false)
    == x (bmin (lockFrame s)) + w (lockFrame s) / 2 /\
  y (bmin (geometry s)) + y (imagePos (imageFrame s false)) +
    y (_getCenter (_getImagePoints s)) * imageZoom (imageFrame s false)
    == y (bmin (lockFrame s)) + h (lockFrame s) / 2.
Proof.
  intros Himg Hw Hh Hbw Hbh.
  destruct (imageFrame_values s img Himg) as (Hx & Hy & Hz).
  destruct (fit_zoom_spec _ _ Hw Hh Hbw Hbh) as (H0 & H1 & H2 & H3).
  rewrite (Q.max_r _ _ H0) in Hz. rewrite Hz, Hx, Hy.
  repeat split; [exact H1 | exact H2 | intros z Hz1 Hz2; rewrite Hz; auto | ring | ring].
Qed.

(** C15. Zooming around a point keeps that point still: after
    [setImageZoomFocus value mouse], the image coordinate under [mouse],
    [(mouse - imagePos) / imageZoom], is the one that was under it, for a
    positive current zoom and a positive new zoom. *)
Theorem setImageZoomFocus_keeps_point s value mouse :
  0 < imageZoom s -> 0 < value ->
  (x mouse - x (imagePos (setImageZoomFocus s value mouse false))) /
     imageZoom (setImageZoomFocus s value mouse false)
    == (x mouse - x (imagePos s)) / imageZoom s /\
  (y mouse - y (imagePos (setImageZoomFocus s value mouse false))) /
     imageZoom (setImageZoomFocus s value mouse false)
    == (y mouse - y (imagePos s)) / imageZoom s.
Proof.
  intros Hz Hv. unfold setImageZoomFocus, setImagePosAndZoom.
  match goal with |- context [_setPosAndZoom s ?p ?z] =>
    destruct (setPosAndZoom_values s p z) as (Hx & Hy & Hzz & _) end.
  rewrite (Q.max_r 0 value) in Hzz by lra.
  rewrite Hx, Hy, Hzz. simpl. split; field; split; lra.
Qed.

(** C14. [setImage] on every branch: an image equal to the current one
    ([setIfChanged] compares the pointers) changes nothing; another image,
    or none, becomes the view's image, the grid overlay gets the view's
    aspect ratio with the image's aspect and pixel aspect ratios (1 and 1
    without an image), the new image's bounding box and the lock frame,
    one layout is requested, and the position, zoom and initial-fit flag
    stay as they were. *)
Theorem setImage_cases s v :
  if same_image (image s) v then setImage s v = s
  else
    image (setImage s v) = v /\ imagePos (setImage s v) = imagePos s /\
    imageZoom (setImage s v) = imageZoom s /\ viewInit (setImage s v) = viewInit s /\
    resizes (setImage s v) = S (resizes s) /\
    ov_aspect (overlay (setImage s v)) =
      (imageAspectRatio s, match v with Some i => aspectRatio i | None => 1 end,
       match v with Some i => pixelAspectRatio i | None => 1 end) /\
    ov_bbox (overlay (setImage s v)) = getImageBBox (setImage s v) /\
    ov_frame (overlay (setImage s v)) = lockFrame s.
Proof.
  unfold setImage. destruct (same_image (image s) v); [done|].
  repeat split; by destruct v.
Qed.

(** C16. With the saved lock [None], the first layout turns automatic
    fitting off even when no image is shown: [_layoutEvent] tests the
    value subject [p.image], which is never null, so a layout before any
    image clears [viewInit]; an image set afterwards is not filled by the
    next layout and stays at position (0, 0) and zoom 1. *)
Theorem first_layout_without_image_skips_fill rot ar go bg geom shown img :
  let s0 := _layoutEvent (init rot ar go bg geom LockNone shown) in
  viewInit s0 = false /\
  image (_layoutEvent (setImage s0 (Some img))) = Some img /\
  imagePos (_layoutEvent (setImage s0 (Some img))) = V2 0 0 /\
  imageZoom (_layoutEvent (setImage s0 (Some img))) = 1.
Proof. repeat split. Qed.

(** C17. Changing the aspect ratio while no image is shown dereferences a
    null pointer: the guard tests the value subject instead of the image it
    holds. *)
Theorem setImageAspectRatio_without_image s v :
  image s = None -> imageAspectRatio s <> v -> setImageAspectRatio s v = Err NullDeref.
Proof.
  intros Himg Hne. unfold setImageAspectRatio. rewrite decide_False by exact Hne.
  by rewrite Himg.
Qed.

(** C18. An animated move ends at its target: whatever value callbacks run
    before the end callback, the view ends with the target position, the
    target zoom clamped at 0, and no running animation. *)
Theorem animation_reaches_target s pos zoom ts :
  zoomAnimation (animation_end (fold_left animation_tick ts (setImagePosAndZoom s pos zoom true))) = None /\
  x (imagePos (animation_end (fold_left animation_tick ts (setImagePosAndZoom s pos zoom true)))) == x pos /\
  y (imagePos (animation_end (fold_left animation_tick ts (setImagePosAndZoom s pos zoom true)))) == y pos /\
  imageZoom (animation_end (fold_left animation_tick ts (setImagePosAndZoom s pos zoom true)))
    == Qmax 0 zoom.
Proof.
  unfold animation_end. rewrite animation_ticks_keep. simpl.
  set (s1 := fold_left animation_tick ts _).
  destruct (setPosAndZoom_values s1 pos zoom) as (Hx & Hy & Hz & _).
  unfold clear_animation; simpl. auto.
Qed.

End View.

(** ** Witnesses *)

(** A view showing a 40x20 image in a 100x100 widget. *)
Local Notation witness_view :=
  ({| image := Some {| image_id := 1; size_w := 40; size_h := 20; aspectRatio := 2;
                      pixelAspectRatio := 1 |};
     imagePos := V2 0 0; imageZoom := 1; imageRotate := Rotate_0; imageAspectRatio := tt;
     gridOptions := tt; backgroundColor := tt; lock := LockNone;
     lockFrame := BBox (V2 10 10) (V2 50 30); viewInit := true;
     geometry := BBox (V2 0 0) (V2 100 100);
     overlay := {| ov_options := tt; ov_pos := V2 0 0; ov_zoom := 1; ov_rotate := Rotate_0;
                   ov_aspect := (tt, 2, 1); ov_bbox := bbox_zero; ov_frame := bbox_zero;
                   ov_geometry := bbox_zero |};
     resizes := 0; redraws := 0; zoomAnimation := None |}
   : @State unit unit unit).



Lemma reachable_view_inv_witness :
  view_inv (_layoutEvent witness_xform (init Rotate_0 tt tt tt (BBox (V2 0 0) (V2 100 100)) LockFill true)).
Proof.
  apply (reachable_view_inv witness_xform Rotate_0 tt tt tt (BBox (V2 0 0) (V2 100 100)) LockFill true).
  apply rtc_once. apply step_layout.
Defined.

Lemma imageFill_fits_witness :
  imageZoom (imageFill witness_xform witness_view false) *
    w (getImageBBox witness_xform witness_view) <= w (geometry witness_view).
Proof.
  refine (proj1 (imageFill_fits witness_xform witness_view
           {| image_id := 1; size_w := 40; size_h := 20; aspectRatio := 2; pixelAspectRatio := 1 |}
           _ _ _ _ _)); [reflexivity | ..]; vm_compute; (reflexivity || discriminate).
Defined.

Lemma setImageZoomFocus_keeps_point_witness :
  (x (V2 30 40) - x (imagePos (setImageZoomFocus witness_xform witness_view 2 (V2 30 40) false))) /
     imageZoom (setImageZoomFocus witness_xform witness_view 2 (V2 30 40) false)
    == (x (V2 30 40) - x (imagePos witness_view)) / imageZoom witness_view.
Proof.
  refine (proj1 (setImageZoomFocus_keeps_point witness_xform witness_view 2 (V2 30 40) _ _));
    reflexivity.
Defined.

Lemma setImageAspectRatio_without_image_witness :
  @setImageAspectRatio bool unit unit _ witness_xform (init Rotate_0 false tt tt bbox_zero LockNone true) true = Err NullDeref.
Proof. apply setImageAspectRatio_without_image; [reflexivity | discriminate]. Defined.

End ImageView.
