(* ===== verification/ImagePaint.v ===== *)
(** * Painting the image view ([src/lib/djvViewApp/ImageView.cpp])

    The members of [ImageView::Private] only painting reads (the image
    options, the annotations, the OCIO configuration and the output color
    space) are the record [RenderState], beside the view's [State] of
    [ImageView].  [_paintEvent] is the list of render commands it issues:
    the background, then the image under its transform with its color
    spaces, then the annotations under the view's translation and zoom,
    each group between a [pushTransform] and a [popTransform].  The
    handlers that change the render state ([setImageOptions],
    [setAnnotations], the OCIO configuration observer of [_init]) and
    [_preLayoutEvent] are functions of both records.  The margin, the
    image's plugin name, [getXForm] and OCIO's [getColorSpace] are not
    under [src/] and are parameters. *)

From S2P Require Import Prelude ImageView.
From Stdlib Require Import QArith.
From stdpp Require Import gmap.

Module ImagePaint.
Import ImageView.
Local Open Scope Q_scope.

(** [AV::Render2D::ImageCache]. *)
Inductive ImageCache := Cache_Static | Cache_Dynamic.

(** [glm::mat3x3] products, [glm::translate] and [glm::scale]. *)
Definition mat3_mul (a b : mat3) : mat3 :=
  Mat3 (m00 a * m00 b + m01 a * m10 b + m02 a * m20 b) (m00 a * m01 b + m01 a * m11 b + m02 a * m21 b)
       (m00 a * m02 b + m01 a * m12 b + m02 a * m22 b)
       (m10 a * m00 b + m11 a * m10 b + m12 a * m20 b) (m10 a * m01 b + m11 a * m11 b + m12 a * m21 b)
       (m10 a * m02 b + m11 a * m12 b + m12 a * m22 b)
       (m20 a * m00 b + m21 a * m10 b + m22 a * m20 b) (m20 a * m01 b + m21 a * m11 b + m22 a * m21 b)
       (m20 a * m02 b + m21 a * m12 b + m22 a * m22 b).

Definition translate (m : mat3) (v : vec2) : mat3 := mat3_mul m (Mat3 1 0 (x v) 0 1 (y v) 0 0 1).
Definition scale (m : mat3) (v : vec2) : mat3 := mat3_mul m (Mat3 (x v) 0 0 0 (y v) 0 0 0 1).

Definition vadd (a b : vec2) : vec2 := V2 (x a + x b) (y a + y b).

Section Paint.
Context {AspectRatio GridOptions Color Other Annotation : Type}.
Context `{EqDecision AspectRatio, EqDecision GridOptions, EqDecision Color}.
Context `{EqDecision Other, EqDecision Annotation}.

(** [AV::Render2D::ImageOptions]: its color spaces and cache, and the
    members painting passes through. *)
Record ImageOptions := { cs_input : string; cs_output : string; cache : ImageCache; other : Other }.

#[export] Instance ImageCache_eq_dec : EqDecision ImageCache.
Proof. solve_decision. Defined.
#[export] Instance ImageOptions_eq_dec : EqDecision ImageOptions.
Proof. solve_decision. Defined.

(** [AV::OCIO::Config]: the file color spaces by plugin name, the display
    and the view. *)
Record OCIOConfig := { fileColorSpaces : gmap string string; display : string; view : string }.

(** The members of [ImageView::Private] painting reads. *)
Record RenderState := {
  imageOptions : ImageOptions;
  annotations : list Annotation;
  ocioConfig : OCIOConfig;
  outputColorSpace : string
}.

(** The render commands. *)
Inductive RenderOp :=
| SetFillColor (c : Color)
| DrawRect (b : BBox2f)
| PushTransform (m : mat3)
| PopTransform
| DrawImage (img : Image) (pos : vec2) (options : ImageOptions)
| DrawAnnotation (a : Annotation).

Variable getXForm : Image -> ImageRotate -> vec2 -> AspectRatio -> mat3.
(** [getMargin().bbox(getGeometry(), style)], [image->getPluginName()] and
    [AV::Image::Color(1.F, 1.F, 1.F)]. *)
Variable marginBBox : BBox2f -> BBox2f.
Variable getPluginName : Image -> string.
Variable white : Color.

(** The options [_paintEvent] draws the image with. *)
Definition paintOptions (r : RenderState) (img : Image) : ImageOptions :=
  {| cs_input := paintInputColorSpace (fileColorSpaces (ocioConfig r)) (getPluginName img)
                   (cs_input (imageOptions r));
     cs_output := outputColorSpace r; cache := Cache_Dynamic; other := other (imageOptions r) |}.

(** [_paintEvent]. *)
Definition _paintEvent (s : @State AspectRatio GridOptions Color) (r : RenderState) : list RenderOp :=
  let g := marginBBox (geometry s) in
  let zoom := imageZoom s in
  [SetFillColor (backgroundColor s); DrawRect g] ++
  match image s with
  | Some img =>
      let m := mat3_mul (translate mat3_identity (vadd (bmin g) (imagePos s)))
                 (getXForm img (imageRotate s) (V2 zoom zoom) (imageAspectRatio s)) in
      [PushTransform m; SetFillColor white; DrawImage img (V2 0 0) (paintOptions r img); PopTransform]
  | None => []
  end ++
  match annotations r with
  | [] => []
  | anns =>
      [PushTransform (scale (translate mat3_identity (vadd (bmin g) (imagePos s))) (V2 zoom zoom))] ++
      map DrawAnnotation anns ++ [PopTransform]
  end.

(** [_resize()] and [_redraw()]. *)
Definition _resize (s : @State AspectRatio GridOptions Color) : State :=
  update s (image s) (imageRotate s) (imageAspectRatio s) (gridOptions s) (backgroundColor s)
    (lock s) (lockFrame s) (viewInit s) (geometry s) (overlay s) (S (resizes s)) (redraws s).
Definition _redraw (s : @State AspectRatio GridOptions Color) : State :=
  update s (image s) (imageRotate s) (imageAspectRatio s) (gridOptions s) (backgroundColor s)
    (lock s) (lockFrame s) (viewInit s) (geometry s) (overlay s) (resizes s) (S (redraws s)).

(** [setImageOptions(value)]: [_resize] when the options changed and the
    widget is visible and not clipped. *)
Definition setImageOptions (s : @State AspectRatio GridOptions Color) (r : RenderState)
    (value : ImageOptions) (visible clipped : bool) : State * RenderState :=
  if decide (imageOptions r = value) then (s, r)
  else (if visible && negb clipped then _resize s else s,
        {| imageOptions := value; annotations := annotations r; ocioConfig := ocioConfig r;
           outputColorSpace := outputColorSpace r |}).

(** [setAnnotations(value)]. *)
Definition setAnnotations (s : @State AspectRatio GridOptions Color) (r : RenderState)
    (value : list Annotation) : State * RenderState :=
  (_redraw s, {| imageOptions := imageOptions r; annotations := value; ocioConfig := ocioConfig r;
                 outputColorSpace := outputColorSpace r |}).

(** The OCIO configuration observer of [_init], with
    [ocioSystem->getColorSpace(display, view)]. *)
Definition ocioConfigChanged (getColorSpace : string -> string -> string)
    (s : @State AspectRatio GridOptions Color) (r : RenderState) (value : OCIOConfig)
    : State * RenderState :=
  (_redraw s, {| imageOptions := imageOptions r; annotations := annotations r; ocioConfig := value;
                 outputColorSpace := getColorSpace (display value) (view value) |}).

(** [_preLayoutEvent]: the minimum size, square of the style's
    [ScrollArea] metric. *)
Definition _preLayoutEvent (scrollArea : Q) : vec2 := V2 scrollArea scrollArea.

End Paint.

(** The depth of the transform stack along a list of render commands, or
    [None] when a [popTransform] has nothing to pop. *)
Fixpoint stack_depth {C O A} (d : nat) (ops : list (@RenderOp C O A)) : option nat :=
  match ops with
  | [] => Some d
  | PushTransform _ :: ops' => stack_depth (S d) ops'
  | PopTransform :: ops' => match d with O => None | S d' => stack_depth d' ops' end
  | _ :: ops' => stack_depth d ops'
  end.

End ImagePaint.

(** ** What painting draws *)

Module ImagePaintFacts.
Import ImageView ImagePaint.

Lemma stack_depth_app {C O A} d (a b : list (@RenderOp C O A)) :
  stack_depth d (a ++ b) = match stack_depth d a with Some d' => stack_depth d' b | None => None end.
Proof.
  revert d. induction a as [|op a IH]; intros d; [done|].
  destruct op; simpl; try apply IH. destruct d; [done | apply IH].
Qed.

Lemma stack_depth_annotations {C O A} d (anns : list A) :
  stack_depth d (map (@DrawAnnotation C O A) anns) = Some d.
Proof. induction anns; simpl; auto. Qed.

(** The image draws of a list of render commands. *)
Definition image_draws {C O A} (ops : list (@RenderOp C O A)) : list (Image * ImageOptions) :=
  omap (fun op => match op with DrawImage img _ o => Some (img, o) | _ => None end) ops.

Definition annotation_draws {C O A} (ops : list (@RenderOp C O A)) : list A :=
  omap (fun op => match op with DrawAnnotation a => Some a | _ => None end) ops.

Section Facts.
Context {AspectRatio GridOptions Color Other Annotation : Type}.
Context `{EqDecision AspectRatio, EqDecision GridOptions, EqDecision Color}.
Context `{EqDecision Other, EqDecision Annotation}.
Variable getXForm : Image -> ImageRotate -> vec2 -> AspectRatio -> mat3.
Variable marginBBox : BBox2f -> BBox2f.
Variable getPluginName : Image -> string.
Variable white : Color.

Lemma annotation_draws_map (anns : list Annotation) :
  annotation_draws (map (@DrawAnnotation Color Other Annotation) anns) = anns.
Proof. induction anns; simpl; f_equal; auto. Qed.

(** [_paintEvent] pops every transform it pushes, never more; it draws the
    view's image, when there is one, exactly once, with the input color
    space configured for its plugin (else the default one, else the
    options'), the view's output color space and the dynamic cache; and it
    draws the annotations in their order. *)
Lemma paint_spec (s : @State AspectRatio GridOptions Color) (r : @RenderState Other Annotation) :
  let ops := _paintEvent getXForm marginBBox getPluginName white s r in
  stack_depth 0 ops = Some 0 /\
  image_draws ops = match image s with Some img => [(img, paintOptions getPluginName r img)] | None => [] end /\
  annotation_draws ops = annotations r.
Proof.
  intros ops. unfold ops, _paintEvent. split; [|split].
  - rewrite !stack_depth_app. destruct (image s); simpl;
      destruct (annotations r) as [|a anns]; simpl; try done;
      rewrite stack_depth_app, stack_depth_annotations; done.
  - unfold image_draws. rewrite !omap_app. destruct (image s); simpl;
      destruct (annotations r) as [|a anns]; simpl; rewrite ?app_nil_r; try done;
      rewrite omap_app; simpl; rewrite app_nil_r;
      induction anns; simpl; done.
  - unfold annotation_draws. rewrite !omap_app. destruct (image s); simpl;
      destruct (annotations r) as [|a anns]; simpl; try done;
      rewrite omap_app; simpl; rewrite app_nil_r; f_equal; apply annotation_draws_map.
Qed.

(** The annotations are drawn under the view's translation and zoom
    alone: the transform pushed for them has no rotation and no aspect
    ratio correction, unlike the image's, which is [getXForm] of both. *)
Lemma annotation_transform (s : @State AspectRatio GridOptions Color) (r : @RenderState Other Annotation) :
  annotations r <> [] ->
  exists pre, _paintEvent getXForm marginBBox getPluginName white s r =
    pre ++ [PushTransform (scale (translate mat3_identity (vadd (bmin (marginBBox (geometry s))) (imagePos s)))
                             (V2 (imageZoom s) (imageZoom s)))] ++
    map DrawAnnotation (annotations r) ++ [PopTransform].
Proof.
  intros Hne. unfold _paintEvent. destruct (annotations r) as [|a anns]; [done|].
  eexists. rewrite app_assoc. reflexivity.
Qed.

(** C32. After the OCIO configuration changes, the view is redrawn, and
    painting pops every transform it pushes (never more), draws the image,
    when there is one, exactly once, with the input color space the new
    configuration gives its plugin (else its default one, else the image
    options'), the output color space OCIO gives the configuration's
    display and view, and the dynamic cache, and draws the annotations in
    their order. *)
Theorem paint_after_ocio_config (getColorSpace : string -> string -> string)
    (s : @State AspectRatio GridOptions Color) (r : @RenderState Other Annotation) cfg :
  let sr := ocioConfigChanged getColorSpace s r cfg in
  let ops := _paintEvent getXForm marginBBox getPluginName white sr.1 sr.2 in
  redraws sr.1 = S (redraws s) /\
  stack_depth 0 ops = Some 0 /\
  image_draws ops =
    (match image s with
     | Some img =>
        [(img, {| cs_input := paintInputColorSpace (fileColorSpaces cfg) (getPluginName img)
                                (cs_input (imageOptions r));
                  cs_output := getColorSpace (display cfg) (view cfg); cache := Cache_Dynamic;
                  other := other (imageOptions r) |})]
     | None => []
     end) /\
  annotation_draws ops = annotations r.
Proof.
  intros sr ops. destruct (paint_spec sr.1 sr.2) as (Hb & Hi & Ha). split; [done|].
  split; [done|]. split; [exact Hi | exact Ha].
Qed.

End Facts.

End ImagePaintFacts.
