(* ===== verification/ViewGeometry.v ===== *)
(** * Setoid structure of the view's geometry

    Coordinates and zooms of [ImageView] are rationals, equal when [==]
    (not [=]) holds.  This file gives the view's vectors and boxes their
    equivalences: [vec2_eq] (equal coordinates) and [size_eq] (boxes of the
    same width and height, wherever they are); the width, height, fitted
    zoom and linear interpolation of [ImageView] respect them ([Proper]
    instances), so that the view's lemmas rewrite under them.  The fitted
    zoom depends on the sizes only: moving the widget keeps the zoom
    [imageFill] chooses. *)

From S2P Require Import Prelude ImageView.
From Stdlib Require Import QArith Qminmax Lqa.
From Stdlib Require Import Morphisms.

Module ViewGeometry.
Import ImageView.
Local Open Scope Q_scope.

(** Vectors with equal coordinates. *)
Definition vec2_eq (a b : vec2) : Prop := x a == x b /\ y a == y b.

(** Boxes of the same width and height. *)
Definition size_eq (a b : BBox2f) : Prop := w a == w b /\ h a == h b.

#[export] Instance vec2_eq_equiv : Equivalence vec2_eq.
Proof.
  split; [intros a; split; reflexivity | intros a b [Hx Hy]; split; symmetry; assumption |].
  intros a b c [Hx Hy] [Hx' Hy']; split; etransitivity; eassumption.
Qed.

#[export] Instance size_eq_equiv : Equivalence size_eq.
Proof.
  split; [intros a; split; reflexivity | intros a b [Hw Hh]; split; symmetry; assumption |].
  intros a b c [Hw Hh] [Hw' Hh']; split; etransitivity; eassumption.
Qed.

#[export] Instance w_proper : Proper (size_eq ==> Qeq) w.
Proof. intros a b [Hw _]. exact Hw. Qed.

#[export] Instance h_proper : Proper (size_eq ==> Qeq) h.
Proof. intros a b [_ Hh]. exact Hh. Qed.

#[export] Instance lerp_proper : Proper (Qeq ==> Qeq ==> Qeq ==> Qeq) lerp.
Proof. intros t t' Ht a a' Ha b b' Hb. unfold lerp. rewrite Ht, Ha, Hb. reflexivity. Qed.

#[export] Instance fit_zoom_proper : Proper (size_eq ==> size_eq ==> Qeq) fit_zoom.
Proof.
  intros g g' [Hw Hh] b b' [Hwb Hhb]. unfold fit_zoom.
  destruct (Qlt_le_dec (h g) (w g / w b * h b)) as [Hlt|Hle];
    destruct (Qlt_le_dec (h g') (w g' / w b' * h b')) as [Hlt'|Hle'].
  - rewrite Hh, Hhb. reflexivity.
  - exfalso. rewrite Hh, Hw, Hwb, Hhb in Hlt. exact (Qlt_not_le _ _ Hlt Hle').
  - exfalso. rewrite Hh, Hw, Hwb, Hhb in Hle. exact (Qlt_not_le _ _ Hlt' Hle).
  - rewrite Hw, Hwb. reflexivity.
Qed.

(** A translation of a box keeps its size. *)
Definition bbox_translate (b : BBox2f) (d : vec2) : BBox2f :=
  BBox (V2 (x (bmin b) + x d) (y (bmin b) + y d)) (V2 (x (bmax b) + x d) (y (bmax b) + y d)).

Lemma bbox_translate_size b d : size_eq (bbox_translate b d) b.
Proof. unfold size_eq, bbox_translate, w, h; simpl. split; ring. Qed.

Section Fill.
Context {AspectRatio GridOptions Color : Type}.
Context `{EqDecision AspectRatio, EqDecision GridOptions, EqDecision Color}.
Variable getXForm : Image -> ImageRotate -> vec2 -> AspectRatio -> mat3.

(** The zoom [imageFill] chooses depends on the widget's size only: a
    widget of the same size anywhere else gets the same zoom. *)
Lemma imageFill_zoom_size (s : @State AspectRatio GridOptions Color) img g :
  image s = Some img -> size_eq g (geometry s) ->
  imageZoom (imageFill getXForm (setGeometry s g) false) == imageZoom (imageFill getXForm s false).
Proof.
  intros Himg Hg.
  destruct (imageFill_values getXForm (setGeometry s g) img Himg) as (_ & _ & Hz').
  destruct (imageFill_values getXForm s img Himg) as (_ & _ & Hz).
  rewrite Hz', Hz.
  change (getImageBBox getXForm (setGeometry s g)) with (getImageBBox getXForm s).
  change (geometry (setGeometry s g)) with g. rewrite Hg. reflexivity.
Qed.

Lemma imageFill_zoom_translate (s : @State AspectRatio GridOptions Color) img d :
  image s = Some img ->
  imageZoom (imageFill getXForm (setGeometry s (bbox_translate (geometry s) d)) false) ==
  imageZoom (imageFill getXForm s false).
Proof. intros Himg. apply (imageFill_zoom_size s img); [done | apply bbox_translate_size]. Qed.

End Fill.

End ViewGeometry.
