(* ===== verification/Codec.v ===== *)
(** * The options codec interface and the codecs that implement it

    DJV persists every option set through the overloaded function templates
    [toJSON(const T &)] and [fromJSON(const picojson::value &, T &)].  The
    class [OptionsCodec] is that pair of overloads; [OptionsCodecLaws] is what
    a codec promises its clients (the settings persistence of AVSettings.v):
    reading back what was written restores the value and raises nothing, for
    every value satisfying the codec's validity predicate.

    Instances:
    - [PPM.Options] (PPM.cpp), by the definitions of PPM.v;
    - [JPEG.Settings] ([src/lib/djvAV/JPEGJSONInline.h]), whose quality is
      written with [std::stringstream << int] and read back with
      [std::stringstream >> int];
    - [Grid.GridOptions] (the end of [src/lib/djvViewApp/ImageView.cpp]),
      generic in the codecs of its members. *)

From S2P Require Import Prelude Text Json PPM.

Class OptionsCodec (O : Type) := {
  toJSON : O -> value;
  fromJSON : value -> O -> outcome O
}.

Class OptionsCodecLaws (O : Type) `{!OptionsCodec O} := {
  options_valid : O -> Prop;
  fromJSON_toJSON : forall o out, options_valid o -> fromJSON (toJSON o) out = (o, None)
}.

#[export] Instance PPM_codec : OptionsCodec PPM.Options :=
  {| toJSON := PPM.toJSON; fromJSON := PPM.fromJSON |}.

Module JPEG.

(** [AV::IO::JPEG::Settings]. *)
Record Settings := { quality : Z }.

(** [toJSON<AV::IO::JPEG::Settings>]: [ss << value.quality]. *)
Definition toJSON_Settings (s : Settings) : value :=
  JObject (obj_insert "Quality" (JString (string_of_list_ascii (to_string_i (quality s)))) []).

(** The loop body of [fromJSON<AV::IO::JPEG::Settings>]:
    [std::stringstream ss(i.second.get<std::string>()); ss >> out.quality]. *)
Definition fromJSON_member (k : string) (v : value) (out : Settings) : outcome Settings :=
  if String.eqb "Quality" k then
    match get_string v with
    | Err e => (out, Some e)
    | Ok str => ({| quality := istream_int (list_ascii_of_string str) (quality out) |}, None)
    end
  else (out, None).

Definition fromJSON_Settings (v : value) (out : Settings) : outcome Settings :=
  from_object fromJSON_member v out.

#[export] Instance Settings_codec : OptionsCodec Settings :=
  {| toJSON := toJSON_Settings; fromJSON := fromJSON_Settings |}.

End JPEG.

Module Grid.

Section Grid.
Context {Size Color Labels : Type}.

(** [ViewApp::GridOptions]. *)
Record GridOptions := {
  enabled : bool;
  size : Size;
  color : Color;
  labels : Labels;
  labelsColor : Color
}.

Context `{!OptionsCodec bool, !OptionsCodec Size, !OptionsCodec Color, !OptionsCodec Labels}.

(** [toJSON(const ViewApp::GridOptions &)]: five assignments through
    [operator[]]. *)
Definition toJSON_GridOptions (g : GridOptions) : value :=
  let o := obj_insert "Enabled" (toJSON (enabled g)) [] in
  let o := obj_insert "Size" (toJSON (size g)) o in
  let o := obj_insert "Color" (toJSON (color g)) o in
  let o := obj_insert "Labels" (toJSON (labels g)) o in
  JObject (obj_insert "LabelsColor" (toJSON (labelsColor g)) o).

Definition set_enabled (g : GridOptions) (b : bool) : GridOptions :=
  {| enabled := b; size := size g; color := color g; labels := labels g;
     labelsColor := labelsColor g |}.
Definition set_size (g : GridOptions) (s : Size) : GridOptions :=
  {| enabled := enabled g; size := s; color := color g; labels := labels g;
     labelsColor := labelsColor g |}.
Definition set_color (g : GridOptions) (c : Color) : GridOptions :=
  {| enabled := enabled g; size := size g; color := c; labels := labels g;
     labelsColor := labelsColor g |}.
Definition set_labels (g : GridOptions) (l : Labels) : GridOptions :=
  {| enabled := enabled g; size := size g; color := color g; labels := l;
     labelsColor := labelsColor g |}.
Definition set_labelsColor (g : GridOptions) (c : Color) : GridOptions :=
  {| enabled := enabled g; size := size g; color := color g; labels := labels g;
     labelsColor := c |}.

(** [fromJSON(i.second, out.member)] reads into the member in place: the
    member keeps what the member's parser stored before it threw. *)
Definition into {A} (set : GridOptions -> A -> GridOptions) (g : GridOptions)
    (r : outcome A) : outcome GridOptions :=
  (set g r.1, r.2).

(** The loop body of [fromJSON(const picojson::value &, ViewApp::GridOptions &)]. *)
Definition fromJSON_member (k : string) (v : value) (out : GridOptions) : outcome GridOptions :=
  if String.eqb "Enabled" k then into set_enabled out (fromJSON v (enabled out))
  else if String.eqb "Size" k then into set_size out (fromJSON v (size out))
  else if String.eqb "Color" k then into set_color out (fromJSON v (color out))
  else if String.eqb "Labels" k then into set_labels out (fromJSON v (labels out))
  else if String.eqb "LabelsColor" k then into set_labelsColor out (fromJSON v (labelsColor out))
  else (out, None).

Definition fromJSON_GridOptions (v : value) (out : GridOptions) : outcome GridOptions :=
  from_object fromJSON_member v out.

#[export] Instance GridOptions_codec : OptionsCodec GridOptions :=
  {| toJSON := toJSON_GridOptions; fromJSON := fromJSON_GridOptions |}.

End Grid.
Arguments GridOptions : clear implicits.

End Grid.

(** A codec of booleans as JSON booleans, on which the generic codecs can be
    evaluated. *)
Definition bool_toJSON (b : bool) : value := JBool b.
Definition bool_fromJSON (v : value) (out : bool) : outcome bool :=
  match v with JBool b => (b, None) | _ => (out, Some TypeMismatch) end.
Definition bool_codec : OptionsCodec bool :=
  {| toJSON := bool_toJSON; fromJSON := bool_fromJSON |}.

Definition bool_codec_laws : @OptionsCodecLaws bool bool_codec.
Proof. refine (@Build_OptionsCodecLaws _ bool_codec (fun _ => True) _). done. Defined.

(** ** Laws of the codecs *)

Module CodecFacts.
Import JPEG Grid.

Lemma PPM_fromJSON_toJSON (o out : PPM.Options) : True -> PPM.fromJSON (PPM.toJSON o) out = (o, None).
Proof. by destruct o as [[]]. Qed.

#[export] Instance PPM_codec_laws : OptionsCodecLaws PPM.Options :=
  @Build_OptionsCodecLaws _ PPM_codec (fun _ => True) PPM_fromJSON_toJSON.

#[local] Existing Instance bool_codec.


Lemma quality_member_roundtrip q out :
  in_int q ->
  JPEG.fromJSON_member "Quality" (JString (string_of_list_ascii (to_string_i q))) out
    = ({| quality := q |}, None).
Proof.
  intros Hq. unfold JPEG.fromJSON_member. simpl.
  by rewrite list_ascii_of_string_of_list_ascii, istream_to_string_i.
Qed.

Lemma Settings_fromJSON_toJSON (s out : Settings) :
  in_int (quality s) -> fromJSON_Settings (toJSON_Settings s) out = (s, None).
Proof.
  destruct s as [q]. intros Hq. unfold fromJSON_Settings, toJSON_Settings.
  cbn -[JPEG.fromJSON_member]. by rewrite quality_member_roundtrip.
Qed.

#[export] Instance Settings_codec_laws : OptionsCodecLaws Settings :=
  @Build_OptionsCodecLaws _ Settings_codec (fun s => in_int (quality s)) Settings_fromJSON_toJSON.

(** C19. The JPEG settings read their quality from any object that holds
    it as the decimal text [toJSON] writes, whatever other members it has:
    on an object with distinct keys whose ["Quality"] member is the text of
    an [int] [q], [fromJSON] sets the quality to [q] and raises nothing
    (unknown members are ignored).  [toJSON]'s own output is one such
    object. *)
Theorem JPEG_settings_read_quality o q out :
  NoDup o.*1 -> in_int q ->
  obj_find "Quality" o = Some (JString (string_of_list_ascii (to_string_i q))) ->
  fromJSON_Settings (JObject o) out = ({| quality := q |}, None).
Proof.
  intros Hnd Hq Hf. unfold fromJSON_Settings, from_object.
  rewrite (for_each_member_single _ "Quality") by
    (done || (intros k v s' Hk; unfold JPEG.fromJSON_member;
              by destruct (String.eqb_spec "Quality" k); [congruence|])).
  rewrite Hf. by apply quality_member_roundtrip.
Qed.

(** C20. A quality without digits is not an error: [ss >> out.quality]
    either fails in its sentry, when the string is empty or only white
    space, and leaves the quality as it was, or fails in the extraction,
    which stores 0 under C++11; [fromJSON] reports nothing either way, so a
    settings file with ["Quality": "high"] silently sets the JPEG quality
    to 0 and one with ["Quality": ""] keeps the previous quality. *)
Theorem JPEG_quality_without_digits str out :
  Forall (fun c => is_digit c = false) (list_ascii_of_string str) ->
  fromJSON_Settings (JObject [("Quality"%string, JString str)]) out =
    ({| quality := if forallb is_space (list_ascii_of_string str) then quality out else 0 |}, None).
Proof.
  intros Hs. unfold fromJSON_Settings. simpl. by rewrite istream_int_no_digits.
Qed.

Section GridFacts.
Context {Size Color Labels : Type}
  `{!OptionsCodec bool, !OptionsCodec Size, !OptionsCodec Color, !OptionsCodec Labels}
  `{!OptionsCodecLaws bool, !OptionsCodecLaws Size, !OptionsCodecLaws Color,
    !OptionsCodecLaws Labels}.

(** The grid options read back what they wrote, for any codecs of
    their members that do: [fromJSON] of [toJSON g] gives [g] and raises
    nothing when every member is valid for its codec. *)
Lemma GridOptions_roundtrip (g out : GridOptions Size Color Labels) :
  options_valid (enabled g) -> options_valid (size g) -> options_valid (color g) ->
  options_valid (labels g) -> options_valid (labelsColor g) ->
  fromJSON_GridOptions (toJSON_GridOptions g) out = (g, None).
Proof.
  destruct g as [e sz c l lc]. simpl. intros He Hs Hc Hl Hlc.
  unfold fromJSON_GridOptions, toJSON_GridOptions. cbn.
  rewrite !fromJSON_toJSON by assumption. reflexivity.
Qed.

End GridFacts.

#[local] Existing Instance bool_codec_laws.

Lemma JPEG_settings_read_quality_witness :
  fromJSON_Settings
    (JObject [("Other"%string, JNull); ("Quality"%string, JString "90")]) {| quality := 75 |}
    = ({| quality := 90 |}, None).
Proof.
  apply JPEG_settings_read_quality;
    [repeat constructor; set_solver | unfold in_int, int_min, int_max; lia | reflexivity].
Defined.

Lemma JPEG_quality_without_digits_witness :
  fromJSON_Settings (JObject [("Quality"%string, JString "high")]) {| quality := 90 |}
    = ({| quality := 0 |}, None).
Proof. apply JPEG_quality_without_digits. repeat constructor. Defined.

End CodecFacts.
