(* ===== verification/AVSettings.v ===== *)
(** * Persistence of the AV settings ([src/lib/djvUI/AVSettings.cpp])

    [UI::Settings::AV] saves the AV system's settings (time units, alpha
    blending, default speed, image filter options, LCD text) and every I/O
    plugin's options into one JSON object, and loads them back at startup.
    It talks to two collaborators that are not under [src/]:
    - the AV system, whose five values are set and observed;
    - the I/O system [AV::IO::System], which names the plugins and gets and
      sets each plugin's options as a JSON value.

    The I/O system is the interface [IOSystem] with its laws
    [IOSystemLaws]; the load/save round trip is proved against the
    interface, and [Plugins] is an implementation by the two codecs of the
    sources whose options have a JSON codec (PPM and JPEG), which discharges
    the laws.  The settings templates [read] and [write] (ISettingsTemplates.h,
    not under [src/]) are modelled from the spec: a member that is missing
    leaves the default, and a member that does not parse raises its error,
    which propagates out of [load] (spec, section 7). *)

From S2P Require Import Prelude Text Json PPM Codec.

(** What [AV::IO::System] offers to the settings. *)
Class IOSystem (Sys : Type) := {
  getPluginNames : Sys -> list string;
  io_getOptions : Sys -> string -> value;
  io_setOptions : Sys -> string -> value -> outcome Sys
}.

(** What the settings rely on: setting a plugin keeps the plugin list,
    leaves the other plugins alone, and restores the options another valid
    system exported; a valid system is determined by its plugins' options. *)
Class IOSystemLaws (Sys : Type) `{!IOSystem Sys} := {
  io_valid : Sys -> Prop;
  io_set_names : forall s n v, getPluginNames (io_setOptions s n v).1 = getPluginNames s;
  io_set_other : forall s n m v, n <> m ->
    io_getOptions (io_setOptions s n v).1 m = io_getOptions s m;
  io_set_restore : forall s t n, io_valid s -> io_valid t ->
    (io_setOptions s n (io_getOptions t n)).2 = None /\
    io_getOptions (io_setOptions s n (io_getOptions t n)).1 n = io_getOptions t n /\
    io_valid (io_setOptions s n (io_getOptions t n)).1;
  io_ext : forall s t, io_valid s -> io_valid t -> getPluginNames s = getPluginNames t ->
    (forall n, n ∈ getPluginNames s -> io_getOptions s n = io_getOptions t n) -> s = t
}.

Module AV.

Section AV.
Context {TimeUnits AlphaBlend FPS FilterOptions Sys : Type}.
Context `{!OptionsCodec TimeUnits, !OptionsCodec AlphaBlend, !OptionsCodec FPS,
          !OptionsCodec FilterOptions, !OptionsCodec bool, !IOSystem Sys}.

(** The values [load] starts from: [Time::Units::First],
    [AlphaBlend::Straight], [Time::getDefaultSpeed()], a default
    [ImageFilterOptions], and [false]. *)
Variables (dflt_timeUnits : TimeUnits) (dflt_alphaBlend : AlphaBlend) (dflt_speed : FPS)
          (dflt_filter : FilterOptions).

(** The AV system's observed values. *)
Record AVSystem := {
  timeUnits : TimeUnits;
  alphaBlend : AlphaBlend;
  defaultSpeed : FPS;
  imageFilterOptions : FilterOptions;
  lcdText : bool
}.

Record State := { avSystem : AVSystem; ioSystem : Sys }.

(** [read(name, object, out)]: a member that is present is parsed into
    [out]; a parse error propagates to the caller (spec, section 7). *)
Definition read {T} `{!OptionsCodec T} (name : string) (o : object) (out : T) : result exn T :=
  match obj_find name o with
  | None => Ok out
  | Some v => match fromJSON v out with (x, None) => Ok x | (_, Some e) => Err e end
  end.

(** [write(name, value, object)]: [object[name] = toJSON(value)]. *)
Definition write {T} `{!OptionsCodec T} (name : string) (v : T) (o : object) : object :=
  obj_insert name (toJSON v) o.

(** The loop over [ioSystem->getPluginNames()]: a plugin whose name is a
    member gets it as its options; a throwing [setOptions] ends [load]. *)
Fixpoint load_plugins (names : list string) (o : object) (io : Sys) : outcome Sys :=
  match names with
  | [] => (io, None)
  | n :: ns =>
      match obj_find n o with
      | None => load_plugins ns o io
      | Some v =>
          match io_setOptions io n v with
          | (io', None) => load_plugins ns o io'
          | (io', Some e) => (io', Some e)
          end
      end
  end.

(** [AV::load(const picojson::value &)]: the five members are read into
    locals, so a [read] that throws leaves the AV system and the plugins as
    they were; then the AV system is set and the plugins get their
    members. *)
Definition load (v : value) (st : State) : outcome State :=
  match v with
  | JObject o =>
      let av := (tu <- read "TimeUnits" o dflt_timeUnits;;
                 ab <- read "AlphaBlend" o dflt_alphaBlend;;
                 sp <- read "DefaultSpeed" o dflt_speed;;
                 fo <- read "ImageFilterOptions" o dflt_filter;;
                 lcd <- read "LCDText" o false;;
                 Ok {| timeUnits := tu; alphaBlend := ab; defaultSpeed := sp;
                       imageFilterOptions := fo; lcdText := lcd |}) in
      match av with
      | Err e => (st, Some e)
      | Ok av =>
          let r := load_plugins (getPluginNames (ioSystem st)) o (ioSystem st) in
          ({| avSystem := av; ioSystem := r.1 |}, r.2)
      end
  | _ => (st, None)
  end.

(** [AV::_init] (and [AV::create], which calls it on a new object): the
    systems from the context, then [ISettings::_load], which passes what
    the settings file holds under ["djv::UI::Settings::AV"], if anything,
    to [load]. *)
Definition _init (stored : option value) (avs : AVSystem) (ios : Sys) : outcome State :=
  let st := {| avSystem := avs; ioSystem := ios |} in
  match stored with
  | Some v => load v st
  | None => (st, None)
  end.

(** The members [save] writes before the plugins. *)
Definition settings_keys : list string :=
  ["TimeUnits"; "AlphaBlend"; "DefaultSpeed"; "ImageFilterOptions"; "LCDText"].

(** [AV::save()]. *)
Definition save (st : State) : value :=
  let a := avSystem st in
  let o := write "TimeUnits" (timeUnits a) [] in
  let o := write "AlphaBlend" (alphaBlend a) o in
  let o := write "DefaultSpeed" (defaultSpeed a) o in
  let o := write "ImageFilterOptions" (imageFilterOptions a) o in
  let o := write "LCDText" (lcdText a) o in
  let io := ioSystem st in
  JObject (fold_left (fun o n => obj_insert n (io_getOptions io n) o) (getPluginNames io) o).

End AV.

End AV.

(** ** The plugins with an options codec in the sources *)

Module Plugins.
Import JPEG.

(** The options of the PPM and JPEG plugins, as the I/O system holds them. *)
Record Plugins := { jpeg : JPEG.Settings; ppm : PPM.Options }.

(** [IO::System::getPluginNames], [getOptions] and [setOptions] on these
    plugins: dispatch by name; an unknown name gives a null value and sets
    nothing. *)
Definition plugin_names : list string := ["JPEG"; "PPM"].

Definition getOptions (s : Plugins) (n : string) : value :=
  if String.eqb n "JPEG" then toJSON (jpeg s)
  else if String.eqb n "PPM" then toJSON (ppm s)
  else JNull.

Definition setOptions (s : Plugins) (n : string) (v : value) : outcome Plugins :=
  if String.eqb n "JPEG" then
    let r := fromJSON v (jpeg s) in ({| jpeg := r.1; ppm := ppm s |}, r.2)
  else if String.eqb n "PPM" then
    let r := fromJSON v (ppm s) in ({| jpeg := jpeg s; ppm := r.1 |}, r.2)
  else (s, None).

#[export] Instance Plugins_io : IOSystem Plugins :=
  {| getPluginNames _ := plugin_names; io_getOptions := getOptions;
     io_setOptions := setOptions |}.

(** The plugins are valid when the JPEG quality is an [int]. *)
Definition plugins_valid (s : Plugins) : Prop := Prelude.in_int (quality (jpeg s)).

(** Plugins with a JPEG quality of 90 and ASCII PPM files. *)
Definition witness_plugins : Plugins := {| jpeg := {| quality := 90 |}; ppm := {| PPM.data := PPM.ASCII |} |}.

End Plugins.

(** ** Load and save *)

Module AVFacts.
Import AV.

Section Valid.
Context {TimeUnits AlphaBlend FPS FilterOptions : Type}.
Context `{!OptionsCodec TimeUnits, !OptionsCodec AlphaBlend, !OptionsCodec FPS,
          !OptionsCodec FilterOptions, !OptionsCodec bool}.
Context `{!OptionsCodecLaws TimeUnits, !OptionsCodecLaws AlphaBlend, !OptionsCodecLaws FPS,
          !OptionsCodecLaws FilterOptions, !OptionsCodecLaws bool}.

(** Every value of the AV system is valid for its codec. *)
Definition settings_valid (a : @AVSystem TimeUnits AlphaBlend FPS FilterOptions) : Prop :=
  options_valid (timeUnits a) /\ options_valid (alphaBlend a) /\
  options_valid (defaultSpeed a) /\ options_valid (imageFilterOptions a) /\
  options_valid (lcdText a).

End Valid.

Lemma obj_find_fold_insert (g : string -> value) n ns o :
  obj_find n (fold_left (fun o m => obj_insert m (g m) o) ns o) =
    if decide (n ∈ ns) then Some (g n) else obj_find n o.
Proof.
  revert o; induction ns as [|m ns IH]; intros o; cbn [fold_left].
  - case_decide as Hn; [set_solver | done].
  - rewrite IH. case_decide as Hn; case_decide as Hn'; try done; [set_solver| |].
    + apply elem_of_cons in Hn' as [->|]; [apply obj_find_insert_eq | done].
    + apply obj_find_insert_ne. set_solver.
Qed.

Lemma read_toJSON {T} `{OptionsCodecLaws T} name o (v d : T) :
  obj_find name o = Some (toJSON v) -> options_valid v -> read name o d = Ok v.
Proof. intros Hf Hv. unfold read. by rewrite Hf, fromJSON_toJSON. Qed.

Section Restore.
Context {Sys : Type} `{IOSystemLaws Sys}.

(** Loading the plugins of [ns] from an object holding the options [t]
    exports sets each of them to [t]'s options and leaves the others. *)
Lemma load_plugins_restore (t : Sys) o ns : forall s,
  io_valid s -> io_valid t ->
  (forall n, n ∈ ns -> obj_find n o = Some (io_getOptions t n)) ->
  (load_plugins ns o s).2 = None /\ io_valid (load_plugins ns o s).1 /\
  getPluginNames (load_plugins ns o s).1 = getPluginNames s /\
  (forall n, n ∈ ns -> io_getOptions (load_plugins ns o s).1 n = io_getOptions t n) /\
  (forall m, m ∉ ns -> io_getOptions (load_plugins ns o s).1 m = io_getOptions s m).
Proof.
  induction ns as [|n ns IH]; intros s Hs Ht Ho; simpl; [repeat split; set_solver|].
  rewrite (Ho n) by set_solver.
  destruct (io_set_restore s t n Hs Ht) as (He & Hget & Hv).
  destruct (io_setOptions s n (io_getOptions t n)) as [s1 e] eqn:E. simpl in *. subst e.
  pose proof (io_set_names s n (io_getOptions t n)) as Hn. rewrite E in Hn. simpl in Hn.
  destruct (IH s1 Hv Ht ltac:(set_solver)) as (He' & Hv' & Hn' & Hin & Hout).
  repeat split; [done | done | congruence | |].
  - intros m Hm. destruct (decide (m ∈ ns)); [auto|].
    assert (m = n) as -> by set_solver. by rewrite Hout.
  - intros m Hm. rewrite Hout by set_solver.
    pose proof (io_set_other s n m (io_getOptions t n) ltac:(set_solver)) as Ho'.
    by rewrite E in Ho'.
Qed.

End Restore.

Section RoundTrip.
Context {TimeUnits AlphaBlend FPS FilterOptions Sys : Type}.
Context `{!OptionsCodec TimeUnits, !OptionsCodec AlphaBlend, !OptionsCodec FPS,
          !OptionsCodec FilterOptions, !OptionsCodec bool, !IOSystem Sys}.
Context `{!OptionsCodecLaws TimeUnits, !OptionsCodecLaws AlphaBlend, !OptionsCodecLaws FPS,
          !OptionsCodecLaws FilterOptions, !OptionsCodecLaws bool, !IOSystemLaws Sys}.
Variables (dflt_timeUnits : TimeUnits) (dflt_alphaBlend : AlphaBlend) (dflt_speed : FPS)
          (dflt_filter : FilterOptions).

(** Loading what [save] wrote into an I/O system with the same plugins
    restores the state. *)
Lemma load_save (st st' : @State TimeUnits AlphaBlend FPS FilterOptions Sys) :
  settings_valid (avSystem st) -> io_valid (ioSystem st) -> io_valid (ioSystem st') ->
  getPluginNames (ioSystem st') = getPluginNames (ioSystem st) ->
  Forall (fun n => n ∉ settings_keys) (getPluginNames (ioSystem st)) ->
  load dflt_timeUnits dflt_alphaBlend dflt_speed dflt_filter (save st) st' = (st, None).
Proof.
  destruct st as [[tu ab sp fo lcd] io], st' as [av' io'].
  unfold settings_valid; simpl. intros (Htu & Hab & Hsp & Hfo & Hlcd) Hio Hio' Hnames Hkeys.
  unfold load, save, write; simpl.
  assert (Hfind : forall k v, k ∈ settings_keys ->
            obj_find k (fold_left (fun o n => obj_insert n (io_getOptions io n) o)
                          (getPluginNames io) v) = obj_find k v).
  { intros k v Hk. rewrite obj_find_fold_insert, decide_False; [done|].
    intros Hin. exact (proj1 (Forall_forall _ _) Hkeys k Hin Hk). }
  match goal with |- context [read _ ?o _] => set (O := o) end.
  rewrite (read_toJSON "TimeUnits" O tu), (read_toJSON "AlphaBlend" O ab),
    (read_toJSON "DefaultSpeed" O sp), (read_toJSON "ImageFilterOptions" O fo),
    (read_toJSON "LCDText" O lcd) by (try assumption; unfold O; rewrite Hfind by set_solver; done).
  rewrite Hnames.
  destruct (load_plugins_restore io O (getPluginNames io) io' Hio' Hio) as (He & Hv & Hn & Hin & _).
  { intros n Hn. unfold O. rewrite obj_find_fold_insert. by case_decide. }
  rewrite He. f_equal. f_equal.
  apply io_ext; [done | done | by rewrite Hn |].
  intros n Hn'. apply Hin. by rewrite Hn, Hnames in Hn'.
Qed.

(** C22. The settings survive a restart: an [AV] settings object created
    ([_init]) from the JSON that [save] wrote, on any AV system and on an
    I/O system with the same plugins, gives back the AV system's five
    values and every plugin's options, and raises nothing, when no plugin
    is named like one of the five members and every value is valid for
    its codec.  The proof uses only the codec and I/O system laws, so it
    holds for every implementation of them. *)
Theorem load_save_roundtrip (st : @State TimeUnits AlphaBlend FPS FilterOptions Sys) avs ios :
  settings_valid (avSystem st) -> io_valid (ioSystem st) -> io_valid ios ->
  getPluginNames ios = getPluginNames (ioSystem st) ->
  Forall (fun n => n ∉ settings_keys) (getPluginNames (ioSystem st)) ->
  _init dflt_timeUnits dflt_alphaBlend dflt_speed dflt_filter (Some (save st)) avs ios = (st, None).
Proof.
  intros Hs Hio Hio' Hn Hk. unfold _init.
  apply (load_save st {| avSystem := avs; ioSystem := ios |}); done.
Qed.

End RoundTrip.

Section Members.
Context {TimeUnits AlphaBlend FPS FilterOptions Sys : Type}.
Context `{!OptionsCodec TimeUnits, !OptionsCodec AlphaBlend, !OptionsCodec FPS,
          !OptionsCodec FilterOptions, !OptionsCodec bool, !IOSystem Sys}.
Variables (dflt_timeUnits : TimeUnits) (dflt_alphaBlend : AlphaBlend) (dflt_speed : FPS)
          (dflt_filter : FilterOptions).

(** C9. What [AV::save] writes: a member for each of the five AV values
    under its name and one for each plugin under the plugin's name, and
    nothing else; the plugins are written last, so a plugin named like one
    of the five members replaces that member's value. *)
Theorem save_members (st : @State TimeUnits AlphaBlend FPS FilterOptions Sys) :
  exists o, save st = JObject o /\ forall k,
    obj_find k o =
      if decide (k ∈ getPluginNames (ioSystem st)) then Some (io_getOptions (ioSystem st) k)
      else if String.eqb k "LCDText" then Some (toJSON (lcdText (avSystem st)))
      else if String.eqb k "ImageFilterOptions" then Some (toJSON (imageFilterOptions (avSystem st)))
      else if String.eqb k "DefaultSpeed" then Some (toJSON (defaultSpeed (avSystem st)))
      else if String.eqb k "AlphaBlend" then Some (toJSON (alphaBlend (avSystem st)))
      else if String.eqb k "TimeUnits" then Some (toJSON (timeUnits (avSystem st)))
      else None.
Proof.
  eexists; split; [reflexivity|]. intros k.
  rewrite obj_find_fold_insert. case_decide; [done|].
  unfold write. by rewrite !obj_find_insert.
Qed.

(** C10. A member of the five that does not parse ends [AV::load] with
    its error before anything is set: the values are read into locals
    first, so when the time units member fails to parse the AV system and
    every plugin keep their values, whatever the other members hold. *)
Theorem load_member_error (st : @State TimeUnits AlphaBlend FPS FilterOptions Sys) o v e :
  obj_find "TimeUnits" o = Some v -> (fromJSON v dflt_timeUnits).2 = Some e ->
  load dflt_timeUnits dflt_alphaBlend dflt_speed dflt_filter (JObject o) st = (st, Some e).
Proof.
  intros Hf He. unfold load, read at 1. rewrite Hf.
  destruct (fromJSON v dflt_timeUnits) as [x [e'|]]; simpl in He; [|discriminate].
  by injection He as ->.
Qed.

End Members.


End AVFacts.

Module PluginsFacts.
Import JPEG Plugins CodecFacts AV AVFacts.

Lemma toJSON_inj {T} `{OptionsCodecLaws T} (a b : T) :
  options_valid a -> options_valid b -> toJSON a = toJSON b -> a = b.
Proof.
  intros Ha Hb E. pose proof (fromJSON_toJSON a a Ha) as Ea.
  rewrite E, (fromJSON_toJSON b a Hb) in Ea. congruence.
Qed.

Lemma plugins_set_other s n m v :
  n <> m -> getOptions (setOptions s n v).1 m = getOptions s m.
Proof.
  intros Hne. unfold getOptions, setOptions.
  destruct (String.eqb_spec n "JPEG"), (String.eqb_spec m "JPEG"),
    (String.eqb_spec n "PPM"), (String.eqb_spec m "PPM"); simpl; congruence.
Qed.

Lemma plugins_set_restore s t n :
  plugins_valid s -> plugins_valid t ->
  (setOptions s n (getOptions t n)).2 = None /\
  getOptions (setOptions s n (getOptions t n)).1 n = getOptions t n /\
  plugins_valid (setOptions s n (getOptions t n)).1.
Proof.
  unfold plugins_valid, getOptions, setOptions. intros Hs Ht.
  destruct (String.eqb_spec n "JPEG"); cbn -[fromJSON_Settings toJSON_Settings].
  - by rewrite (Settings_fromJSON_toJSON (jpeg t) (jpeg s) Ht).
  - destruct (String.eqb_spec n "PPM"); cbn -[PPM.fromJSON PPM.toJSON]; [|done].
    by rewrite (PPM_fromJSON_toJSON (ppm t) (ppm s) I).
Qed.

Lemma plugins_ext s t :
  plugins_valid s -> plugins_valid t ->
  (forall n, n ∈ plugin_names -> getOptions s n = getOptions t n) -> s = t.
Proof.
  destruct s as [js ps], t as [jt pt]. unfold plugins_valid; simpl. intros Hs Ht Hget.
  pose proof (Hget "JPEG"%string ltac:(set_solver)) as Hj.
  pose proof (Hget "PPM"%string ltac:(set_solver)) as Hp.
  unfold getOptions in Hj, Hp; simpl in Hj, Hp.
  f_equal; [exact (toJSON_inj js jt Hs Ht Hj) | exact (toJSON_inj ps pt I I Hp)].
Qed.

#[export] Instance Plugins_laws : IOSystemLaws Plugins :=
  {| io_valid := plugins_valid;
     io_set_names _ _ _ := eq_refl;
     io_set_other := plugins_set_other;
     io_set_restore := plugins_set_restore;
     io_ext s t Hs Ht _ := plugins_ext s t Hs Ht |}.

Section LoadError.
Context {TimeUnits AlphaBlend FPS FilterOptions : Type}.
Context `{!OptionsCodec TimeUnits, !OptionsCodec AlphaBlend, !OptionsCodec FPS,
          !OptionsCodec FilterOptions, !OptionsCodec bool}.
Variables (dflt_timeUnits : TimeUnits) (dflt_alphaBlend : AlphaBlend) (dflt_speed : FPS)
          (dflt_filter : FilterOptions).

(** C23. A plugin's options that do not parse abort the rest of [load]:
    for an object without any of the five AV members, when the JPEG
    member's quality is a JSON number instead of a string,
    [get<std::string>()] throws, [AV::load] ends with [TypeMismatch], the
    JPEG settings keep their value and the PPM plugin, which comes after it,
    is not given its member even when that member is valid. *)
Theorem load_stops_at_failing_plugin
    (st : @State TimeUnits AlphaBlend FPS FilterOptions Plugins) o q :
  Forall (fun k => obj_find k o = None) settings_keys ->
  obj_find "JPEG" o = Some (JObject [("Quality"%string, JNumber q)]) ->
  (load dflt_timeUnits dflt_alphaBlend dflt_speed dflt_filter (JObject o) st).2 = Some TypeMismatch /\
  ioSystem (load dflt_timeUnits dflt_alphaBlend dflt_speed dflt_filter (JObject o) st).1
    = ioSystem st.
Proof.
  intros Hk Hj. unfold settings_keys in Hk. repeat apply Forall_cons in Hk as [? Hk].
  unfold load, read. repeat match goal with H : obj_find _ o = None |- _ => rewrite H; clear H end.
  cbn [bind getPluginNames Plugins_io plugin_names load_plugins].
  rewrite Hj. unfold io_setOptions, setOptions. simpl.
  by destruct (ioSystem st) as [[qj] p].
Qed.

End LoadError.

#[local] Existing Instance bool_codec.
#[local] Existing Instance bool_codec_laws.


Lemma load_save_roundtrip_witness :
  let st := {| avSystem := {| timeUnits := true; alphaBlend := false; defaultSpeed := true;
                              imageFilterOptions := false; lcdText := true |};
               ioSystem := witness_plugins |} in
  _init false false false false (Some (save st))
    {| timeUnits := false; alphaBlend := false; defaultSpeed := false;
       imageFilterOptions := false; lcdText := false |}
    {| jpeg := {| quality := 10 |}; ppm := {| PPM.data := PPM.Binary |} |} = (st, None).
Proof.
  apply (load_save_roundtrip (TimeUnits := bool) (AlphaBlend := bool) (FPS := bool)
           (FilterOptions := bool) (Sys := Plugins));
    [repeat split | cbn; unfold plugins_valid, witness_plugins, Prelude.in_int, int_min, int_max; cbn; lia
    | cbn; unfold plugins_valid, witness_plugins, Prelude.in_int, int_min, int_max; cbn; lia | reflexivity | ].
  apply (bool_decide_unpack _). reflexivity.
Defined.

Lemma load_stops_at_failing_plugin_witness :
  let o := [("JPEG"%string, JObject [("Quality"%string, JNumber 90)]);
            ("PPM"%string, toJSON {| PPM.data := PPM.Binary |})] in
  (load false false false false (JObject o)
     {| avSystem := {| timeUnits := false; alphaBlend := false; defaultSpeed := false;
                       imageFilterOptions := false; lcdText := false |};
        ioSystem := witness_plugins |}).2 = Some TypeMismatch.
Proof.
  refine (proj1 (load_stops_at_failing_plugin false false false false _ _ 90 _ _));
    [repeat constructor | reflexivity].
Defined.

Lemma load_member_error_witness :
  let st := {| avSystem := {| timeUnits := false; alphaBlend := false; defaultSpeed := false;
                              imageFilterOptions := false; lcdText := false |};
               ioSystem := witness_plugins |} in
  load false false false false
    (JObject [("JPEG"%string, toJSON {| quality := 10 |}); ("TimeUnits"%string, JNull)]) st
    = (st, Some TypeMismatch).
Proof. apply (load_member_error (Sys := Plugins) false false false false _ _ JNull); reflexivity. Defined.

End PluginsFacts.
