(* ===== verification/IViewSystem.v ===== *)
(** * The MDI widget registry of the view systems
    ([src/lib/djvViewApp/IViewSystem.cpp])

    Each view system opens its tool widgets on the MDI canvas under a name,
    remembers the position and size of a widget when it is closed, and
    gives them back to the next widget opened under that name.  The widget
    objects are shared with the canvas and with the close callbacks
    installed on them, so the state holds them by identity (a [nat] per
    widget object) and keeps the canvas, the widgets' sizes and their close
    callbacks as explicit stores:
    - [children] and [canvasPos] are the canvas's child list and the
      positions it holds ([UI::MDI::Canvas], not under [src/]);
    - [sizes] are the widgets' sizes, [closeCallbacks] the name each
      widget's close callback captured;
    - [widgets], [widgetsPos], [widgetsSize] are the three [std::map]s of
      [IViewSystem::Private], as [gmap]s;
    - [notified] lists the calls of [closeWidgetCallback], in order. *)

From S2P Require Import Prelude.
From stdpp Require Import gmap.

Module IViewSystem.

(** A [glm::vec2], only stored and copied here. *)
Definition vec2 := (Z * Z)%type.

Definition WidgetId := nat.

Record State := {
  canvas : bool;
  children : list WidgetId;
  canvasPos : gmap WidgetId vec2;
  sizes : gmap WidgetId vec2;
  closeCallbacks : gmap WidgetId string;
  widgets : gmap string WidgetId;
  widgetsPos : gmap string vec2;
  widgetsSize : gmap string vec2;
  hasCloseWidgetCallback : bool;
  notified : list string
}.

Definition init : State :=
  {| canvas := false; children := []; canvasPos := ∅; sizes := ∅; closeCallbacks := ∅;
     widgets := ∅; widgetsPos := ∅; widgetsSize := ∅; hasCloseWidgetCallback := false;
     notified := [] |}.

(** [setCanvas(value)]: a canvas with no children yet. *)
Definition setCanvas (s : State) : State :=
  {| canvas := true; children := []; canvasPos := ∅; sizes := sizes s;
     closeCallbacks := closeCallbacks s; widgets := widgets s; widgetsPos := widgetsPos s;
     widgetsSize := widgetsSize s; hasCloseWidgetCallback := hasCloseWidgetCallback s;
     notified := notified s |}.

(** [_setCloseWidgetCallback(value)]. *)
Definition setCloseWidgetCallback (s : State) : State :=
  {| canvas := canvas s; children := children s; canvasPos := canvasPos s; sizes := sizes s;
     closeCallbacks := closeCallbacks s; widgets := widgets s; widgetsPos := widgetsPos s;
     widgetsSize := widgetsSize s; hasCloseWidgetCallback := true; notified := notified s |}.

(** [Canvas::addChild]: the widget becomes the last child. *)
Definition addChild (l : list WidgetId) (w : WidgetId) : list WidgetId :=
  filter (fun c => c <> w) l ++ [w].

(** [Canvas::removeChild]. *)
Definition removeChild (l : list WidgetId) (w : WidgetId) : list WidgetId :=
  filter (fun c => c <> w) l.

(** [Canvas::getWidgetPos] and [Widget::getSize]: a default vector when
    none was set. *)
Definition get_or_zero (m : gmap WidgetId vec2) (k : WidgetId) : vec2 :=
  match m !! k with Some v => v | None => (0, 0)%Z end.

(** [_openWidget(name, widget)]: dereferences the canvas, so it fails
    before [setCanvas]. *)
Definition _openWidget (s : State) (name : string) (w : WidgetId) : result exn State :=
  if negb (canvas s) then Err NullDeref
  else
    let pos := match widgetsPos s !! name with
               | Some p => <[w := p]> (canvasPos s)
               | None => canvasPos s
               end in
    let sz := match widgetsSize s !! name with
              | Some z => <[w := z]> (sizes s)
              | None => sizes s
              end in
    Ok {| canvas := canvas s; children := addChild (children s) w; canvasPos := pos;
          sizes := sz; closeCallbacks := <[w := name]> (closeCallbacks s);
          widgets := <[name := w]> (widgets s); widgetsPos := widgetsPos s;
          widgetsSize := widgetsSize s; hasCloseWidgetCallback := hasCloseWidgetCallback s;
          notified := notified s |}.

(** [_closeWidget(name)]. *)
Definition _closeWidget (s : State) (name : string) : State :=
  match widgets s !! name with
  | None => s
  | Some w =>
      {| canvas := canvas s; children := removeChild (children s) w;
         canvasPos := canvasPos s; sizes := sizes s; closeCallbacks := closeCallbacks s;
         widgets := delete name (widgets s);
         widgetsPos := <[name := get_or_zero (canvasPos s) w]> (widgetsPos s);
         widgetsSize := <[name := get_or_zero (sizes s) w]> (widgetsSize s);
         hasCloseWidgetCallback := hasCloseWidgetCallback s; notified := notified s |}
  end.

Definition notify (s : State) (name : string) : State :=
  {| canvas := canvas s; children := children s; canvasPos := canvasPos s; sizes := sizes s;
     closeCallbacks := closeCallbacks s; widgets := widgets s; widgetsPos := widgetsPos s;
     widgetsSize := widgetsSize s; hasCloseWidgetCallback := hasCloseWidgetCallback s;
     notified := notified s ++ [name] |}.

(** The close callback installed on widget [w] by [_openWidget]: closes the
    name it captured, then tells the owner. *)
Definition widgetClosed (s : State) (w : WidgetId) : State :=
  match closeCallbacks s !! w with
  | None => s
  | Some name =>
      let s1 := _closeWidget s name in
      if hasCloseWidgetCallback s1 then notify s1 name else s1
  end.

(** The user moves or resizes a widget on the canvas. *)
Definition moveWidget (s : State) (w : WidgetId) (p : vec2) : State :=
  {| canvas := canvas s; children := children s; canvasPos := <[w := p]> (canvasPos s);
     sizes := sizes s; closeCallbacks := closeCallbacks s; widgets := widgets s;
     widgetsPos := widgetsPos s; widgetsSize := widgetsSize s;
     hasCloseWidgetCallback := hasCloseWidgetCallback s; notified := notified s |}.

Definition resizeWidget (s : State) (w : WidgetId) (z : vec2) : State :=
  {| canvas := canvas s; children := children s; canvasPos := canvasPos s;
     sizes := <[w := z]> (sizes s); closeCallbacks := closeCallbacks s; widgets := widgets s;
     widgetsPos := widgetsPos s; widgetsSize := widgetsSize s;
     hasCloseWidgetCallback := hasCloseWidgetCallback s; notified := notified s |}.

(** The operations in any order.  A widget object is created for each
    [_openWidget], so it is fresh: no callback was installed on it before. *)
Inductive step : State -> State -> Prop :=
| step_setCanvas s : widgets s = ∅ -> step s (setCanvas s)
| step_callback s : step s (setCloseWidgetCallback s)
| step_open s s' n w : closeCallbacks s !! w = None -> _openWidget s n w = Ok s' -> step s s'
| step_close s n : step s (_closeWidget s n)
| step_closed s w : step s (widgetClosed s w)
| step_move s w p : step s (moveWidget s w p)
| step_resize s w z : step s (resizeWidget s w z).

Definition ok_or (d : State) (r : result exn State) : State :=
  match r with Ok s => s | Err _ => d end.

(** A view system with the widget [1] open under ["Info"], moved and
    resized. *)
Definition witness_opened : State :=
  {| canvas := true; children := [1%nat]; canvasPos := {[1%nat := (10, 20)%Z]};
     sizes := {[1%nat := (300, 200)%Z]}; closeCallbacks := {[1%nat := "Info"%string]};
     widgets := {["Info"%string := 1%nat]}; widgetsPos := ∅; widgetsSize := ∅;
     hasCloseWidgetCallback := true; notified := [] |}.

End IViewSystem.

(** ** The registry's properties *)

Module IViewSystemFacts.
Import IViewSystem.

(** Every open widget is a child of the canvas and its close callback
    closes its own name. *)
Definition registry_inv (s : State) : Prop :=
  forall n w, widgets s !! n = Some w -> w ∈ children s /\ closeCallbacks s !! w = Some n.

Lemma elem_of_addChild l w c : c ∈ addChild l w <-> c = w \/ c ∈ l.
Proof. unfold addChild. rewrite elem_of_app, list_elem_of_filter, list_elem_of_singleton.
  destruct (decide (c = w)); tauto.
Qed.

Lemma elem_of_removeChild l w c : c ∈ removeChild l w <-> c <> w /\ c ∈ l.
Proof. unfold removeChild. by rewrite list_elem_of_filter. Qed.

Lemma openWidget_Ok s n w s' :
  _openWidget s n w = Ok s' ->
  canvas s = true /\ children s' = addChild (children s) w /\
  closeCallbacks s' = <[w := n]> (closeCallbacks s) /\ widgets s' = <[n := w]> (widgets s) /\
  widgetsPos s' = widgetsPos s /\ widgetsSize s' = widgetsSize s /\
  canvasPos s' = match widgetsPos s !! n with
                 | Some p => <[w := p]> (canvasPos s) | None => canvasPos s end /\
  sizes s' = match widgetsSize s !! n with
             | Some z => <[w := z]> (sizes s) | None => sizes s end.
Proof. unfold _openWidget. destruct (canvas s); [|done]. intros [= <-]. simpl. tauto. Qed.

Lemma inv_open s n w s' :
  registry_inv s -> closeCallbacks s !! w = None -> _openWidget s n w = Ok s' -> registry_inv s'.
Proof.
  intros Hinv Hw Hok. apply openWidget_Ok in Hok as (_ & Hc & Hcb & Hw' & _).
  intros n' w'. rewrite Hc, Hcb, Hw', elem_of_addChild.
  destruct (decide (n = n')) as [<-|Hne].
  - rewrite lookup_insert_eq. intros [= <-]. rewrite lookup_insert_eq. auto.
  - rewrite lookup_insert_ne by done. intros Hl. destruct (Hinv _ _ Hl) as [Hin Hcb'].
    assert (w <> w') by congruence. rewrite lookup_insert_ne by done. auto.
Qed.

Lemma inv_close s n : registry_inv s -> registry_inv (_closeWidget s n).
Proof.
  intros Hinv. unfold _closeWidget. destruct (widgets s !! n) as [w|] eqn:E; [|done].
  intros n' w'; simpl. rewrite elem_of_removeChild.
  destruct (decide (n = n')) as [<-|Hne]; [by rewrite lookup_delete_eq|].
  rewrite lookup_delete_ne by done. intros Hl.
  destruct (Hinv _ _ Hl) as [Hin Hcb], (Hinv _ _ E) as [_ Hcb'].
  split; [split; [congruence | done] | done].
Qed.

Lemma inv_closed s w : registry_inv s -> registry_inv (widgetClosed s w).
Proof.
  intros Hinv. unfold widgetClosed. destruct (closeCallbacks s !! w) as [n|]; [|done].
  pose proof (inv_close s n Hinv) as H.
  destruct (hasCloseWidgetCallback (_closeWidget s n)); [|done].
  intros n' w' Hl. exact (H n' w' Hl).
Qed.

Lemma registry_step_inv s s' : step s s' -> registry_inv s -> registry_inv s'.
Proof.
  destruct 1 as [s Hw| s | s s' n w Hfresh Hok | s n | s w | s w p | s w z]; intros Hinv.
  - intros n w' Hl. simpl in Hl. rewrite Hw, lookup_empty in Hl. done.
  - exact Hinv.
  - exact (inv_open s n w s' Hinv Hfresh Hok).
  - exact (inv_close s n Hinv).
  - exact (inv_closed s w Hinv).
  - intros n w' Hl. exact (Hinv n w' Hl).
  - intros n w' Hl. exact (Hinv n w' Hl).
Qed.

(** C24. In every reachable state each open widget is on the canvas and
    its close callback closes the name it is registered under. *)
Theorem reachable_registry_inv s : rtc step init s -> registry_inv s.
Proof.
  intros H. assert (H0 : registry_inv init) by (intros n w; simpl; by rewrite lookup_empty).
  revert H0. induction H as [|s1 s2 s3 Hstep _ IH]; [done|].
  intros H1. apply IH. exact (registry_step_inv _ _ Hstep H1).
Qed.

(** C25. A widget opened under a name takes the position and size the last
    widget of that name had on the canvas when it was closed. *)
Theorem reopen_restores_geometry s n w w2 p z s' :
  widgets s !! n = Some w -> canvasPos s !! w = Some p -> sizes s !! w = Some z ->
  _openWidget (_closeWidget s n) n w2 = Ok s' ->
  canvasPos s' !! w2 = Some p /\ sizes s' !! w2 = Some z /\
  w2 ∈ children s' /\ widgets s' !! n = Some w2.
Proof.
  intros Hw Hp Hz Hok. apply openWidget_Ok in Hok as (_ & Hc & _ & Hw' & _ & _ & Hpos & Hsz).
  unfold _closeWidget in *. rewrite Hw in Hc, Hw', Hpos, Hsz.
  cbn [canvasPos sizes widgetsPos widgetsSize children widgets] in *.
  rewrite Hpos, Hsz, Hc, Hw', !lookup_insert_eq. unfold get_or_zero. rewrite Hp, Hz.
  rewrite elem_of_addChild. auto.
Qed.

(** C26. Opening a second widget under a name that is still open leaves the
    first one on the canvas with its close callback, which closes the name:
    closing the first widget removes the second and leaves the first on the
    canvas, no longer registered under any name. *)
Theorem stale_widget_closes_new s n w1 w2 s1 s2 :
  registry_inv s -> closeCallbacks s !! w1 = None -> w1 <> w2 ->
  _openWidget s n w1 = Ok s1 -> _openWidget s1 n w2 = Ok s2 ->
  w1 ∈ children (widgetClosed s2 w1) /\ (w2 ∉ children (widgetClosed s2 w1)) /\
  widgets (widgetClosed s2 w1) !! n = None /\
  (forall n', widgets (widgetClosed s2 w1) !! n' <> Some w1).
Proof.
  intros Hinv Hfresh Hne Hok1 Hok2.
  apply openWidget_Ok in Hok1 as (_ & Hc1 & Hcb1 & Hw1 & _).
  apply openWidget_Ok in Hok2 as (_ & Hc2 & Hcb2 & Hw2 & _).
  unfold widgetClosed. rewrite Hcb2, lookup_insert_ne, Hcb1, lookup_insert_eq by done.
  assert (Hcl : widgets (_closeWidget s2 n) !! n = None /\
                children (_closeWidget s2 n) = removeChild (children s2) w2 /\
                widgets (_closeWidget s2 n) = delete n (widgets s2)).
  { unfold _closeWidget. rewrite Hw2, lookup_insert_eq. simpl. by rewrite lookup_delete_eq. }
  destruct Hcl as (Hn & Hch & Hws).
  assert (G : w1 ∈ children (_closeWidget s2 n) /\ (w2 ∉ children (_closeWidget s2 n)) /\
              widgets (_closeWidget s2 n) !! n = None /\
              forall n', widgets (_closeWidget s2 n) !! n' <> Some w1).
  { rewrite Hch, Hws, !elem_of_removeChild, Hc2, Hc1, !elem_of_addChild.
    split; [intuition | split; [intuition | split; [apply lookup_delete_eq|]]].
    intros n' Hl. rewrite Hw2, Hw1 in Hl.
    destruct (decide (n = n')) as [<-|Hn']; [by rewrite lookup_delete_eq in Hl|].
    rewrite lookup_delete_ne, !lookup_insert_ne in Hl by done.
    destruct (Hinv _ _ Hl) as [_ Hcb]. congruence. }
  by destruct (hasCloseWidgetCallback (_closeWidget s2 n)).
Qed.

Lemma reachable_registry_inv_witness :
  registry_inv (ok_or init (_openWidget (setCanvas init) "Info" 1)).
Proof.
  apply reachable_registry_inv. eapply rtc_l; [apply step_setCanvas; reflexivity|].
  apply rtc_once. eapply step_open; reflexivity.
Defined.

Lemma reopen_restores_geometry_witness :
  canvasPos (ok_or init (_openWidget (_closeWidget witness_opened "Info") "Info" 2)) !! 2%nat
    = Some (10, 20)%Z.
Proof.
  refine (proj1 (reopen_restores_geometry witness_opened "Info" 1 2 (10, 20)%Z (300, 200)%Z _
                   _ _ _ _)); reflexivity.
Defined.

Lemma stale_widget_closes_new_witness :
  let s1 := ok_or init (_openWidget (setCanvas init) "Info" 1) in
  let s2 := ok_or init (_openWidget s1 "Info" 2) in
  1%nat ∈ children (widgetClosed s2 1).
Proof.
  refine (proj1 (stale_widget_closes_new (setCanvas init) "Info" 1 2 _ _ _ _ _ _ _));
    [intros n w; simpl; by rewrite lookup_empty | reflexivity | done | reflexivity | reflexivity].
Defined.

End IViewSystemFacts.
