(* ===== verification/FileSystem.v ===== *)
(** * The File menu of the viewer ([src/lib/djvViewLib/FileSystem.cpp])

    [ViewLib::FileSystem] owns the File actions (Open, Reload, Close,
    Export, Exit), observes the clicks of three of them, opens media and
    tells its observers, and enables Close and Export when there is a
    current media.  The state is the action map (a [gmap] from the
    [std::map] keys), the values the two subjects [opened] and [close]
    notified, in order (their [setAlways] notifies every time), the dialog
    whose callback is pending, and whether the application was told to
    exit.  The user's interaction is a list of events run in order by
    [run]; an observer's callback runs on a click (the value [true]; the
    call [ValueObserver::create] makes at once with [false] does nothing).

    [UI::Action], the file browser and the dialog system are not under
    [src/]: an action is its text, shortcut and enabled flag (enabled when
    created), a dialog is the callback it will call.  The theorems show
    the action map's invariant over every run, that only a confirmed Exit
    exits, and that with a dialog system Exit stays reachable after any
    event history. *)

From S2P Require Import Prelude.
From stdpp Require Import gmap.

Module FileSystem.

Record Action := { text : string; shortcut : option (Z * Z); enabled : bool }.

(** [UI::Action::create()]. *)
Definition default_action : Action := {| text := ""; shortcut := None; enabled := true |}.

(** The GLFW key codes and modifier the actions use. *)
Definition GLFW_KEY_E : Z := 69.
Definition GLFW_KEY_O : Z := 79.
Definition GLFW_KEY_Q : Z := 81.
Definition GLFW_KEY_R : Z := 82.
Definition GLFW_KEY_X : Z := 88.
Definition GLFW_MOD_CONTROL : Z := 2.

Inductive Dialog := NoDialog | FileBrowserShown | ExitConfirmation.

Record State := {
  actions : gmap string Action;
  opened : list string;
  close : nat;
  dialog : Dialog;
  exited : bool;
  hasFileBrowser : bool;
  hasDialogSystem : bool
}.

(** [p.actions[name] = UI::Action::create(); setText(name);
    setShortcut(key, GLFW_MOD_CONTROL)]. *)
Definition add_action (m : gmap string Action) (name : string) (key : Z) : gmap string Action :=
  <[name := {| text := name; shortcut := Some (key, GLFW_MOD_CONTROL); enabled := true |}]> m.

(** [FileSystem::_init]: the five actions; the file browser and the dialog
    system are the context's, when it has them. *)
Definition init (fileBrowser dialogSystem : bool) : State :=
  let m := add_action ∅ "Open" GLFW_KEY_O in
  let m := add_action m "Reload" GLFW_KEY_R in
  let m := add_action m "Close" GLFW_KEY_E in
  let m := add_action m "Export" GLFW_KEY_X in
  let m := add_action m "Exit" GLFW_KEY_Q in
  {| actions := m; opened := []; close := 0; dialog := NoDialog; exited := false;
     hasFileBrowser := fileBrowser; hasDialogSystem := dialogSystem |}.

Definition with_dialog (s : State) (d : Dialog) : State :=
  {| actions := actions s; opened := opened s; close := close s; dialog := d;
     exited := exited s; hasFileBrowser := hasFileBrowser s;
     hasDialogSystem := hasDialogSystem s |}.

(** [FileSystem::open(value)]: [p.opened->setAlways(Media::create(value))]. *)
Definition open (s : State) (path : string) : State :=
  {| actions := actions s; opened := opened s ++ [path]; close := close s; dialog := dialog s;
     exited := exited s; hasFileBrowser := hasFileBrowser s;
     hasDialogSystem := hasDialogSystem s |}.

(** The click observers of [_init]: Open shows the file browser, Close
    notifies [close], Exit asks for confirmation; Reload and Export have
    no observer. *)
Definition clicked (s : State) (name : string) : State :=
  if String.eqb name "Open" then
    if hasFileBrowser s then with_dialog s FileBrowserShown else s
  else if String.eqb name "Close" then
    {| actions := actions s; opened := opened s; close := S (close s); dialog := dialog s;
       exited := exited s; hasFileBrowser := hasFileBrowser s;
       hasDialogSystem := hasDialogSystem s |}
  else if String.eqb name "Exit" then
    if hasDialogSystem s then with_dialog s ExitConfirmation else s
  else s.

(** The file browser's callback: [system->open(value.getPath())]. *)
Definition fileChosen (s : State) (path : string) : State :=
  match dialog s with
  | FileBrowserShown => open (with_dialog s NoDialog) path
  | _ => s
  end.

(** The confirmation's callback: [if (value) Application::exit()]. *)
Definition confirmed (s : State) (value : bool) : State :=
  match dialog s with
  | ExitConfirmation =>
      let s1 := with_dialog s NoDialog in
      {| actions := actions s1; opened := opened s1; close := close s1; dialog := NoDialog;
         exited := exited s1 || value; hasFileBrowser := hasFileBrowser s1;
         hasDialogSystem := hasDialogSystem s1 |}
  | _ => s
  end.

(** [p.actions[name]->setEnabled(b)]: [operator[]] creates the action if it
    is missing. *)
Definition set_enabled (m : gmap string Action) (name : string) (b : bool) : gmap string Action :=
  let a := default default_action (m !! name) in
  <[name := {| text := text a; shortcut := shortcut a; enabled := b |}]> m.

(** [FileSystem::setCurrentMedia(media)]. *)
Definition setCurrentMedia (s : State) (media : option string) : State :=
  let b := match media with Some _ => true | None => false end in
  {| actions := set_enabled (set_enabled (actions s) "Close" b) "Export" b;
     opened := opened s; close := close s; dialog := dialog s; exited := exited s;
     hasFileBrowser := hasFileBrowser s; hasDialogSystem := hasDialogSystem s |}.

Inductive MenuItem := MenuAction (name : string) | MenuSeparator.

(** [FileSystem::createMenu()]: the actions the File menu shows. *)
Definition createMenu : list MenuItem :=
  [MenuAction "Open"; MenuAction "Close"; MenuAction "Export"; MenuSeparator;
   MenuAction "Exit"].

(** [FileSystem::getMenuSortKey()]. *)
Definition getMenuSortKey : string := "0".

Inductive Event :=
| Click (name : string)
| FileChosen (path : string)
| Confirm (value : bool)
| SetCurrentMedia (media : option string).

#[export] Instance Event_eq_dec : EqDecision Event.
Proof. solve_decision. Defined.

Definition handle (s : State) (e : Event) : State :=
  match e with
  | Click n => clicked s n
  | FileChosen p => fileChosen s p
  | Confirm b => confirmed s b
  | SetCurrentMedia m => setCurrentMedia s m
  end.

Definition run (s : State) (evs : list Event) : State := fold_left handle evs s.

(** The five actions with their shortcuts, as [_init] creates them. *)
Definition action_table : list (string * Z) :=
  [("Open", GLFW_KEY_O); ("Reload", GLFW_KEY_R); ("Close", GLFW_KEY_E);
   ("Export", GLFW_KEY_X); ("Exit", GLFW_KEY_Q)].

End FileSystem.

(** ** Properties of the File menu *)

Module FileSystemFacts.
Import FileSystem.

Definition action_of (name : string) (key : Z) (b : bool) : Action :=
  {| text := name; shortcut := Some (key, GLFW_MOD_CONTROL); enabled := b |}.

(** The action map has exactly the five actions of [_init], each with its
    text and its Ctrl shortcut. *)
Definition actions_inv (m : gmap string Action) : Prop :=
  (forall name, is_Some (m !! name) <-> name ∈ action_table.*1) /\
  Forall (fun nk => exists b, m !! nk.1 = Some (action_of nk.1 nk.2 b)) action_table.

(** Whether Close and Export are enabled after the events [evs]: as the
    last [setCurrentMedia] left them, enabled when there was none. *)
Definition enabled_step (b : bool) (e : Event) : bool :=
  match e with
  | SetCurrentMedia m => match m with Some _ => true | None => false end
  | _ => b
  end.

Definition enabled_after (evs : list Event) : bool := fold_left enabled_step evs true.

Lemma set_enabled_inv m name b :
  actions_inv m -> name ∈ action_table.*1 -> actions_inv (set_enabled m name b).
Proof.
  intros [Hdom Htab] Hn. unfold set_enabled. split.
  - intros n. rewrite lookup_insert. case_decide as E; [subst; split; [done | intros _; eexists; done]|].
    apply Hdom.
  - eapply Forall_impl; [exact Htab|]. intros [n k] [b' Hb]; simpl in *.
    rewrite lookup_insert. case_decide as E; [subst n; rewrite Hb; simpl|]; eauto.
Qed.

Lemma handle_actions s e :
  (actions (handle s e) = actions s) \/
  (exists m, e = SetCurrentMedia m /\
     actions (handle s e) = set_enabled (set_enabled (actions s) "Close" (match m with Some _ => true | None => false end))
                              "Export" (match m with Some _ => true | None => false end)).
Proof.
  destruct e as [n|p|v|m]; simpl.
  - left. unfold clicked. repeat case_match; done.
  - left. unfold fileChosen. by repeat case_match.
  - left. unfold confirmed. by repeat case_match.
  - right. by exists m.
Qed.

Lemma handle_inv s e : actions_inv (actions s) -> actions_inv (actions (handle s e)).
Proof.
  intros Hinv. destruct (handle_actions s e) as [->|(m & _ & ->)]; [done|].
  apply set_enabled_inv; [apply set_enabled_inv; [done|]|]; simpl; set_solver.
Qed.

Lemma run_app s evs1 evs2 : run s (evs1 ++ evs2) = run (run s evs1) evs2.
Proof. apply fold_left_app. Qed.

Lemma init_inv fb ds : actions_inv (actions (init fb ds)).
Proof.
  split.
  - intros n. unfold init, add_action; simpl. rewrite !lookup_insert, lookup_empty.
    repeat case_decide; subst; simpl; split; intros Hx; try done; try set_solver.
  - repeat constructor; eexists; reflexivity.
Qed.

(** C27. Whatever the user does, the File actions stay the five actions
    [_init] created, each with its text and its Ctrl shortcut (O, R, E, X,
    Q); only their enabled flags change. *)
Theorem run_actions_inv fb ds evs : actions_inv (actions (run (init fb ds) evs)).
Proof.
  unfold run. generalize (init_inv fb ds). generalize (init fb ds).
  induction evs as [|e evs IH]; intros s Hs; simpl; [done|]. apply IH, handle_inv, Hs.
Qed.

Lemma handle_exited s e :
  exited s = false -> exited (handle s e) = true -> e = Confirm true /\ dialog s = ExitConfirmation.
Proof.
  intros Hs. destruct e as [n|p|v|m]; simpl.
  - unfold clicked. repeat case_match; simpl; congruence.
  - unfold fileChosen. repeat case_match; simpl; congruence.
  - unfold confirmed. destruct (dialog s); simpl; [congruence| congruence |].
    rewrite Hs. destruct v; simpl; [done | congruence].
  - simpl. congruence.
Qed.

Lemma handle_dialog s e :
  dialog (handle s e) = ExitConfirmation -> dialog s = ExitConfirmation \/ e = Click "Exit".
Proof.
  destruct e as [n|p|v|m]; simpl; intros Hd.
  - unfold clicked in Hd. repeat case_match; simpl in Hd; auto; try discriminate.
    right. f_equal. by apply String.eqb_eq.
  - unfold fileChosen in Hd. repeat case_match; simpl in Hd; first [left; done | discriminate | congruence].
  - unfold confirmed in Hd. repeat case_match; simpl in Hd; first [left; done | discriminate | congruence].
  - auto.
Qed.

Lemma run_exited s evs :
  exited s = false -> exited (run s evs) = true ->
  exists pre post, evs = pre ++ Confirm true :: post /\ dialog (run s pre) = ExitConfirmation.
Proof.
  revert s; induction evs as [|e evs IH]; intros s Hs Hr; [simpl in Hr; congruence|].
  destruct (exited (handle s e)) eqn:He.
  - destruct (handle_exited s e Hs He) as [-> Hd]. by exists [], evs.
  - destruct (IH (handle s e) He Hr) as (pre & post & -> & Hd). by exists (e :: pre), post.
Qed.

Lemma run_dialog s pre :
  dialog s <> ExitConfirmation -> dialog (run s pre) = ExitConfirmation -> Click "Exit" ∈ pre.
Proof.
  revert s; induction pre as [|e pre IH]; intros s Hs Hr; [simpl in Hr; congruence|].
  simpl in Hr. destruct (decide (e = Click "Exit")) as [->|Hne]; [left|].
  apply elem_of_cons; right. apply (IH (handle s e)); [|exact Hr].
  intros Hd. destruct (handle_dialog s e Hd); congruence.
Qed.

(** C28. The application exits only when the user accepted the exit
    confirmation, which only the Exit action shows: if a run from [_init]
    ends with the application told to exit, its events contain a [true]
    answer to a confirmation, preceded by a click on Exit. *)
Theorem exit_needs_confirmation fb ds evs :
  exited (run (init fb ds) evs) = true ->
  exists pre post, evs = pre ++ Confirm true :: post /\ Click "Exit" ∈ pre.
Proof.
  intros H. destruct (run_exited (init fb ds) evs eq_refl H) as (pre & post & -> & Hd).
  exists pre, post. split; [done|]. exact (run_dialog (init fb ds) pre ltac:(discriminate) Hd).
Qed.

(** C29. The Reload and Export actions do nothing: no observer is attached
    to their clicks, so a click leaves the state as it was, although Export
    is in the File menu (and enabled with a media) and Reload has the
    shortcut Ctrl+R; Reload is not in the menu. *)
Theorem reload_export_do_nothing s :
  handle s (Click "Reload") = s /\ handle s (Click "Export") = s /\
  MenuAction "Export" ∈ createMenu /\ MenuAction "Reload" ∉ createMenu.
Proof.
  split; [reflexivity|]. split; [reflexivity|]. split; [unfold createMenu; set_solver|].
  unfold createMenu. rewrite !not_elem_of_cons. repeat split; try congruence.
  apply not_elem_of_nil.
Qed.

Lemma set_enabled_Close_Export m b b' :
  m !! "Close"%string = Some (action_of "Close" GLFW_KEY_E b) ->
  m !! "Export"%string = Some (action_of "Export" GLFW_KEY_X b) ->
  set_enabled (set_enabled m "Close" b') "Export" b' !! "Close"%string = Some (action_of "Close" GLFW_KEY_E b') /\
  set_enabled (set_enabled m "Close" b') "Export" b' !! "Export"%string = Some (action_of "Export" GLFW_KEY_X b').
Proof.
  intros Hc He. unfold set_enabled. rewrite !lookup_insert, Hc, He.
  repeat case_decide; try congruence. done.
Qed.

Lemma run_close_export s b evs :
  actions s !! "Close"%string = Some (action_of "Close" GLFW_KEY_E b) /\
  actions s !! "Export"%string = Some (action_of "Export" GLFW_KEY_X b) ->
  actions (run s evs) !! "Close"%string =
    Some (action_of "Close" GLFW_KEY_E (fold_left enabled_step evs b)) /\
  actions (run s evs) !! "Export"%string =
    Some (action_of "Export" GLFW_KEY_X (fold_left enabled_step evs b)).
Proof.
  unfold run. revert s b.
  induction evs as [|e evs IH]; intros s b [Hc He]; simpl; [done|]. apply IH.
  destruct e as [n|p|v|m]; simpl;
    [unfold clicked; repeat case_match | unfold fileChosen; repeat case_match
    | unfold confirmed; repeat case_match | eapply set_enabled_Close_Export]; eauto.
Qed.

(** Close and Export are enabled exactly as the last
    [setCurrentMedia] left them: after any run from [_init], both are
    enabled iff the last media set was a media (both enabled before the
    first), and keep their text and shortcut. *)
Lemma close_export_enabled fb ds evs :
  actions (run (init fb ds) evs) !! "Close"%string = Some (action_of "Close" GLFW_KEY_E (enabled_after evs)) /\
  actions (run (init fb ds) evs) !! "Export"%string = Some (action_of "Export" GLFW_KEY_X (enabled_after evs)).
Proof.
  apply run_close_export; split; reflexivity.
Qed.

Lemma handle_hasDialogSystem s e : hasDialogSystem (handle s e) = hasDialogSystem s.
Proof.
  destruct e as [n|p|v|m]; simpl.
  - unfold clicked. repeat case_match; done.
  - unfold fileChosen. repeat case_match; done.
  - unfold confirmed. by destruct (dialog s).
  - done.
Qed.

Lemma run_hasDialogSystem s evs : hasDialogSystem (run s evs) = hasDialogSystem s.
Proof.
  revert s. induction evs as [|e evs IH]; intros s; [done|]. simpl. by rewrite IH, handle_hasDialogSystem.
Qed.

(** Without a dialog system no confirmation is ever asked. *)
Lemma run_no_confirmation s evs :
  hasDialogSystem s = false -> dialog s <> ExitConfirmation -> dialog (run s evs) <> ExitConfirmation.
Proof.
  revert s. induction evs as [|e evs IH]; intros s Hds Hd; [done|]. simpl. apply IH.
  - by rewrite handle_hasDialogSystem.
  - intros He. destruct (handle_dialog s e He) as [Hs | ->]; [done|]. simpl in He.
    unfold clicked in He. rewrite Hds in He. simpl in He. congruence.
Qed.

(** C21. The application can always be left when there is a dialog
    system: whatever the user did since [_init], clicking Exit and
    answering yes exits.  Without a dialog system the Exit action asks
    nothing, and no sequence of events ever exits. *)
Theorem exit_always_possible fb :
  (forall evs, exited (run (run (init fb true) evs) [Click "Exit"; Confirm true]) = true) /\
  (forall evs, exited (run (init fb false) evs) = false).
Proof.
  split.
  - intros evs. pose proof (run_hasDialogSystem (init fb true) evs) as Hds.
    simpl. unfold clicked. simpl. rewrite Hds. simpl. apply orb_true_r.
  - intros evs. destruct (exited (run (init fb false) evs)) eqn:He; [|done].
    destruct (run_exited (init fb false) evs eq_refl He) as (pre & post & _ & Hd).
    exfalso. exact (run_no_confirmation (init fb false) pre eq_refl ltac:(discriminate) Hd).
Qed.

Lemma exit_needs_confirmation_witness :
  exists pre post, [Click "Exit"; Confirm true] = pre ++ Confirm true :: post /\ Click "Exit" ∈ pre.
Proof. apply (exit_needs_confirmation true true). reflexivity. Defined.

End FileSystemFacts.
