(* ===== verification/ViewObjects.v ===== *)
(** * The view library's menu objects ([src/lib/djvViewLib/FileSystem.cpp],
    [src/lib/djvViewLib/ImageObject.cpp])

    The main window asks each view object for its menu and its menu sort
    key, and follows the current media or project.  That interface is the
    type class [ViewObject]; [FileSystem] (the File menu) and [ImageObject]
    (the Image menu, still empty, which ignores the current project) are
    its instances.  The main window orders the menus by their keys, as
    strings. *)

From S2P Require Import Prelude FileSystem.

(** What a view object offers the main window: its menu (title and
    items), its sort key, and its reaction to the current media or
    project. *)
Class ViewObject (Obj Project : Type) := {
  menuTitle : string;
  menuItems : list FileSystem.MenuItem;
  menuSortKey : string;
  setCurrent : Obj -> option Project -> Obj
}.

#[export] Instance FileSystem_object : ViewObject FileSystem.State string := {|
  menuTitle := "File";
  menuItems := FileSystem.createMenu;
  menuSortKey := FileSystem.getMenuSortKey;
  setCurrent := FileSystem.setCurrentMedia
|}.

Module ImageObject.

(** [ImageObject::Private]: the actions, none so far. *)
Record State := { actions : list (string * FileSystem.Action) }.

(** [ImageObject::ImageObject(context, parent)]. *)
Definition create : State := {| actions := [] |}.

(** [ImageObject::getMenuSortKey()]. *)
Definition getMenuSortKey : string := "4".

(** [ImageObject::createMenu()]: a menu titled Image, with no items. *)
Definition createMenu : string * list FileSystem.MenuItem := ("Image", []).

(** [ImageObject::setCurrentProject(project)]: does nothing. *)
Definition setCurrentProject {Project} (s : State) (_ : option Project) : State := s.

End ImageObject.

#[export] Instance ImageObject_object {Project} : ViewObject ImageObject.State Project := {|
  menuTitle := ImageObject.createMenu.1;
  menuItems := ImageObject.createMenu.2;
  menuSortKey := ImageObject.getMenuSortKey;
  setCurrent := ImageObject.setCurrentProject
|}.

(** The main window's menu bar: the objects' menus in the order of their
    sort keys. *)
Fixpoint insert_menu (m : string * string) (ms : list (string * string)) : list (string * string) :=
  match ms with
  | [] => [m]
  | m' :: ms' =>
      match String.compare m.1 m'.1 with
      | Gt => m' :: insert_menu m ms'
      | _ => m :: ms
      end
  end.

Definition menu_bar (menus : list (string * string)) : list string :=
  map snd (fold_right insert_menu [] menus).

(** ** The menu objects *)

Module ViewObjectsFacts.

(** The File menu comes before the Image menu in the menu bar, whatever
    order the objects are created in. *)
Lemma file_menu_first :
  menu_bar [(menuSortKey (Obj := ImageObject.State) (Project := string), "Image");
            (menuSortKey (Obj := FileSystem.State) (Project := string), "File")] = ["File"; "Image"] /\
  menu_bar [(menuSortKey (Obj := FileSystem.State) (Project := string), "File");
            (menuSortKey (Obj := ImageObject.State) (Project := string), "Image")] = ["File"; "Image"].
Proof. split; reflexivity. Qed.

(** The Image object keeps its state through any project change. *)
Lemma image_object_ignores_project {Project} (s : ImageObject.State) (ps : list (option Project)) :
  fold_left (setCurrent (Obj := ImageObject.State)) ps s = s.
Proof. revert s. induction ps as [|p ps IH]; intros s; [done|]. apply IH. Qed.

End ViewObjectsFacts.
