(* ===== verification/FFmpeg.v ===== *)
(** * The FFmpeg plugin's helpers ([src/lib/djvAV/FFmpeg.cpp])

    The conversions between FFmpeg's sample formats and DJV's audio types,
    the names of the sample formats, the time base, and the log callback
    FFmpeg calls: [Plugin::_init] sets FFmpeg's log level to
    [AV_LOG_ERROR] and installs [avLogCallback], which drops the messages
    above that level and forwards the others, formatted into a buffer of
    [cStringLength] characters, to the context's log while the context
    lives.  FFmpeg itself (the formatting of a message, [av_strerror]) is
    not under [src/]; the formatted text is the callback's input. *)

From S2P Require Import Prelude Text.

Module FFmpeg.

(** [enum AVSampleFormat]. *)
Inductive AVSampleFormat :=
| AV_SAMPLE_FMT_NONE | AV_SAMPLE_FMT_U8 | AV_SAMPLE_FMT_S16 | AV_SAMPLE_FMT_S32
| AV_SAMPLE_FMT_FLT | AV_SAMPLE_FMT_DBL | AV_SAMPLE_FMT_U8P | AV_SAMPLE_FMT_S16P
| AV_SAMPLE_FMT_S32P | AV_SAMPLE_FMT_FLTP | AV_SAMPLE_FMT_DBLP | AV_SAMPLE_FMT_S64
| AV_SAMPLE_FMT_S64P.

#[export] Instance AVSampleFormat_eq_dec : EqDecision AVSampleFormat.
Proof. solve_decision. Defined.

Definition all_formats : list AVSampleFormat :=
  [AV_SAMPLE_FMT_NONE; AV_SAMPLE_FMT_U8; AV_SAMPLE_FMT_S16; AV_SAMPLE_FMT_S32;
   AV_SAMPLE_FMT_FLT; AV_SAMPLE_FMT_DBL; AV_SAMPLE_FMT_U8P; AV_SAMPLE_FMT_S16P;
   AV_SAMPLE_FMT_S32P; AV_SAMPLE_FMT_FLTP; AV_SAMPLE_FMT_DBLP; AV_SAMPLE_FMT_S64;
   AV_SAMPLE_FMT_S64P].

(** [Audio::Type]. *)
Inductive AudioType := Audio_None | Audio_U8 | Audio_S16 | Audio_S32 | Audio_F32.

#[export] Instance AudioType_eq_dec : EqDecision AudioType.
Proof. solve_decision. Defined.

(** [AVRational] and [getTimeBaseQ()]. *)
Record AVRational := { num : Z; den : Z }.
Definition AV_TIME_BASE : Z := 1000000.
Definition getTimeBaseQ : AVRational := {| num := 1; den := AV_TIME_BASE |}.

(** [toAudioType(AVSampleFormat)]. *)
Definition toAudioType (value : AVSampleFormat) : AudioType :=
  match value with
  | AV_SAMPLE_FMT_U8 => Audio_U8
  | AV_SAMPLE_FMT_S16 => Audio_S16
  | AV_SAMPLE_FMT_S32 => Audio_S32
  | AV_SAMPLE_FMT_FLT => Audio_F32
  | AV_SAMPLE_FMT_U8P => Audio_U8
  | AV_SAMPLE_FMT_S16P => Audio_S16
  | AV_SAMPLE_FMT_S32P => Audio_S32
  | AV_SAMPLE_FMT_FLTP => Audio_F32
  | _ => Audio_None
  end.

(** The table of [toString(AVSampleFormat)]. *)
Definition sample_format_names : list (AVSampleFormat * string) :=
  [(AV_SAMPLE_FMT_NONE, "None"); (AV_SAMPLE_FMT_U8, "U8"); (AV_SAMPLE_FMT_S16, "S16");
   (AV_SAMPLE_FMT_S32, "S32"); (AV_SAMPLE_FMT_FLT, "Float"); (AV_SAMPLE_FMT_DBL, "Double");
   (AV_SAMPLE_FMT_U8P, "U8 planar"); (AV_SAMPLE_FMT_S16P, "S16 planar");
   (AV_SAMPLE_FMT_S32P, "S32 planar"); (AV_SAMPLE_FMT_FLTP, "Float planar");
   (AV_SAMPLE_FMT_DBLP, "Double planar")].

Fixpoint assoc_find (k : AVSampleFormat) (l : list (AVSampleFormat * string)) : option string :=
  match l with
  | [] => None
  | (k', v) :: l' => if decide (k = k') then Some v else assoc_find k l'
  end.

(** [toString(AVSampleFormat)]: the table's name, or ["Unknown"]. *)
Definition toString (value : AVSampleFormat) : string :=
  match assoc_find value sample_format_names with
  | Some s => s
  | None => "Unknown"
  end.

(** FFmpeg's log levels. *)
Definition AV_LOG_PANIC : Z := 0.
Definition AV_LOG_FATAL : Z := 8.
Definition AV_LOG_ERROR : Z := 16.
Definition AV_LOG_WARNING : Z := 24.
Definition AV_LOG_INFO : Z := 32.
Definition AV_LOG_DEBUG : Z := 48.

(** The global state the plugin shares with FFmpeg: the log level, whether
    [logContext] still points to a live context, and the context's log. *)
Record LogState := {
  av_log_level : Z;
  contextAlive : bool;
  log : list (string * string)
}.

(** [vsnprintf(s, cStringLength, fmt, vl)]: the text, cut to fit the
    buffer with its terminating zero. *)
Definition format_into_buffer (text : string) : string :=
  String.substring 0 (cStringLength - 1) text.

(** [avLogCallback(ptr, level, fmt, vl)], on the formatted text. *)
Definition avLogCallback (st : LogState) (level : Z) (text : string) : LogState :=
  if level >? av_log_level st then st
  else if contextAlive st then
    {| av_log_level := av_log_level st; contextAlive := contextAlive st;
       log := log st ++ [("djv::AV::IO::FFmpeg::Plugin", format_into_buffer text)] |}
  else st.

(** [Plugin::_init]: [av_log_set_level(AV_LOG_ERROR)], with the new
    context as [logContext]. *)
Definition plugin_init (st : LogState) : LogState :=
  {| av_log_level := AV_LOG_ERROR; contextAlive := true; log := log st |}.

(** [getErrorString(r)]: [av_strerror]'s text cut to the buffer. *)
Definition getErrorString (av_strerror : Z -> string) (r : Z) : string :=
  format_into_buffer (av_strerror r).

(** [Plugin::read(fileName, queue)]: a reader while the context lives,
    [nullptr] after. *)
Definition read (contextAlive : bool) (fileName : string) : option string :=
  if contextAlive then Some fileName else None.

End FFmpeg.

(** ** Properties of the FFmpeg helpers *)

Module FFmpegFacts.
Import FFmpeg.

Lemma length_format_into_buffer text :
  (String.length (format_into_buffer text) <= cStringLength - 1)%nat.
Proof.
  unfold format_into_buffer. generalize (cStringLength - 1)%nat. clear.
  induction text as [|c t IH]; intros [|n]; simpl; try lia. specialize (IH n). lia.
Qed.

Lemma prefix_format_into_buffer text : String.prefix (format_into_buffer text) text = true.
Proof.
  unfold format_into_buffer. generalize (cStringLength - 1)%nat. clear.
  induction text as [|c t IH]; intros [|n]; simpl; try done.
  rewrite IH. by destruct (Ascii.ascii_dec c c).
Qed.

(** C31. [toAudioType] maps each packed format and its planar variant to
    the same audio type, and gives [Audio::Type::None] exactly to the
    formats it has no case for: none, the double formats and the 64-bit
    integer formats, which the plugin therefore cannot play. *)
Theorem toAudioType_cases f :
  (toAudioType f = Audio_None <->
     f ∈ [AV_SAMPLE_FMT_NONE; AV_SAMPLE_FMT_DBL; AV_SAMPLE_FMT_DBLP; AV_SAMPLE_FMT_S64;
          AV_SAMPLE_FMT_S64P]) /\
  toAudioType AV_SAMPLE_FMT_U8P = toAudioType AV_SAMPLE_FMT_U8 /\
  toAudioType AV_SAMPLE_FMT_S16P = toAudioType AV_SAMPLE_FMT_S16 /\
  toAudioType AV_SAMPLE_FMT_S32P = toAudioType AV_SAMPLE_FMT_S32 /\
  toAudioType AV_SAMPLE_FMT_FLTP = toAudioType AV_SAMPLE_FMT_FLT.
Proof.
  split; [|done]. rewrite !elem_of_cons, elem_of_nil.
  destruct f; cbn; split; intros H; try done; [..|intuition discriminate].
  all: first [intuition discriminate | naive_solver].
Qed.

(** [toString] gives every sample format of its table a name of its
    own (no two share one), and calls the 64-bit integer formats, which
    the table lacks, ["Unknown"]. *)
Lemma toString_names :
  (forall f g, f ∉ [AV_SAMPLE_FMT_S64; AV_SAMPLE_FMT_S64P] ->
               g ∉ [AV_SAMPLE_FMT_S64; AV_SAMPLE_FMT_S64P] -> toString f = toString g -> f = g) /\
  toString AV_SAMPLE_FMT_S64 = "Unknown"%string /\ toString AV_SAMPLE_FMT_S64P = "Unknown"%string.
Proof.
  split; [|done]. intros f g Hf Hg. destruct f, g; try done; cbv; try congruence;
    exfalso; (apply Hf || apply Hg); set_solver.
Qed.

(** C33. After [Plugin::_init], FFmpeg's messages above [AV_LOG_ERROR]
    (warnings, information, debugging) are dropped, and the others (panic,
    fatal, error) are added to the context's log, while it lives, as a
    prefix of their text of at most [cStringLength - 1] characters. *)
Theorem avLogCallback_filter st level text :
  (AV_LOG_ERROR < level -> avLogCallback (plugin_init st) level text = plugin_init st) /\
  (level <= AV_LOG_ERROR ->
   exists m, log (avLogCallback (plugin_init st) level text) =
               log st ++ [("djv::AV::IO::FFmpeg::Plugin"%string, m)] /\
             (String.length m <= cStringLength - 1)%nat /\ String.prefix m text = true).
Proof.
  unfold avLogCallback, plugin_init; simpl.
  destruct (level >? AV_LOG_ERROR) eqn:E; rewrite Z.gtb_ltb in E;
    [apply Z.ltb_lt in E | apply Z.ltb_ge in E];
    split; intros Hl; try lia; [done|]. simpl. eexists; split; [reflexivity|].
    split; [apply length_format_into_buffer | apply prefix_format_into_buffer].
Qed.

Lemma toAudioType_cases_witness :
  toAudioType AV_SAMPLE_FMT_DBLP = Audio_None.
Proof. apply (proj1 (toAudioType_cases AV_SAMPLE_FMT_DBLP)). set_solver. Defined.

Lemma avLogCallback_filter_witness :
  avLogCallback (plugin_init {| av_log_level := 0; contextAlive := false; log := [] |})
    AV_LOG_INFO "frame" = plugin_init {| av_log_level := 0; contextAlive := false; log := [] |}.
Proof. apply (proj1 (avLogCallback_filter _ AV_LOG_INFO "frame")). reflexivity. Defined.

End FFmpegFacts.
