(* ===== verification/DPX.v ===== *)
(** * The DPX writer ([src/lib/djvAV/DPXWrite.cpp])

    [DPX::Write::create] makes a writer that keeps its DPX options and the
    write options (of which [_write] reads the color space).  It asks the
    sequence writer for images of type [RGB_U10] in a layout of MSB words
    aligned on 4 bytes, then [_write] opens the file,
    writes the header through [DPX::write] with the version and endianness
    of its options and a color profile chosen from the write options' color
    space, writes the image data as it is, and finishes the file.  The file
    operations are recorded as a trace of [FileOp]s.

    The header writer ([DPX.cpp]) and the conversion of an image into the
    requested type and layout are not under [src/]; the 10-bit packing the
    spec describes (three 10-bit components in the high 30 bits of a 32-bit
    word, stored most significant byte first) is modelled from the spec,
    with its inverse. *)

From S2P Require Import Prelude.

Module DPX.

(** [DPX::Version], [DPX::Endian] and [DPX::Options]. *)
Inductive Version := Version_1_0 | Version_2_0.
Inductive Endian := Endian_Auto | Endian_MSB | Endian_LSB.
Record Options := { version : Version; endian : Endian }.

(** [Cineon::ColorProfile]. *)
Inductive ColorProfile := Raw | FilmPrint.

(** The image types the writer can be offered. *)
Inductive ImageType := L_U8 | RGB_U8 | RGBA_U8 | RGB_U10 | RGB_U16 | RGBA_U16 | RGB_F32.

(** [Memory::Endian] and [Image::Layout]. *)
Inductive MemEndian := MSB | LSB.
Record Layout := { mirror_x : bool; mirror_y : bool; alignment : nat; layout_endian : MemEndian }.

Definition default_layout (host : MemEndian) : Layout :=
  {| mirror_x := false; mirror_y := false; alignment := 1; layout_endian := host |}.

(** [Write::_getImageType]: 10-bit RGB whatever the image's type. *)
Definition _getImageType (_ : ImageType) : ImageType := RGB_U10.

(** [Write::_getImageLayout]. *)
Definition _getImageLayout (host : MemEndian) : Layout :=
  let out := default_layout host in
  {| mirror_x := mirror_x out; mirror_y := mirror_y out; alignment := 4; layout_endian := MSB |}.

(** An image as [_write] sees it: its info, its tags and its bytes. *)
Record ImageInfo := { width : nat; height : nat; pixelType : ImageType }.
Record Image := { info : ImageInfo; tags : list (string * string); data : list Z }.

(** [IO::Info] with one video track. *)
Record Info := { video : list ImageInfo; info_tags : list (string * string) }.

Inductive FileOp :=
| FOpen (fileName : string)
| FHeader (info : Info) (version : Version) (endian : Endian) (profile : ColorProfile)
| FData (bytes : list Z)
| FFinish.

(** [IO::WriteOptions], of which [_write] reads the color space. *)
Record WriteOptions := { colorSpace : string }.

(** [DPX::Write]: what [ISequenceWrite::_init] keeps of its arguments and
    [Write::Private]'s options. *)
Record Write := { fileInfo : string; writeInfo : Info; writeOptions : WriteOptions; options : Options }.

(** [Write::create(fileInfo, info, writeOptions, options, ...)]. *)
Definition create (fileInfo : string) (info : Info) (writeOptions : WriteOptions) (options : Options)
    : Write :=
  {| fileInfo := fileInfo; writeInfo := info; writeOptions := writeOptions; options := options |}.

(** [_options.colorSpace.empty() ? Raw : FilmPrint]. *)
Definition colorProfile (colorSpace : string) : ColorProfile :=
  if String.eqb colorSpace "" then Raw else FilmPrint.

(** [Write::_write(fileName, image)]. *)
Definition _write (w : Write) (fileName : string) (image : Image) : list FileOp :=
  let info := {| video := [info image]; info_tags := tags image |} in
  [FOpen fileName;
   FHeader info (version (options w)) (endian (options w)) (colorProfile (colorSpace (writeOptions w)));
   FData (data image); FFinish].

(** The 10-bit packing of an RGB pixel into a 32-bit word (red in bits
    31..22, green in 21..12, blue in 11..2: the fields are disjoint, so the
    sum is their bitwise or), and its bytes most significant first. *)
Definition pack10 (r g b : Z) : Z := r * 2 ^ 22 + g * 2 ^ 12 + b * 2 ^ 2.

Definition unpack10 (wd : Z) : Z * Z * Z :=
  ((wd / 2 ^ 22) mod 2 ^ 10, (wd / 2 ^ 12) mod 2 ^ 10, (wd / 2 ^ 2) mod 2 ^ 10).

Definition be_bytes (wd : Z) : list Z :=
  [(wd / 2 ^ 24) mod 256; (wd / 2 ^ 16) mod 256; (wd / 2 ^ 8) mod 256; wd mod 256].

Definition be_word (bs : list Z) : Z :=
  fold_left (fun acc b => acc * 256 + b) bs 0.

(** A scanline of RGB_U10 pixels in the writer's layout. *)
Definition pack_scanline (px : list (Z * Z * Z)) : list Z :=
  flat_map (fun '(r, g, b) => be_bytes (pack10 r g b)) px.

End DPX.

(** ** Properties of the DPX writer *)

Module DPXFacts.
Import DPX.

Lemma field_div a c k : 0 <= k -> 0 <= c < 2 ^ k -> (a * 2 ^ k + c) / 2 ^ k = a.
Proof.
  intros Hk Hc. rewrite Z.div_add_l by lia. rewrite Z.div_small by lia. lia.
Qed.

Lemma pack10_range r g b :
  0 <= r < 2 ^ 10 -> 0 <= g < 2 ^ 10 -> 0 <= b < 2 ^ 10 -> 0 <= pack10 r g b < 2 ^ 32.
Proof. unfold pack10. lia. Qed.

Lemma unpack10_pack10 r g b :
  0 <= r < 2 ^ 10 -> 0 <= g < 2 ^ 10 -> 0 <= b < 2 ^ 10 -> unpack10 (pack10 r g b) = (r, g, b).
Proof.
  intros Hr Hg Hb. unfold unpack10, pack10.
  replace (r * 2 ^ 22 + g * 2 ^ 12 + b * 2 ^ 2) with (r * 2 ^ 22 + (g * 2 ^ 12 + b * 2 ^ 2)) by lia.
  rewrite field_div by lia.
  replace (r * 2 ^ 22 + (g * 2 ^ 12 + b * 2 ^ 2)) with ((r * 2 ^ 10 + g) * 2 ^ 12 + b * 2 ^ 2)
    by lia.
  rewrite field_div by lia.
  replace ((r * 2 ^ 10 + g) * 2 ^ 12 + b * 2 ^ 2) with (((r * 2 ^ 10 + g) * 2 ^ 10 + b) * 2 ^ 2 + 0)
    by lia.
  rewrite field_div by lia.
  rewrite Z.mod_small with (a := r) by lia.
  rewrite (Z.add_comm (r * 2 ^ 10) g), Z.mod_add, Z.mod_small by lia.
  rewrite (Z.add_comm _ b), Z.mod_add, Z.mod_small by lia. reflexivity.
Qed.

Lemma be_word_be_bytes wd : 0 <= wd < 2 ^ 32 -> be_word (be_bytes wd) = wd.
Proof.
  intros Hw. unfold be_word, be_bytes; simpl.
  assert (E16 : wd / 2 ^ 16 = wd / 2 ^ 8 / 2 ^ 8) by (rewrite Z.div_div; [f_equal | lia | lia]).
  assert (E24 : wd / 2 ^ 24 = wd / 2 ^ 16 / 2 ^ 8) by (rewrite Z.div_div; [f_equal | lia | lia]).
  pose proof (Z.div_mod wd (2 ^ 8) ltac:(lia)) as D1.
  pose proof (Z.div_mod (wd / 2 ^ 8) (2 ^ 8) ltac:(lia)) as D2.
  pose proof (Z.div_mod (wd / 2 ^ 16) (2 ^ 8) ltac:(lia)) as D3.
  rewrite <- E16 in D2. rewrite <- E24 in D3.
  assert (H24 : 0 <= wd / 2 ^ 24 < 256).
  { split; [apply Z.div_pos; lia | apply Z.div_lt_upper_bound; lia]. }
  rewrite (Z.mod_small (wd / 2 ^ 24)) by lia.
  change (2 ^ 8) with 256 in *. lia.
Qed.

Lemma be_bytes_bytes wd : Forall is_byte (be_bytes wd).
Proof.
  unfold be_bytes, is_byte. repeat constructor; apply Z.mod_pos_bound; lia.
Qed.

Lemma length_pack_scanline px : length (pack_scanline px) = (4 * length px)%nat.
Proof.
  induction px as [|[[r g] b] px IH]; simpl; [done|]. rewrite IH. lia.
Qed.

(** C34. The writer's 10-bit RGB layout is lossless: a pixel of 10-bit
    components packed into its 32-bit word and stored most significant
    byte first gives four bytes that read back as the same components, and
    a scanline of [n] pixels is [4 n] bytes, a multiple of the 4-byte
    alignment [_getImageLayout] requests, in its MSB order. *)
Theorem pack10_roundtrip r g b px host :
  0 <= r < 2 ^ 10 -> 0 <= g < 2 ^ 10 -> 0 <= b < 2 ^ 10 ->
  Forall is_byte (be_bytes (pack10 r g b)) /\
  unpack10 (be_word (be_bytes (pack10 r g b))) = (r, g, b) /\
  length (pack_scanline px) = (alignment (_getImageLayout host) * length px)%nat /\
  layout_endian (_getImageLayout host) = MSB.
Proof.
  intros Hr Hg Hb. split; [apply be_bytes_bytes|]. split; [|split; [apply length_pack_scanline | done]].
  rewrite be_word_be_bytes by (apply pack10_range; lia). by apply unpack10_pack10.
Qed.

(** C35. The file [_write] produces, and the color space reaching it only
    as whether there is one: the file is opened, the header is written with
    the image's information and tags, the DPX options' version and
    endianness and the profile [Raw] when the write options have no color
    space and [FilmPrint] when they have any, then the image data as it is,
    then the file is finished; so two writers write the same file exactly
    when both or neither have a color space, whatever the color spaces
    are. *)
Theorem write_colorspace_collapsed fi inf options cs fileName image :
  _write (create fi inf {| colorSpace := cs |} options) fileName image =
    [FOpen fileName;
     FHeader {| video := [info image]; info_tags := tags image |} (version options)
       (endian options) (if String.eqb cs "" then Raw else FilmPrint);
     FData (data image); FFinish] /\
  forall cs',
    _write (create fi inf {| colorSpace := cs |} options) fileName image =
      _write (create fi inf {| colorSpace := cs' |} options) fileName image <->
    (cs = ""%string <-> cs' = ""%string).
Proof.
  split; [reflexivity|]. intros cs'. unfold _write, create, colorProfile; simpl.
  destruct (String.eqb_spec cs ""), (String.eqb_spec cs' ""); split; intros H;
    try done; try (injection H; done); exfalso; intuition congruence.
Qed.

Lemma pack10_roundtrip_witness :
  unpack10 (be_word (be_bytes (pack10 1023 512 0))) = (1023, 512, 0).
Proof. refine (proj1 (proj2 (pack10_roundtrip 1023 512 0 [] LSB _ _ _))); lia. Defined.



End DPXFacts.
