(* ===== verification/Lights.v ===== *)
(** * Scene lights ([src/lib/djvScene/LightInline.h])

    [ILight] holds what every light has (enabled, intensity); the four
    light classes add their own members.  The class hierarchy is the type
    class [Light]: each class gives access to its [ILight] part and its
    class name ([getClassName] is virtual).  The members are only stored
    and returned, so their types (float, [glm::vec3], [AV::Image::Color])
    are parameters. *)

From S2P Require Import Prelude.

Module Lights.

Section Lights.
Context {Float Vec3 Color : Type}.

Record ILight := { _enabled : bool; _intensity : Float }.

Definition isEnabled (l : ILight) : bool := _enabled l.
Definition getIntensity (l : ILight) : Float := _intensity l.
Definition setEnabled (l : ILight) (value : bool) : ILight :=
  {| _enabled := value; _intensity := _intensity l |}.
Definition setIntensity (l : ILight) (value : Float) : ILight :=
  {| _enabled := _enabled l; _intensity := value |}.

Record HemisphereLight := { h_base : ILight; _up : Vec3; _topColor : Color; _bottomColor : Color }.

Definition getUp (l : HemisphereLight) : Vec3 := _up l.
Definition getTopColor (l : HemisphereLight) : Color := _topColor l.
Definition getBottomColor (l : HemisphereLight) : Color := _bottomColor l.
Definition setUp (l : HemisphereLight) (value : Vec3) : HemisphereLight :=
  {| h_base := h_base l; _up := value; _topColor := _topColor l; _bottomColor := _bottomColor l |}.
Definition setTopColor (l : HemisphereLight) (value : Color) : HemisphereLight :=
  {| h_base := h_base l; _up := _up l; _topColor := value; _bottomColor := _bottomColor l |}.
Definition setBottomColor (l : HemisphereLight) (value : Color) : HemisphereLight :=
  {| h_base := h_base l; _up := _up l; _topColor := _topColor l; _bottomColor := value |}.

Record DirectionalLight := { d_base : ILight; d_direction : Vec3 }.

Definition getDirection (l : DirectionalLight) : Vec3 := d_direction l.
Definition setDirection (l : DirectionalLight) (value : Vec3) : DirectionalLight :=
  {| d_base := d_base l; d_direction := value |}.

Record PointLight := { p_base : ILight }.

Record SpotLight := { s_base : ILight; _coneAngle : Float; s_direction : Vec3 }.

Definition getConeAngle (l : SpotLight) : Float := _coneAngle l.
Definition spot_getDirection (l : SpotLight) : Vec3 := s_direction l.
Definition setConeAngle (l : SpotLight) (value : Float) : SpotLight :=
  {| s_base := s_base l; _coneAngle := value; s_direction := s_direction l |}.
Definition spot_setDirection (l : SpotLight) (value : Vec3) : SpotLight :=
  {| s_base := s_base l; _coneAngle := _coneAngle l; s_direction := value |}.

End Lights.

(** The class hierarchy: a light's [ILight] part and its class name. *)
Class Light (Float L : Type) := {
  base : L -> @ILight Float;
  set_base : L -> @ILight Float -> L;
  getClassName : L -> string
}.

Section Instances.
Context {Float Vec3 Color : Type}.

#[export] Instance HemisphereLight_light : Light Float (@HemisphereLight Float Vec3 Color) :=
  {| base := h_base;
     set_base l b := {| h_base := b; _up := _up l; _topColor := _topColor l;
                        _bottomColor := _bottomColor l |};
     getClassName _ := "HemisphereLight" |}.

#[export] Instance DirectionalLight_light : Light Float (@DirectionalLight Float Vec3) :=
  {| base := d_base; set_base l b := {| d_base := b; d_direction := d_direction l |};
     getClassName _ := "DirectionalLight" |}.

#[export] Instance PointLight_light : Light Float (@PointLight Float) :=
  {| base := p_base; set_base _ b := {| p_base := b |}; getClassName _ := "PointLight" |}.

#[export] Instance SpotLight_light : Light Float (@SpotLight Float Vec3) :=
  {| base := s_base;
     set_base l b := {| s_base := b; _coneAngle := _coneAngle l; s_direction := s_direction l |};
     getClassName _ := "SpotLight" |}.

(** [ILight::setEnabled] and [ILight::setIntensity] through any light. *)
Definition light_setEnabled {L} `{Light Float L} (l : L) (value : bool) : L :=
  set_base l (setEnabled (base l) value).
Definition light_setIntensity {L} `{Light Float L} (l : L) (value : Float) : L :=
  set_base l (setIntensity (base l) value).

End Instances.

End Lights.

(** ** Laws of the light classes *)

Module LightsFacts.
Import Lights.

(** What the hierarchy promises: a light's [ILight] part is a field of it. *)
Class LightLaws (Float L : Type) `{!Light Float L} := {
  base_set_base : forall l b, base (set_base l b) = b;
  set_base_base : forall l, set_base l (base l) = l;
  set_base_set_base : forall l b b', set_base (set_base l b) b' = set_base l b'
}.

Section Laws.
Context {Float Vec3 Color : Type}.

#[export] Instance HemisphereLight_laws : LightLaws Float (@HemisphereLight Float Vec3 Color).
Proof. split; [done | by intros [] | done]. Qed.
#[export] Instance DirectionalLight_laws : LightLaws Float (@DirectionalLight Float Vec3).
Proof. split; [done | by intros [] | done]. Qed.
#[export] Instance PointLight_laws : LightLaws Float (@PointLight Float).
Proof. split; [done | by intros [] | done]. Qed.
#[export] Instance SpotLight_laws : LightLaws Float (@SpotLight Float Vec3).
Proof. split; [done | by intros [] | done]. Qed.

Lemma light_setEnabled_spec {L} `{LightLaws Float L} (l : L) v :
  isEnabled (base (light_setEnabled l v)) = v /\
  getIntensity (base (light_setEnabled l v)) = getIntensity (base l) /\
  light_setEnabled (light_setEnabled l v) (isEnabled (base l)) = l.
Proof.
  unfold light_setEnabled. rewrite !base_set_base, set_base_set_base. repeat split.
  replace (setEnabled (setEnabled (base l) v) (isEnabled (base l))) with (base l)
    by (by destruct (base l)).
  apply set_base_base.
Qed.

Lemma light_setIntensity_spec {L} `{LightLaws Float L} (l : L) v :
  getIntensity (base (light_setIntensity l v)) = v /\
  isEnabled (base (light_setIntensity l v)) = isEnabled (base l) /\
  light_setIntensity (light_setIntensity l v) (getIntensity (base l)) = l.
Proof.
  unfold light_setIntensity. rewrite !base_set_base, set_base_set_base. repeat split.
  replace (setIntensity (setIntensity (base l) v) (getIntensity (base l))) with (base l)
    by (by destruct (base l)).
  apply set_base_base.
Qed.

End Laws.

End LightsFacts.
