(* ===== verification/DisplayProfile.v ===== *)
(** * Display profiles of the viewer
    ([src/lib/djvViewLib/djvViewDisplayProfile.cpp])

    A [djvViewDisplayProfile] is a named [djvOpenGlImageDisplayProfile]
    (a LUT and the color, levels and soft clip adjustments) with the file
    its LUT came from.  It is compared with [==] and [!=] and serialized to
    and from a [QStringList] (a list of strings read from the front): [<<]
    appends the name, the LUT file name, the color, the levels and the soft
    clip, and [>>] reads them back in that order into the profile, member
    by member, throwing when the list runs out.  The LUT itself is not
    written.

    The [QStringList] operators of the members are not under [src/]: they
    are the interface [QStringListIO] with its law (reading back what was
    written), and strings are an instance of it, as [djvStringUtil] reads
    them (the first string, or a [QString] thrown on an empty list).  The
    LUT file is a file information object, whose class is not under
    [src/] either: [>>] reads a [QString] and assigns it, converting it
    ([fileInfo_of_string]), and [<<] writes its text ([fileInfo_to_string]);
    both conversions are parameters, and nothing assumes that one undoes
    the other. *)

From S2P Require Import Prelude.

Class QStringListIO (A : Type) := {
  qs_write : A -> list string;
  qs_read : list string -> A -> list string * A * option exn
}.

Class QStringListIOLaws (A : Type) `{!QStringListIO A} := {
  qs_read_write : forall a out rest, qs_read (qs_write a ++ rest) out = (rest, a, None)
}.

(** [QStringList >> QString] and [QStringList << QString]. *)
Definition qstring_read (inp : list string) (out : string) : list string * string * option exn :=
  match inp with
  | [] => ([], out, Some ReadError)
  | s :: rest => (rest, s, None)
  end.

#[export] Instance string_qs : QStringListIO string :=
  {| qs_write s := [s]; qs_read := qstring_read |}.

#[export] Instance string_qs_laws : QStringListIOLaws string.
Proof. split. done. Qed.

Module DisplayProfile.

Section Profile.
Context {Lut Color Levels SoftClip : Type}.
Context `{!EqDecision Lut, !EqDecision Color, !EqDecision Levels, !EqDecision SoftClip}.
Context `{!QStringListIO Color, !QStringListIO Levels, !QStringListIO SoftClip}.
Context {FileInfo : Type} `{!EqDecision FileInfo}.
Variables (fileInfo_of_string : string -> FileInfo) (fileInfo_to_string : FileInfo -> string).

(** [djvOpenGlImageDisplayProfile]. *)
Record ImageDisplayProfile := { lut : Lut; color : Color; levels : Levels; softClip : SoftClip }.

#[export] Instance ImageDisplayProfile_eq_dec : EqDecision ImageDisplayProfile.
Proof. solve_decision. Defined.

(** [djvViewDisplayProfile]. *)
Record djvViewDisplayProfile := { name : string; lutFile : FileInfo; base : ImageDisplayProfile }.

(** [operator == (const djvViewDisplayProfile &, const djvViewDisplayProfile &)]. *)
Definition profile_eqb (a b : djvViewDisplayProfile) : bool :=
  String.eqb (name a) (name b) && bool_decide (lutFile a = lutFile b) &&
  bool_decide (base a = base b).

(** [operator !=]. *)
Definition profile_neqb (a b : djvViewDisplayProfile) : bool := negb (profile_eqb a b).

(** [operator << (QStringList &, const djvViewDisplayProfile &)]. *)
Definition write_profile (out : list string) (p : djvViewDisplayProfile) : list string :=
  out ++ [name p] ++ [fileInfo_to_string (lutFile p)] ++ qs_write (color (base p)) ++ qs_write (levels (base p)) ++
  qs_write (softClip (base p)).

Definition set_name (p : djvViewDisplayProfile) (s : string) : djvViewDisplayProfile :=
  {| name := s; lutFile := lutFile p; base := base p |}.
Definition set_lutFile (p : djvViewDisplayProfile) (s : FileInfo) : djvViewDisplayProfile :=
  {| name := name p; lutFile := s; base := base p |}.
Definition set_color (p : djvViewDisplayProfile) (c : Color) : djvViewDisplayProfile :=
  {| name := name p; lutFile := lutFile p;
     base := {| lut := lut (base p); color := c; levels := levels (base p);
                softClip := softClip (base p) |} |}.
Definition set_levels (p : djvViewDisplayProfile) (l : Levels) : djvViewDisplayProfile :=
  {| name := name p; lutFile := lutFile p;
     base := {| lut := lut (base p); color := color (base p); levels := l;
                softClip := softClip (base p) |} |}.
Definition set_softClip (p : djvViewDisplayProfile) (c : SoftClip) : djvViewDisplayProfile :=
  {| name := name p; lutFile := lutFile p;
     base := {| lut := lut (base p); color := color (base p); levels := levels (base p);
                softClip := c |} |}.

(** One [in >> out.member]: the member gets what was read, and a throw
    ends the operator. *)
Definition read_member {A} (step : list string -> A -> list string * A * option exn)
    (get : djvViewDisplayProfile -> A) (set : djvViewDisplayProfile -> A -> djvViewDisplayProfile)
    (k : list string -> djvViewDisplayProfile -> list string * djvViewDisplayProfile * option exn)
    (inp : list string) (out : djvViewDisplayProfile)
    : list string * djvViewDisplayProfile * option exn :=
  match step inp (get out) with
  | (inp', a, None) => k inp' (set out a)
  | (inp', a, Some e) => (inp', set out a, Some e)
  end.

(** [operator >> (QStringList &, djvViewDisplayProfile &)]: the LUT file
    name goes through a temporary [QString], converted into the member by
    the assignment, so a throw leaves it as it was. *)
Definition read_profile (inp : list string) (out : djvViewDisplayProfile)
    : list string * djvViewDisplayProfile * option exn :=
  read_member qstring_read name set_name
    (fun inp out =>
       match qstring_read inp "" with
       | (inp', _, Some e) => (inp', out, Some e)
       | (inp', tmp, None) =>
           read_member qs_read (fun p => color (base p)) set_color
             (read_member qs_read (fun p => levels (base p)) set_levels
                (read_member qs_read (fun p => softClip (base p)) set_softClip
                   (fun inp out => (inp, out, None))))
             inp' (set_lutFile out (fileInfo_of_string tmp))
       end)
    inp out.

End Profile.

End DisplayProfile.

(** ** Serialization of display profiles *)

Module DisplayProfileFacts.
Import DisplayProfile.

Section Facts.
Context {Lut Color Levels SoftClip : Type}.
Context `{!EqDecision Lut, !EqDecision Color, !EqDecision Levels, !EqDecision SoftClip}.
Context `{!QStringListIO Color, !QStringListIO Levels, !QStringListIO SoftClip}.
Context `{!QStringListIOLaws Color, !QStringListIOLaws Levels, !QStringListIOLaws SoftClip}.
Context {FileInfo : Type} `{!EqDecision FileInfo}.
Variables (fileInfo_of_string : string -> FileInfo) (fileInfo_to_string : FileInfo -> string).

Lemma profile_eqb_true (a b : @djvViewDisplayProfile Lut Color Levels SoftClip FileInfo) :
  profile_eqb a b = true <-> a = b.
Proof.
  unfold profile_eqb. rewrite !andb_true_iff, !String.eqb_eq, !bool_decide_eq_true.
  split; [destruct a, b; simpl; intros [[-> ->] ->]; done | intros ->; auto].
Qed.

(** C36. Reading back what [<<] wrote restores the profile's name,
    color, levels and soft clip and consumes exactly the strings written,
    leaving the rest of the list; the LUT file comes back as the file
    information its written text converts to, and the LUT, which is not
    written, is the one of the profile read into.  So the profile read
    compares equal to the original exactly when those LUTs are the same
    and the LUT file survives its conversion to text and back. *)
Theorem profile_roundtrip (p out : @djvViewDisplayProfile Lut Color Levels SoftClip FileInfo) rest :
  let q := {| name := name p; lutFile := fileInfo_of_string (fileInfo_to_string (lutFile p));
              base := {| lut := lut (base out); color := color (base p);
                         levels := levels (base p); softClip := softClip (base p) |} |} in
  read_profile fileInfo_of_string (write_profile fileInfo_to_string [] p ++ rest) out =
    (rest, q, None) /\
  (profile_eqb p q = true <->
     lut (base p) = lut (base out) /\
     fileInfo_of_string (fileInfo_to_string (lutFile p)) = lutFile p).
Proof.
  intros q. split.
  - unfold read_profile, write_profile, read_member; simpl.
    rewrite <- !app_assoc, !qs_read_write. reflexivity.
  - rewrite profile_eqb_true. destruct p as [n lf [l c lv sc]]; unfold q; simpl.
    split; [intros H; inversion H; split; congruence | intros [-> ->]; reflexivity].
Qed.

(** A list that ends after the name is a read error that still
    changes the profile: [>>] has stored the name when reading the LUT file
    name throws, and the other members keep their values. *)
Lemma profile_read_truncated (out : @djvViewDisplayProfile Lut Color Levels SoftClip FileInfo) n :
  read_profile fileInfo_of_string [n] out = ([], set_name out n, Some ReadError).
Proof. reflexivity. Qed.

End Facts.

Lemma profile_roundtrip_witness :
  let p := {| name := "film"; lutFile := "film.lut";
              base := {| lut := tt; color := "1 1 1"; levels := "0 1"; softClip := "0" |} |} in
  (read_profile id (write_profile id [] p ++ []) p).2 = None.
Proof.
  intros p. rewrite (proj1 (profile_roundtrip (Lut := unit) (Color := string) (Levels := string)
                               (SoftClip := string) (FileInfo := string) id id p p [])).
  reflexivity.
Defined.

End DisplayProfileFacts.
