(* ===== verification/Registry.v ===== *)
(** * The plugin registry (spec, section 4.3)

    A plugin enters the registry with what its [Plugin::create] passes to
    [IPlugin::_init]: its name and its set of file extensions
    ([src/lib/djvAV/PPM.cpp], and [FFmpeg.cpp]'s [Plugin::_init]; the
    Targa plugin's are declared in [src/lib/djvAV/Targa.h]).  The registry
    itself is not under [src/]; it is modelled from the spec's contract: a
    registry is the list of its entries in registration order; [register]
    refuses an entry that claims an extension another entry already claims
    ([DuplicateExtension]); [resolve] finds the entry of a path's extension,
    compared without case ([NoPluginForExtension]); [resolveByName] finds
    an entry by name. *)

From S2P Require Import Prelude.

Module Registry.

Record Entry := { entry_name : string; extensions : list string }.

Inductive RegistryError :=
| DuplicateExtension (ext : string)
| NoPluginForExtension (ext : string)
| NoPluginNamed (name : string).

Definition Registry := list Entry.

(** [Plugin::create]: [out->_init(pluginName, text, fileExtensions,
    context)], of which the registry keeps the name and the extensions. *)
Definition plugin_entry (pluginName : string) (fileExtensions : list string) : Entry :=
  {| entry_name := pluginName; extensions := fileExtensions |}.

(** [ASCII tolower]. *)
Definition tolower (c : ascii) : ascii :=
  let n := nat_of_ascii c in
  if (65 <=? n)%nat && (n <=? 90)%nat then ascii_of_nat (n + 32) else c.

Definition lower (s : string) : string :=
  string_of_list_ascii (map tolower (list_ascii_of_string s)).

Definition same_ext (a b : string) : bool := String.eqb (lower a) (lower b).

(** The extension of a path: from its last ['.'] after its last ['/'],
    the dot included; none when there is no dot. *)
Fixpoint ext_rev (r : list ascii) : option (list ascii) :=
  match r with
  | [] => None
  | c :: r' =>
      if (c =? "/")%char then None
      else if (c =? ".")%char then Some [c]
      else match ext_rev r' with Some e => Some (e ++ [c]) | None => None end
  end.

Definition extension (path : string) : string :=
  match ext_rev (rev (list_ascii_of_string path)) with
  | Some e => string_of_list_ascii e
  | None => ""
  end.

Definition claims (e : Entry) (ext : string) : bool := existsb (same_ext ext) (extensions e).

(** The first extension of [e] some entry of [r] already claims. *)
Definition clash (r : Registry) (e : Entry) : option string :=
  find (fun x => existsb (fun e' => claims e' x) r) (extensions e).

Definition register (r : Registry) (e : Entry) : result RegistryError Registry :=
  match clash r e with
  | Some x => Err (DuplicateExtension x)
  | None => Ok (r ++ [e])
  end.

Definition resolve (r : Registry) (path : string) : result RegistryError Entry :=
  let x := extension path in
  match find (fun e => claims e x) r with
  | Some e => Ok e
  | None => Err (NoPluginForExtension x)
  end.

Definition resolveByName (r : Registry) (name : string) : result RegistryError Entry :=
  match find (fun e => String.eqb (entry_name e) name) r with
  | Some e => Ok e
  | None => Err (NoPluginNamed name)
  end.

Definition listPlugins (r : Registry) : list Entry := r.

Fixpoint register_all (r : Registry) (es : list Entry) : result RegistryError Registry :=
  match es with
  | [] => Ok r
  | e :: es' => match register r e with Ok r' => register_all r' es' | Err x => Err x end
  end.

(** [Targa::pluginName] and [Targa::fileExtensions]. *)
Definition targa_entry : Entry := plugin_entry "Targa" [".tga"].

End Registry.

(** ** Properties of the registry and of sequence resolution *)

Module RegistryFacts.
Import Registry.

(** No two entries of the registry claim a common extension. *)
Definition reg_wf (r : Registry) : Prop :=
  forall e e' y, e ∈ r -> e' ∈ r -> claims e y = true -> claims e' y = true -> e = e'.

Lemma find_None_iff {A} (f : A -> bool) l : find f l = None <-> forall x, x ∈ l -> f x = false.
Proof.
  induction l as [|a l IH]; simpl; [split; [set_solver | done]|].
  setoid_rewrite elem_of_cons. destruct (f a) eqn:Ha; split; try done.
  - intros H. by rewrite (H a (or_introl eq_refl)) in Ha.
  - rewrite IH. intros H x [->|Hx]; auto.
  - intros H. apply IH. auto.
Qed.

Lemma same_ext_trans a b c : same_ext a b = true -> same_ext b c = true -> same_ext a c = true.
Proof. unfold same_ext. rewrite !String.eqb_eq. congruence. Qed.

Lemma same_ext_sym a b : same_ext a b = true -> same_ext b a = true.
Proof. unfold same_ext. rewrite !String.eqb_eq. congruence. Qed.

Lemma same_ext_refl a : same_ext a a = true.
Proof. apply String.eqb_refl. Qed.

Lemma claims_iff e y : claims e y = true <-> exists x, x ∈ extensions e /\ same_ext y x = true.
Proof.
  unfold claims. rewrite existsb_exists. setoid_rewrite list_elem_of_In. done.
Qed.

Lemma claims_same e x y : same_ext x y = true -> claims e y = true -> claims e x = true.
Proof.
  rewrite !claims_iff. intros Hxy (z & Hz & Hyz). exists z. eauto using same_ext_trans.
Qed.

Lemma clash_None r e :
  clash r e = None <-> forall x e', x ∈ extensions e -> e' ∈ r -> claims e' x = false.
Proof.
  unfold clash. rewrite find_None_iff. split.
  - intros H x e' Hx He'. specialize (H x Hx). apply not_true_is_false. intros Hc.
    enough (existsb (fun e' => claims e' x) r = true) by congruence. apply existsb_exists. exists e'. split; [by apply list_elem_of_In | done].
  - intros H x Hx. apply not_true_is_false. intros Hex.
    apply existsb_exists in Hex as (e' & He' & Hc).
    rewrite (H x e' Hx) in Hc; [done | by apply list_elem_of_In].
Qed.

Lemma clash_Some r e x :
  clash r e = Some x -> x ∈ extensions e /\ exists e', e' ∈ r /\ claims e' x = true.
Proof.
  unfold clash. intros H. apply find_some in H as [Hx Hex].
  apply existsb_exists in Hex as (e' & He' & Hc).
  split; [by apply list_elem_of_In | exists e'; split; [by apply list_elem_of_In | done]].
Qed.

Lemma register_wf r e r' : reg_wf r -> register r e = Ok r' -> reg_wf r'.
Proof.
  unfold register. destruct (clash r e) eqn:Hc; intros Hwf [= <-].
  rewrite clash_None in Hc.
  assert (Hnew : forall e', e' ∈ r -> forall y, claims e y = true -> claims e' y = false).
  { intros e' He' y Hy. apply claims_iff in Hy as (x & Hx & Hyx).
    apply not_true_is_false. intros Hc'. apply claims_same with (x := x) in Hc';
      [|by apply same_ext_sym]. by rewrite (Hc x e' Hx He') in Hc'. }
  intros a b y. rewrite !elem_of_app, !list_elem_of_singleton.
  intros [Ha | ->] [Hb | ->] Hay Hby; [by eapply Hwf | | | done].
  - by rewrite (Hnew a Ha y Hby) in Hay.
  - by rewrite (Hnew b Hb y Hay) in Hby.
Qed.

Lemma register_all_spec r es r' :
  reg_wf r -> register_all r es = Ok r' -> reg_wf r' /\ r' = r ++ es.
Proof.
  revert r. induction es as [|e es IH]; intros r Hwf; simpl.
  - intros [= <-]. split; [done | by rewrite app_nil_r].
  - destruct (register r e) as [r1|] eqn:He; [|done]. intros Hall.
    pose proof He as He'. unfold register in He'. destruct (clash r e); [done|].
    injection He' as <-. destruct (IH _ (register_wf _ _ _ Hwf He) Hall) as [? ->].
    split; [done | by rewrite <- app_assoc].
Qed.

Lemma resolve_wf r e x path :
  reg_wf r -> e ∈ r -> x ∈ extensions e -> same_ext (extension path) x = true ->
  resolve r path = Ok e.
Proof.
  intros Hwf He Hx Hp. unfold resolve.
  assert (Hce : claims e (extension path) = true) by (apply claims_iff; eauto).
  destruct (find _ r) as [e'|] eqn:Hf.
  - apply find_some in Hf as [He' Hc']. f_equal. apply list_elem_of_In in He'.
    symmetry. eapply Hwf; eauto.
  - apply find_None_iff with (x := e) in Hf; [congruence | done].
Qed.

(** [resolveByName] finds the first entry of the name, and fails with
    [NoPluginNamed] exactly when there is none. *)
Lemma resolveByName_spec r n :
  (forall e, resolveByName r n = Ok e -> e ∈ r /\ entry_name e = n) /\
  (resolveByName r n = Err (NoPluginNamed n) <-> forall e, e ∈ r -> entry_name e <> n).
Proof.
  unfold resolveByName. split.
  - intros e. destruct (find _ r) as [e'|] eqn:Hf; [|done]. intros [= <-].
    apply find_some in Hf as [Hin Hn%String.eqb_eq]. split; [by apply list_elem_of_In | done].
  - assert (Hiff : (forall e, e ∈ r -> entry_name e <> n) <->
                    forall e, e ∈ r -> String.eqb (entry_name e) n = false)
      by (setoid_rewrite String.eqb_neq; done).
    rewrite Hiff, <- find_None_iff. destruct (find _ r); split; congruence.
Qed.

(** C38. Registering the entries a list of plugins created (each its
    [pluginName] and [fileExtensions]) leaves them listed in registration
    order when it succeeds, and every path whose extension matches, without
    regard to case, an extension of one of them resolves to that plugin:
    no other registered plugin can claim it. *)
Theorem registry_resolve (plugins : list (string * list string)) r :
  register_all [] (map (uncurry plugin_entry) plugins) = Ok r ->
  listPlugins r = map (uncurry plugin_entry) plugins /\
  forall n exts x path, (n, exts) ∈ plugins -> x ∈ exts -> same_ext (extension path) x = true ->
    resolve r path = Ok (plugin_entry n exts).
Proof.
  intros Hall.
  destruct (register_all_spec [] (map (uncurry plugin_entry) plugins) r) as [Hwf ->];
    [by intros ? ? ? ?%elem_of_nil | done |].
  split; [done|]. intros n exts x path Hin Hx Hp. eapply resolve_wf; [done | | exact Hx | done].
  by apply (list_elem_of_fmap_2 (uncurry plugin_entry) plugins (n, exts)).
Qed.

(** C39. Registering a plugin created with an extension equal, without
    regard to case, to one a registered plugin has fails with
    [DuplicateExtension], naming an extension of the new plugin that a
    registered one claims; and [resolve] fails with [NoPluginForExtension]
    exactly when no registered plugin claims the path's extension. *)
Theorem registry_errors :
  (forall r n exts e' x x', e' ∈ r -> x ∈ exts -> x' ∈ extensions e' -> same_ext x x' = true ->
     exists y, register r (plugin_entry n exts) = Err (DuplicateExtension y) /\ y ∈ exts /\
               exists e'', e'' ∈ r /\ claims e'' y = true) /\
  (forall r path, resolve r path = Err (NoPluginForExtension (extension path)) <->
     forall e, e ∈ r -> claims e (extension path) = false).
Proof.
  split.
  - intros r n exts e' x x' He' Hx Hx' Hs. unfold register.
    destruct (clash r (plugin_entry n exts)) as [y|] eqn:Hc.
    + exists y. split; [done|]. exact (clash_Some _ _ _ Hc).
    + rewrite clash_None in Hc. exfalso.
      assert (Hcl : claims e' x = true) by (apply claims_iff; eauto). by rewrite Hc in Hcl.
  - intros r path. unfold resolve. rewrite <- find_None_iff.
    destruct (find _ r); split; congruence.
Qed.

End RegistryFacts.

Module RegistryWitnesses.
Import Registry.

Definition startup_plugins : list (string * list string) :=
  [("Targa", [".tga"]); ("PPM", [".ppm"; ".pnm"])].

Lemma registry_resolve_witness :
  register_all [] (map (uncurry plugin_entry) startup_plugins) =
    Ok (map (uncurry plugin_entry) startup_plugins) /\
  resolve (map (uncurry plugin_entry) startup_plugins) "shots/a.0001.TGA" = Ok targa_entry.
Proof.
  split; [reflexivity|].
  apply (proj2 (RegistryFacts.registry_resolve startup_plugins _ eq_refl) "Targa" [".tga"] ".tga");
    [apply list_elem_of_here | apply list_elem_of_here | reflexivity].
Defined.

Lemma registry_errors_witness :
  exists y, register [targa_entry] (plugin_entry "TGA2" [".TGA"]) = Err (DuplicateExtension y).
Proof.
  destruct (proj1 RegistryFacts.registry_errors [targa_entry] "TGA2" [".TGA"] targa_entry ".TGA" ".tga")
    as (y & Hy & _); [apply list_elem_of_here | apply list_elem_of_here | apply list_elem_of_here |
                      reflexivity |].
  exists y. exact Hy.
Defined.

End RegistryWitnesses.
