(* ===== verification/Sequence.v ===== *)
(** * Sequence resolution (spec, section 4.4) and sequence writing

    A representative path such as [render.0001.dpx] is split around its
    last numeric token ([Sequence.parse]); the path of frame [n] has [n]
    written in decimal and padded with zeros to the token's width
    ([frame_path]); a frame range resolves against the files present to the
    list of their paths in frame order, or fails with [MissingFrame] naming
    the first frame that is absent ([resolve]); a path without a numeric
    token is the one-element case.  A sequence writer calls a codec's
    [_write] once per frame path ([write_sequence]); with the DPX writer of
    [src/lib/djvAV/DPXWrite.cpp] ([DPX._write]) the files it opens are the
    frame paths, which resolve back.  The sequence layer's code is not under
    [src/]: it is modelled from the spec. *)

From Stdlib Require Import Sorting.Sorted.
From S2P Require Import Prelude DPX.

Module Sequence.

Inductive SequenceError := MissingFrame (frame : Z) | NotASequence.

(** A path split around its last run of digits. *)
Record Pattern := { prefix : string; width : nat; suffix : string }.

Definition is_digit_c (c : ascii) : bool :=
  let n := nat_of_ascii c in (48 <=? n)%nat && (n <=? 57)%nat.

(** Splits the reversed path into the reversed suffix, the digits of the
    last numeric token and the reversed prefix. *)
Fixpoint split_suffix (r : list ascii) : list ascii * list ascii :=
  match r with
  | [] => ([], [])
  | c :: r' => if is_digit_c c then ([], r) else let '(s, t) := split_suffix r' in (c :: s, t)
  end.

Fixpoint split_digits (r : list ascii) : list ascii * list ascii :=
  match r with
  | [] => ([], [])
  | c :: r' => if is_digit_c c then let '(d, t) := split_digits r' in (c :: d, t) else ([], r)
  end.

Definition parse (path : string) : option Pattern :=
  let r := rev (list_ascii_of_string path) in
  let '(sfx, rest) := split_suffix r in
  let '(digits, pre) := split_digits rest in
  match digits with
  | [] => None
  | _ => Some {| prefix := string_of_list_ascii (rev pre); width := length digits;
                 suffix := string_of_list_ascii (rev sfx) |}
  end.

(** The decimal digits of [n], most significant first, for [n >= 0]. *)
Fixpoint digits_aux (fuel : nat) (n : Z) (acc : list ascii) : list ascii :=
  match fuel with
  | O => acc
  | S f => let acc' := ascii_of_nat (48 + Z.to_nat (n mod 10)) :: acc in
           if n <? 10 then acc' else digits_aux f (n / 10) acc'
  end.

Definition digits (n : Z) : list ascii := digits_aux (S (Z.to_nat (Z.log2 (Z.max 1 n)))) n [].

(** [n] padded with zeros to [w] digits. *)
Definition pad (w : nat) (n : Z) : list ascii :=
  let d := digits n in repeat "0"%char (w - length d) ++ d.

Definition frame_path (p : Pattern) (n : Z) : string :=
  string_of_list_ascii
    (list_ascii_of_string (prefix p) ++ pad (width p) n ++ list_ascii_of_string (suffix p)).

(** The [count] frames from [first] on, and the frames [first], ...,
    [last]. *)
Fixpoint range_from (first : Z) (count : nat) : list Z :=
  match count with
  | O => []
  | S c => first :: range_from (first + 1) c
  end.

Definition frame_range (first last : Z) : list Z := range_from first (Z.to_nat (last - first + 1)).

(** Resolves a frame range against the files present. *)
Fixpoint resolve_frames (exists_ : string -> bool) (p : Pattern) (frames : list Z)
    : result SequenceError (list string) :=
  match frames with
  | [] => Ok []
  | n :: ns =>
      if exists_ (frame_path p n) then
        match resolve_frames exists_ p ns with
        | Ok l => Ok (frame_path p n :: l)
        | Err e => Err e
        end
      else Err (MissingFrame n)
  end.

Definition resolve (exists_ : string -> bool) (path : string) (first last : Z)
    : result SequenceError (list string) :=
  match parse path with
  | None => if exists_ path then Ok [path] else Err NotASequence
  | Some p => resolve_frames exists_ p (frame_range first last)
  end.

(** The value of a run of decimal digits. *)
Definition dec_value (l : list ascii) : Z :=
  fold_left (fun acc c => acc * 10 + (Z.of_nat (nat_of_ascii c) - 48)) l 0.

(** A sequence writer: the codec's [write] of each image of the clip to
    the path of its frame, the frames numbered from [first]. *)
Fixpoint write_sequence {Img Op} (write : string -> Img -> list Op) (p : Pattern) (first : Z)
    (images : list Img) : list Op :=
  match images with
  | [] => []
  | img :: imgs => write (frame_path p first) img ++ write_sequence write p (first + 1) imgs
  end.

(** The files a trace of DPX file operations opens, in order. *)
Definition opened (ops : list DPX.FileOp) : list string :=
  omap (fun op => match op with DPX.FOpen f => Some f | _ => None end) ops.

Definition on_disk (files : list string) (s : string) : bool := existsb (String.eqb s) files.

End Sequence.


(** ** Decimal frame numbers *)

Module DigitsFacts.
Import Sequence.

Lemma dec_fold l a :
  fold_left (fun acc c => acc * 10 + (Z.of_nat (nat_of_ascii c) - 48)) l a =
  a * 10 ^ Z.of_nat (length l) + dec_value l.
Proof.
  unfold dec_value. revert a. induction l as [|c l IH]; intros a; simpl; [lia|].
  rewrite IH, (IH (0 * 10 + _)), Nat2Z.inj_succ, Z.pow_succ_r by lia. lia.
Qed.

Lemma dec_value_app l1 l2 :
  dec_value (l1 ++ l2) = dec_value l1 * 10 ^ Z.of_nat (length l2) + dec_value l2.
Proof. unfold dec_value at 1. rewrite fold_left_app, dec_fold. done. Qed.

Lemma dec_value_cons c l :
  dec_value (c :: l) = (Z.of_nat (nat_of_ascii c) - 48) * 10 ^ Z.of_nat (length l) + dec_value l.
Proof. apply (dec_value_app [c] l). Qed.

Lemma digit_char k : 0 <= k < 10 -> Z.of_nat (nat_of_ascii (ascii_of_nat (48 + Z.to_nat k))) - 48 = k.
Proof. intros Hk. rewrite Ascii.nat_ascii_embedding by lia. lia. Qed.

Lemma digits_aux_value f n acc :
  0 <= n < 10 ^ Z.of_nat f ->
  dec_value (digits_aux f n acc) = n * 10 ^ Z.of_nat (length acc) + dec_value acc.
Proof.
  revert n acc. induction f as [|f IH]; intros n acc Hn; cbn [digits_aux].
  { change (10 ^ Z.of_nat 0) with 1 in Hn. assert (n = 0) as -> by lia. lia. }
  rewrite Nat2Z.inj_succ, Z.pow_succ_r in Hn by lia.
  assert (Hm : 0 <= n mod 10 < 10) by (apply Z.mod_pos_bound; lia).
  destruct (n <? 10) eqn:E; [apply Z.ltb_lt in E | apply Z.ltb_ge in E].
  - rewrite dec_value_cons, digit_char by done. rewrite Z.mod_small by lia. done.
  - rewrite IH by (split; [apply Z.div_pos | apply Z.div_lt_upper_bound]; lia).
    rewrite dec_value_cons, digit_char by done. simpl length.
    rewrite Nat2Z.inj_succ, Z.pow_succ_r by lia.
    pose proof (Z.div_mod n 10). lia.
Qed.

Lemma digits_value n : 0 <= n -> dec_value (digits n) = n.
Proof.
  intros Hn. unfold digits. rewrite digits_aux_value; [cbn [length Z.of_nat]; rewrite Z.pow_0_r; unfold dec_value; simpl; lia|].
  split; [done|]. set (m := Z.max 1 n).
  assert (Hm : n < 2 ^ Z.succ (Z.log2 m)) by (pose proof (Z.log2_spec m); lia).
  rewrite Nat2Z.inj_succ, Z2Nat.id by (apply Z.log2_nonneg).
  eapply Z.lt_le_trans; [exact Hm|]. apply Z.pow_le_mono_l; lia.
Qed.

Lemma pad_value w n : 0 <= n -> dec_value (pad w n) = n.
Proof.
  intros Hn. unfold pad. rewrite dec_value_app, digits_value by done.
  assert (Hz : forall k, dec_value (repeat "0"%char k) = 0).
  { induction k as [|k IH]; [done|]. cbn [repeat]. rewrite (dec_value_cons "0"%char), IH. done. }
  rewrite Hz. lia.
Qed.

(** Distinct frames have distinct paths: the padded numbers are read back. *)
Lemma frame_path_inj p n k : 0 <= n -> 0 <= k -> frame_path p n = frame_path p k -> n = k.
Proof.
  intros Hn Hk H. unfold frame_path in H.
  apply (f_equal list_ascii_of_string) in H. rewrite !list_ascii_of_string_of_list_ascii in H.
  apply app_inv_head in H. apply app_inv_tail in H.
  rewrite <- (pad_value (width p) n), <- (pad_value (width p) k) by done. by rewrite H.
Qed.

End DigitsFacts.

(** ** Resolution of sequences *)

Module SequenceFacts.
Import Sequence.

Lemma elem_of_range_from n a c : n ∈ range_from a c <-> a <= n < a + Z.of_nat c.
Proof.
  revert a. induction c as [|c IH]; intros a; simpl; [rewrite elem_of_nil; lia|].
  rewrite elem_of_cons, IH. lia.
Qed.

Lemma range_from_sorted a c : StronglySorted Z.lt (range_from a c) /\ length (range_from a c) = c.
Proof.
  revert a. induction c as [|c IH]; intros a; simpl; [split; [constructor | done]|].
  destruct (IH (a + 1)) as [Hs Hl]. split; [|by rewrite Hl]. constructor; [done|].
  apply Forall_forall. intros n Hn%elem_of_range_from. lia.
Qed.

Lemma resolve_frames_all exists_ p frames :
  (forall n, n ∈ frames -> exists_ (frame_path p n) = true) ->
  resolve_frames exists_ p frames = Ok (map (frame_path p) frames).
Proof.
  induction frames as [|n ns IH]; intros H; simpl; [done|].
  rewrite H by apply list_elem_of_here. rewrite IH; [done|]. intros m Hm. apply H. by right.
Qed.

Lemma resolve_frames_missing exists_ p a c k :
  a <= k < a + Z.of_nat c -> (forall n, a <= n < k -> exists_ (frame_path p n) = true) ->
  exists_ (frame_path p k) = false ->
  resolve_frames exists_ p (range_from a c) = Err (MissingFrame k).
Proof.
  revert a. induction c as [|c IH]; intros a Hk Hpre Hmiss; simpl; [lia|].
  destruct (decide (k = a)) as [->|Hne]; [by rewrite Hmiss|].
  rewrite Hpre by lia. rewrite IH; [done | lia | | done]. intros n Hn. apply Hpre. lia.
Qed.

Lemma split_suffix_cases r :
  (Forall (fun c => is_digit_c c = false) r /\ (split_suffix r).2 = []) \/
  (exists c t, (split_suffix r).2 = c :: t /\ is_digit_c c = true) .
Proof.
  induction r as [|c r IH]; simpl; [left; done|].
  destruct (is_digit_c c) eqn:Hc; [right; eauto|].
  destruct (split_suffix r) as [sf t]; simpl in *.
  destruct IH as [[Hf ->] | (c' & t' & -> & Hc')]; [left; split; [by constructor | done] | right; eauto].
Qed.

(** The one-element case is exactly that of a path without a digit. *)
Lemma parse_None path :
  parse path = None <-> Forall (fun c => is_digit_c c = false) (list_ascii_of_string path).
Proof.
  assert (HR : forall l, Forall (fun c => is_digit_c c = false) (rev l) <->
                        Forall (fun c => is_digit_c c = false) l).
  { intros l. split; intros H; [rewrite <- (rev_involutive l) |]; by apply Forall_rev. }
  unfold parse. rewrite <- HR.
  destruct (split_suffix_cases (rev (list_ascii_of_string path))) as [[Hf Ht] | (c & t & Ht & Hc)];
    destruct (split_suffix _) as [sfx rest] eqn:E; simpl in Ht; subst rest.
  - simpl. split; done.
  - simpl. rewrite Hc. destruct (split_digits t). split; [done|].
    intros Hf. rewrite Forall_forall in Hf.
    enough (Hin : c ∈ rev (list_ascii_of_string path)) by (rewrite Hf in Hc; [congruence | exact Hin]).
    clear Hf Hc. revert sfx E. generalize (rev (list_ascii_of_string path)) as xs.
    induction xs as [|d xs IH]; intros sfx E; simpl in E; [congruence|].
    destruct (is_digit_c d).
    + injection E as _ -> ->. constructor.
    + destruct (split_suffix xs) as [s0 t0] eqn:E'. injection E as _ ->. right. by apply (IH s0).
Qed.

Lemma length_pad w n : length (pad w n) = Nat.max w (length (digits n)).
Proof. unfold pad. rewrite length_app, repeat_length. lia. Qed.

(** A sequence resolves a frame range [first..last] to the paths of its
    frames in ascending frame order, one per frame, each with the frame
    number zero-padded to the width of the representative path's numeric
    token, when every one of those files is present; when one is absent, it
    fails with [MissingFrame] naming the first absent frame. *)
Lemma sequence_resolve exists_ path p first last :
  parse path = Some p ->
  ((forall n, first <= n <= last -> exists_ (frame_path p n) = true) ->
   resolve exists_ path first last = Ok (map (frame_path p) (frame_range first last)) /\
   StronglySorted Z.lt (frame_range first last) /\
   length (frame_range first last) = Z.to_nat (last - first + 1) /\
   (forall n, n ∈ frame_range first last <-> first <= n <= last) /\
   (forall n, (width p <= length (pad (width p) n))%nat)) /\
  (forall k, first <= k <= last -> (forall n, first <= n < k -> exists_ (frame_path p n) = true) ->
   exists_ (frame_path p k) = false -> resolve exists_ path first last = Err (MissingFrame k)).
Proof.
  intros Hp. unfold resolve, frame_range. rewrite Hp. split.
  - intros Hall. destruct (range_from_sorted first (Z.to_nat (last - first + 1))) as [Hs Hl].
    assert (Hin : forall n, n ∈ range_from first (Z.to_nat (last - first + 1)) <-> first <= n <= last)
      by (intros n; rewrite elem_of_range_from; lia).
    split; [|split; [done | split; [done | split; [exact Hin | intros m; rewrite length_pad; lia]]]].
    apply resolve_frames_all. intros n Hn. apply Hall, Hin, Hn.
  - intros k Hk Hpre Hmiss. apply resolve_frames_missing; [lia | done | done].
Qed.

Lemma on_disk_iff files s : on_disk files s = true <-> s ∈ files.
Proof.
  unfold on_disk. rewrite existsb_exists, list_elem_of_In.
  split; [intros (x & Hx & ->%String.eqb_eq); done | intros Hs; exists s; rewrite String.eqb_refl; done].
Qed.

Lemma opened_write_sequence w p first images :
  opened (write_sequence (DPX._write w) p first images) =
  map (frame_path p) (range_from first (length images)).
Proof.
  revert first. induction images as [|img imgs IH]; intros first; [done|].
  cbn [write_sequence length range_from map]. unfold opened in *. rewrite omap_app, IH. done.
Qed.

Lemma frame_paths_NoDup p a c : 0 <= a -> NoDup (map (frame_path p) (range_from a c)).
Proof.
  revert a. induction c as [|c IH]; intros a Ha; simpl; constructor; [|apply IH; lia].
  intros (m & Hm & Hr)%list_elem_of_fmap_1. apply elem_of_range_from in Hr.
  apply DigitsFacts.frame_path_inj in Hm; lia.
Qed.

(** C40. Writing a clip of images as a DPX sequence named after [path]
    opens, one [_write] per image, exactly the zero-padded paths of the
    frames [first], [first + 1], ..., in that order and all distinct, and
    resolving that frame range against the files written gives them back;
    with the file of any one frame [k] missing, resolution fails with
    [MissingFrame k]. *)
Theorem sequence_write_resolve w path p first images :
  parse path = Some p -> 0 <= first ->
  let last := first + Z.of_nat (length images) - 1 in
  let files := opened (write_sequence (DPX._write w) p first images) in
  files = map (frame_path p) (frame_range first last) /\
  NoDup files /\
  resolve (on_disk files) path first last = Ok files /\
  (forall k, first <= k <= last ->
     resolve (fun s => on_disk files s && negb (String.eqb s (frame_path p k))) path first last =
       Err (MissingFrame k)).
Proof.
  intros Hp Hfirst last files.
  assert (Hr : frame_range first last = range_from first (length images))
    by (unfold frame_range, last; f_equal; lia).
  assert (Hf : files = map (frame_path p) (frame_range first last))
    by (rewrite Hr; apply opened_write_sequence).
  assert (Hin : forall n, first <= n <= last -> on_disk files (frame_path p n) = true).
  { intros n Hn. apply on_disk_iff. rewrite Hf. apply list_elem_of_fmap_2.
    unfold frame_range. apply elem_of_range_from. lia. }
  split; [done|]. split; [rewrite Hf, Hr; by apply frame_paths_NoDup|]. split.
  - rewrite Hf at 2. apply (proj1 (sequence_resolve _ _ _ _ _ Hp)). exact Hin.
  - intros k Hk. apply (proj2 (sequence_resolve _ _ _ _ _ Hp)); [done | |].
    + intros n Hn. rewrite Hin by lia. simpl. apply negb_true_iff, String.eqb_neq.
      intros E. apply DigitsFacts.frame_path_inj in E; lia.
    + rewrite String.eqb_refl. apply andb_false_r.
Qed.

End SequenceFacts.

Module SequenceWitnesses.
Import Sequence.

Definition frame_pattern : Pattern := {| prefix := "frame."; width := 4; suffix := ".tga" |}.

Definition one_pixel : DPX.Image :=
  {| DPX.info := {| DPX.width := 1; DPX.height := 1; DPX.pixelType := DPX.RGB_U10 |};
     DPX.tags := []; DPX.data := [0; 0; 0; 0] |}.

Definition clip_ops : list DPX.FileOp :=
  write_sequence
    (DPX._write (DPX.create "frame.0001.tga" {| DPX.video := [DPX.info one_pixel]; DPX.info_tags := [] |}
                  {| DPX.colorSpace := "" |}
                  {| DPX.version := DPX.Version_2_0; DPX.endian := DPX.Endian_Auto |}))
    frame_pattern 1 [one_pixel; one_pixel; one_pixel].

Lemma sequence_write_resolve_witness :
  opened clip_ops = ["frame.0001.tga"; "frame.0002.tga"; "frame.0003.tga"]%string /\
  resolve (fun s => on_disk (opened clip_ops) s && negb (String.eqb s "frame.0002.tga"))
    "frame.0001.tga" 1 3 = Err (MissingFrame 2).
Proof.
  split; [reflexivity|].
  exact (proj2 (proj2 (proj2 (SequenceFacts.sequence_write_resolve _ "frame.0001.tga" frame_pattern 1
           [one_pixel; one_pixel; one_pixel] eq_refl ltac:(lia)))) 2 ltac:(simpl; lia)).
Defined.

End SequenceWitnesses.

