(* ===== verification/Gui.v ===== *)
(** * The miscellaneous preferences widget and the information dialog
    ([src/lib/djvGui/djvMiscPrefsWidget.cpp],
    [src/lib/djvGui/djvApplicationInfoDialog.cpp])

    [djvMiscPrefsWidget] shows three process-wide preferences (the time
    units of [djvMiscPrefs], its default speed, and the application's tool
    tips) in two combo boxes and a check box.  A user choice calls the
    widget's callback, which stores the value in the preference; [Reset]
    restores the factory defaults and [widgetUpdate] copies the preferences
    back into the widgets under a signal blocker.  The process-wide state
    is the record [Globals]; the preference setters only store the value
    (their bodies are not under [src/]).  Enum values are their [int]s, as
    the callbacks' [static_cast]s make them; a combo box given an index it
    has no item for shows [-1], as [QComboBox::setCurrentIndex] does.

    [djvApplicationInfoDialog::global] creates the dialog on its first call
    and returns that same dialog afterwards: its text is the application's
    information at that first call. *)

From S2P Require Import Prelude.

Module MiscPrefsWidget.

(** [djvTime::UNITS]. *)
Definition UNITS_TIMECODE : Z := 0.
Definition UNITS_FRAMES : Z := 1.
Definition UNITS_COUNT : Z := 2.

(** What is process-wide: [djvTime]'s and [djvSpeed]'s defaults, the
    preferences of [djvMiscPrefs::global()] and [DJV_APP]'s tool tips. *)
Record Globals := {
  unitsDefault : Z;
  fpsDefault : Z;
  units : Z;
  speed : Z;
  toolTips : bool
}.

(** [djvMiscPrefsWidget::P]: the two combo boxes (items and current
    index) and the check box; the group boxes as their titles and texts. *)
Record P := {
  timeUnitsItems : list string;
  timeUnitsIndex : Z;
  speedItems : list string;
  speedIndex : Z;
  toolTipsText : string;
  toolTipsChecked : bool;
  groups : list (string * string)
}.

(** [QComboBox::setCurrentIndex]. *)
Definition combo_index (items : list string) (i : Z) : Z :=
  if (0 <=? i) && (i <? Z.of_nat (length items)) then i else -1.

Section Widget.
(** [djvTime::unitsLabels()], [djvSpeed::fpsLabels()], the factory
    defaults [resetUnitsDefault] and [resetFpsDefault] restore, and
    [djvApplication::toolTipsDefault()]. *)
Variables (unitsLabels fpsLabels : list string) (unitsFactory fpsFactory : Z)
  (toolTipsDefault : bool).

Definition set_units (g : Globals) (v : Z) : Globals :=
  {| unitsDefault := unitsDefault g; fpsDefault := fpsDefault g; units := v; speed := speed g;
     toolTips := toolTips g |}.
Definition set_speed (g : Globals) (v : Z) : Globals :=
  {| unitsDefault := unitsDefault g; fpsDefault := fpsDefault g; units := units g; speed := v;
     toolTips := toolTips g |}.
Definition setToolTips (g : Globals) (v : bool) : Globals :=
  {| unitsDefault := unitsDefault g; fpsDefault := fpsDefault g; units := units g; speed := speed g;
     toolTips := v |}.
Definition resetFpsDefault (g : Globals) : Globals :=
  {| unitsDefault := unitsDefault g; fpsDefault := fpsFactory; units := units g; speed := speed g;
     toolTips := toolTips g |}.
Definition resetUnitsDefault (g : Globals) : Globals :=
  {| unitsDefault := unitsFactory; fpsDefault := fpsDefault g; units := units g; speed := speed g;
     toolTips := toolTips g |}.

(** [widgetUpdate()]: the signals of the three widgets are blocked, so
    setting them calls no callback. *)
Definition widgetUpdate (g : Globals) (p : P) : P :=
  {| timeUnitsItems := timeUnitsItems p; timeUnitsIndex := combo_index (timeUnitsItems p) (units g);
     speedItems := speedItems p; speedIndex := combo_index (speedItems p) (speed g);
     toolTipsText := toolTipsText p; toolTipsChecked := toolTips g; groups := groups p |}.

(** [djvMiscPrefsWidget(parent)]: the widgets, with the labels as items
    (a combo box shows its first item once it has one), the two group
    boxes, then [widgetUpdate()]. *)
Definition create (g : Globals) : P :=
  widgetUpdate g
    {| timeUnitsItems := unitsLabels; timeUnitsIndex := combo_index unitsLabels 0;
       speedItems := fpsLabels; speedIndex := combo_index fpsLabels 0;
       toolTipsText := "Enable tool tips"; toolTipsChecked := false;
       groups := [("Time", "Set general time options."); ("Help", "Set general help options.")] |}.

(** [resetPreferences()]. *)
Definition resetPreferences (g : Globals) (p : P) : Globals * P :=
  let g := resetFpsDefault g in
  let g := set_speed g (fpsDefault g) in
  let g := resetUnitsDefault g in
  let g := set_units g (unitsDefault g) in
  let g := setToolTips g toolTipsDefault in
  (g, widgetUpdate g p).

(** The three callbacks. *)
Definition timeUnitsCallback (g : Globals) (index : Z) : Globals := set_units g index.
Definition speedCallback (g : Globals) (index : Z) : Globals := set_speed g index.
Definition helpToolTipsCallback (g : Globals) (value : bool) : Globals := setToolTips g value.

(** What the user does: choose an item of a combo box (which becomes
    current and emits [activated(index)]), click the check box (which
    toggles and emits [toggled]), or reset the preferences. *)
Inductive Event := ChooseUnits (index : nat) | ChooseSpeed (index : nat) | ClickToolTips | Reset.

Definition handle (s : Globals * P) (ev : Event) : Globals * P :=
  let '(g, p) := s in
  match ev with
  | ChooseUnits i =>
      if (i <? length (timeUnitsItems p))%nat then
        (timeUnitsCallback g (Z.of_nat i),
         {| timeUnitsItems := timeUnitsItems p; timeUnitsIndex := Z.of_nat i;
            speedItems := speedItems p; speedIndex := speedIndex p; toolTipsText := toolTipsText p;
            toolTipsChecked := toolTipsChecked p; groups := groups p |})
      else (g, p)
  | ChooseSpeed i =>
      if (i <? length (speedItems p))%nat then
        (speedCallback g (Z.of_nat i),
         {| timeUnitsItems := timeUnitsItems p; timeUnitsIndex := timeUnitsIndex p;
            speedItems := speedItems p; speedIndex := Z.of_nat i; toolTipsText := toolTipsText p;
            toolTipsChecked := toolTipsChecked p; groups := groups p |})
      else (g, p)
  | ClickToolTips =>
      let v := negb (toolTipsChecked p) in
      (helpToolTipsCallback g v,
       {| timeUnitsItems := timeUnitsItems p; timeUnitsIndex := timeUnitsIndex p;
          speedItems := speedItems p; speedIndex := speedIndex p; toolTipsText := toolTipsText p;
          toolTipsChecked := v; groups := groups p |})
  | Reset => resetPreferences g p
  end.

Definition run (s : Globals * P) (evs : list Event) : Globals * P := fold_left handle evs s.

End Widget.

End MiscPrefsWidget.

Module InfoDialog.

(** [djvApplicationInfoDialog()]: a read-only text with [DJV_APP->info()],
    a Close button that rejects the dialog, its title and size. *)
Record Dialog := {
  text : string;
  readOnly : bool;
  windowTitle : string;
  dialogSize : Z * Z;
  buttons : list string
}.

Definition create (info : string) : Dialog :=
  {| text := info; readOnly := true; windowTitle := "Information Dialog"; dialogSize := (500, 400);
     buttons := ["Close"] |}.

(** [djvApplicationInfoDialog::global()], with its [static] pointer. *)
Definition global (dialog : option Dialog) (info : string) : option Dialog * Dialog :=
  match dialog with
  | Some d => (Some d, d)
  | None => let d := create info in (Some d, d)
  end.

End InfoDialog.

(** ** The widget shows the preferences *)

Module MiscPrefsWidgetFacts.
Import MiscPrefsWidget.

Section Facts.
Variables (unitsLabels fpsLabels : list string) (unitsFactory fpsFactory : Z)
  (toolTipsDefault : bool).

(** The widgets show the preferences, and the combo boxes hold the
    labels. *)
Definition shows (s : Globals * P) : Prop :=
  let '(g, p) := s in
  timeUnitsItems p = unitsLabels /\ speedItems p = fpsLabels /\
  timeUnitsIndex p = combo_index (timeUnitsItems p) (units g) /\
  speedIndex p = combo_index (speedItems p) (speed g) /\
  toolTipsChecked p = toolTips g.

Lemma combo_index_item items i : (i < length items)%nat -> combo_index items (Z.of_nat i) = Z.of_nat i.
Proof.
  intros Hi. unfold combo_index. rewrite (proj2 (Z.leb_le _ _)), (proj2 (Z.ltb_lt _ _)) by lia. done.
Qed.

Lemma widgetUpdate_shows g p :
  timeUnitsItems p = unitsLabels -> speedItems p = fpsLabels -> shows (g, widgetUpdate g p).
Proof. intros Hu Hs. simpl. by rewrite Hu, Hs. Qed.

Lemma create_shows g : shows (g, create unitsLabels fpsLabels g).
Proof. by apply widgetUpdate_shows. Qed.

Lemma handle_shows s ev : shows s -> shows (handle unitsFactory fpsFactory toolTipsDefault s ev).
Proof.
  destruct s as [g p]. intros (Hu & Hs & Hui & Hsi & Ht).
  destruct ev as [i|i| |]; unfold shows, handle.
  - destruct (i <? length (timeUnitsItems p))%nat eqn:E; cbn -[combo_index]; [|by repeat split]. apply Nat.ltb_lt in E.
    cbn -[combo_index]. rewrite combo_index_item by done. by repeat split.
  - destruct (i <? length (speedItems p))%nat eqn:E; cbn -[combo_index]; [|by repeat split]. apply Nat.ltb_lt in E.
    cbn -[combo_index]. rewrite combo_index_item by done. by repeat split.
  - by repeat split.
  - by apply widgetUpdate_shows.
Qed.

Lemma run_shows s evs : shows s -> shows (run unitsFactory fpsFactory toolTipsDefault s evs).
Proof.
  revert s. induction evs as [|ev evs IH]; intros s Hs; [done|]. apply IH, handle_shows, Hs.
Qed.

Lemma resetPreferences_globals g p :
  (resetPreferences unitsFactory fpsFactory toolTipsDefault g p).1 =
  {| unitsDefault := unitsFactory; fpsDefault := fpsFactory; units := unitsFactory;
     speed := fpsFactory; toolTips := toolTipsDefault |}.
Proof. done. Qed.

Lemma prefs_run_app s evs evs' :
  run unitsFactory fpsFactory toolTipsDefault s (evs ++ evs') =
  run unitsFactory fpsFactory toolTipsDefault (run unitsFactory fpsFactory toolTipsDefault s evs) evs'.
Proof. apply fold_left_app. Qed.

(** C37. However the user chooses time units, speeds and tool tips, and
    resets the preferences, the miscellaneous preferences widget shows the
    preferences as they are (its combo boxes at their values, its check box
    at the tool tips), and a reset restores every preference and default to
    the factory values. *)
Theorem prefs_widget_in_sync g evs :
  shows (run unitsFactory fpsFactory toolTipsDefault (g, create unitsLabels fpsLabels g) evs) /\
  (run unitsFactory fpsFactory toolTipsDefault (g, create unitsLabels fpsLabels g) (evs ++ [Reset])).1 =
    {| unitsDefault := unitsFactory; fpsDefault := fpsFactory; units := unitsFactory;
       speed := fpsFactory; toolTips := toolTipsDefault |}.
Proof.
  split; [apply run_shows, create_shows|].
  rewrite prefs_run_app. destruct (run _ _ _ _ evs) as [g' p']. apply resetPreferences_globals.
Qed.

End Facts.

End MiscPrefsWidgetFacts.

Module InfoDialogFacts.
Import InfoDialog.

(** Whatever the information at the later calls, [global] returns the
    dialog the first call created. *)
Lemma global_first (infos : list string) info :
  forall d, fold_left (fun st i => (global st.1 i)) infos (global None info) = d -> d.2 = create info.
Proof.
  intros d <-. assert (H : (global None info).1 = Some (create info) /\ (global None info).2 = create info)
    by done.
  revert H. generalize (global None info). induction infos as [|i infos IH]; intros st [H1 H2]; [done|].
  simpl. apply IH. by rewrite H1.
Qed.

End InfoDialogFacts.
